(** * The metal price tool of [src/mcpserver/fetch_metal_price.py]

    A shallow embedding of the Python module that fetches a precious-metal
    spot price and an exchange rate, applies GST and import duty, and
    returns a report.  Python values are modelled as the interpreter has
    them:

    - [str] is a sequence of Unicode code points;
    - a decoded JSON document is a tree of [None], [bool], [int], [float],
      [str], [list] and [dict] values;
    - [float] is IEEE binary64 (Rocq's primitive floats), whose rounding
      is analysed from its specification in [SpecFloat]; the same code is
      also instantiated with exact rationals, the arithmetic in which the
      algebra of the tax formulas is usually read;
    - an exception is an explicit alternative result ([Raise]), and
      [try ... except] is a combinator on such results. *)

From Stdlib Require Import ZArith NArith List Bool String Ascii Lia.
From Stdlib Require Import QArith Qcanon Qabs Qpower.
From Stdlib Require Import Floats.
From Stdlib Require Import DecimalN DecimalPos.
Import ListNotations.

Set Implicit Arguments.
Set Warnings "-inexact-float,-register-all".

(** ** Python strings *)

(** A [str] is its sequence of code points. *)
Definition str := list N.

(** An ASCII literal of the source, as a [str]. *)
Definition u (s : string) : str :=
  map N_of_ascii (list_ascii_of_string s).

Fixpoint str_eqb (a b : str) : bool :=
  match a, b with
  | [], [] => true
  | x :: a', y :: b' => (x =? y)%N && str_eqb a' b'
  | _, _ => false
  end.

(** [str.isspace] on one code point: the white space that [str.strip()]
    removes (U+0009..U+000D, U+001C..U+0020, U+0085, U+00A0, U+1680,
    U+2000..U+200A, U+2028, U+2029, U+202F, U+205F, U+3000). *)
Definition isspace (c : N) : bool :=
  ((9 <=? c) && (c <=? 13) || (28 <=? c) && (c <=? 32)
   || (c =? 133) || (c =? 160) || (c =? 5760)
   || (8192 <=? c) && (c <=? 8202)
   || (c =? 8232) || (c =? 8233) || (c =? 8239) || (c =? 8287)
   || (c =? 12288))%N.

Fixpoint lstrip (s : str) : str :=
  match s with
  | c :: t => if isspace c then lstrip t else s
  | [] => []
  end.

Definition rstrip (s : str) : str := rev (lstrip (rev s)).

(** [s.strip()] *)
Definition str_strip (s : str) : str := rstrip (lstrip s).

Definition isascii (s : str) : bool := forallb (fun c => (c <? 128)%N) s.

Definition is_ascii_upper (c : N) : bool := ((65 <=? c) && (c <=? 90))%N.
Definition is_ascii_lower (c : N) : bool := ((97 <=? c) && (c <=? 122))%N.

Definition ascii_lower (c : N) : N :=
  if is_ascii_upper c then (c + 32)%N else c.

Definition ascii_upper (c : N) : N :=
  if is_ascii_lower c then (c - 32)%N else c.

(** [s.title()] on a string of ASCII letters and uncased characters: a
    letter that follows a letter is lowercased, any other letter is
    uppercased.  The source applies it to keys of [METAL_CONFIG] only. *)
Fixpoint title_from (previous_is_cased : bool) (s : str) : str :=
  match s with
  | [] => []
  | c :: t =>
      (if previous_is_cased then ascii_lower c else ascii_upper c)
        :: title_from (is_ascii_upper c || is_ascii_lower c) t
  end.

Definition str_title (s : str) : str := title_from false s.

(** [sep.join(parts)] *)
Fixpoint join (sep : str) (parts : list str) : str :=
  match parts with
  | [] => []
  | [p] => p
  | p :: rest => p ++ sep ++ join sep rest
  end.

(** [s] is empty or starts with a character that is not white space. *)
Definition starts_clean (s : str) : Prop :=
  match s with
  | [] => True
  | c :: _ => isspace c = false
  end.

(** [t] is a slice [s[i:j]] of [s]. *)
Definition slice_of (t s : str) : Prop := exists pre post, s = pre ++ t ++ post.

(** ** Exceptions *)

(** The exception classes that occur.  All of them derive from
    [Exception]; [RequestException] stands for the [requests] family
    (connection errors, timeouts, HTTP error statuses). *)
Inductive exn : Type :=
| RequestException | KeyError | IndexError | TypeError | AttributeError
| OverflowError | ZeroDivisionError | ValueError | OtherException.

Definition exn_eqb (a b : exn) : bool :=
  match a, b with
  | RequestException, RequestException | KeyError, KeyError
  | IndexError, IndexError | TypeError, TypeError
  | AttributeError, AttributeError | OverflowError, OverflowError
  | ZeroDivisionError, ZeroDivisionError | ValueError, ValueError
  | OtherException, OtherException => true
  | _, _ => false
  end.

(** The result of evaluating Python code: a value, or a raised exception. *)
Inductive py (A : Type) : Type :=
| Ret (a : A)
| Raise (e : exn).
Arguments Raise {A} e.

Definition bind {A B : Type} (m : py A) (k : A -> py B) : py B :=
  match m with
  | Ret a => k a
  | Raise e => Raise e
  end.

Declare Scope py_scope.
Delimit Scope py_scope with py.
Notation "x <- m ;; k" := (bind m (fun x => k))
  (at level 61, m at next level, right associativity) : py_scope.
Open Scope py_scope.

(** [try: body  except (classes): return handler] *)
Definition try_except {A : Type} (body : py A) (classes : list exn)
    (handler : A) : py A :=
  match body with
  | Ret a => Ret a
  | Raise e => if existsb (exn_eqb e) classes then Ret handler else Raise e
  end.

(** ** Float arithmetic *)

(** The operations on [float] that the module uses.  [of_int] is the
    conversion [float(n)] that mixed [int]/[float] arithmetic performs; it
    is [None] where Python raises [OverflowError].  [decimal m k] is the
    literal written [m * 10^-k] ([decimal 3 2] is [0.03]). *)
Class PyFloat (F : Type) : Type := {
  fadd : F -> F -> F;
  fmul : F -> F -> F;
  fdiv : F -> F -> F;
  of_int : Z -> option F;
  decimal : Z -> nat -> F;
  nonzero : F -> bool
}.

(** The integer [n] rounded to the nearest binary64 value, ties to even. *)
Definition Z2F (n : Z) : float := SF2Prim (binary_normalize prec emax n 0 false).

(** CPython's [float]: IEEE binary64. *)
#[export] Instance binary64 : PyFloat float := {
  fadd := PrimFloat.add;
  fmul := PrimFloat.mul;
  fdiv := PrimFloat.div;
  of_int n := let x := Z2F n in if is_infinity x then None else Some x;
  decimal m k := PrimFloat.div (Z2F m) (Z2F (10 ^ Z.of_nat k));
  nonzero x := negb (is_zero x)
}.

(** Exact rational arithmetic: an idealisation without rounding, overflow,
    infinities or NaN, in which the algebra of the formulas can be read.
    It is not what the interpreter computes; a statement about it says
    so. *)
#[export] Instance exact : PyFloat Qc := {
  fadd := Qcplus;
  fmul := Qcmult;
  fdiv := Qcdiv;
  of_int n := Some (Q2Qc (inject_Z n));
  decimal m k := Qcdiv (Q2Qc (inject_Z m)) (Q2Qc (inject_Z (10 ^ Z.of_nat k)));
  nonzero x := negb (Qc_eq_bool x (Q2Qc 0))
}.

(** ** Decoded JSON documents *)

(** What [response.json()] returns.  A [dict] is the list of its items,
    in order. *)
Inductive json (F : Type) : Type :=
| JNull
| JBool (b : bool)
| JInt (n : Z)
| JFloat (x : F)
| JStr (s : str)
| JList (items : list (json F))
| JDict (items : list (str * json F)).
Arguments JNull {F}.
Arguments JBool {F} b.
Arguments JInt {F} n.
Arguments JStr {F} s.

Fixpoint assoc {V : Type} (k : str) (items : list (str * V)) : option V :=
  match items with
  | [] => None
  | (k', v) :: rest => if str_eqb k k' then Some v else assoc k rest
  end.

(** [seq * n] for a sequence: [n] copies, none when [n <= 0].  The
    interpreter's limit on the length of a sequence is not modelled: for a
    huge [n] Python raises [OverflowError] or [MemoryError] where the
    model returns a long sequence.  Either way no report follows, since a
    [str] or [list] fails in the divisions of lines 113-114; only the
    class of the exception in the error text differs. *)
Definition repeat_seq {A : Type} (l : list A) (n : Z) : list A :=
  List.concat (repeat l (Z.to_nat n)).

(** A number: Python's [int] or [float]. *)
Inductive num (F : Type) : Type :=
| NInt (n : Z)
| NFloat (x : F).
Arguments NInt {F} n.

Section Values.
Context {F : Type} `{PyFloat F}.

(** [bool(v)] *)
Definition truthy (v : json F) : bool :=
  match v with
  | JNull => false
  | JBool b => b
  | JInt n => negb (n =? 0)%Z
  | JFloat x => nonzero x
  | JStr s => match s with [] => false | _ => true end
  | JList l => match l with [] => false | _ => true end
  | JDict d => match d with [] => false | _ => true end
  end.

(** The numeric reading of a value; [bool] is a subclass of [int]. *)
Definition as_num (v : json F) : option (num F) :=
  match v with
  | JBool b => Some (NInt (if b then 1 else 0)%Z)
  | JInt n => Some (NInt n)
  | JFloat x => Some (NFloat x)
  | _ => None
  end.

(** [float(a)] as arithmetic with a [float] operand applies it. *)
Definition to_float (a : num F) : py F :=
  match a with
  | NFloat x => Ret x
  | NInt n =>
      match of_int n with
      | Some x => Ret x
      | None => Raise OverflowError
      end
  end.

(** [o.get(k, default)]: the method exists on a [dict] only. *)
Definition py_get (o : json F) (k : str) (default : json F) : py (json F) :=
  match o with
  | JDict items =>
      Ret (match assoc k items with Some v => v | None => default end)
  | _ => Raise AttributeError
  end.

(** [o[0]] *)
Definition py_getitem0 (o : json F) : py (json F) :=
  match o with
  | JList (x :: _) => Ret x
  | JList [] => Raise IndexError
  | JStr (c :: _) => Ret (JStr [c])
  | JStr [] => Raise IndexError
  | JDict _ => Raise KeyError
  | _ => Raise TypeError
  end.

(** [v * w] *)
Definition py_mul (v w : json F) : py (json F) :=
  match as_num v, as_num w with
  | Some (NInt m), Some (NInt n) => Ret (JInt (m * n))
  | Some a, Some b =>
      x <- to_float a ;; y <- to_float b ;; Ret (JFloat (fmul x y))
  | Some (NInt n), None =>
      match w with
      | JStr s => Ret (JStr (repeat_seq s n))
      | JList l => Ret (JList (repeat_seq l n))
      | _ => Raise TypeError
      end
  | None, Some (NInt n) =>
      match v with
      | JStr s => Ret (JStr (repeat_seq s n))
      | JList l => Ret (JList (repeat_seq l n))
      | _ => Raise TypeError
      end
  | _, _ => Raise TypeError
  end.

(** The [float] operand that [v] contributes to arithmetic with a
    [float]: [TypeError] unless [v] is a number. *)
Definition as_float (v : json F) : py F :=
  match as_num v with
  | Some a => to_float a
  | None => Raise TypeError
  end.

(** [v * k] where [k] is a [float] *)
Definition py_mul_float (v : json F) (k : F) : py F :=
  x <- as_float v ;; Ret (fmul x k).

(** [v / d] where [d] is a [float] *)
Definition py_div_float (v : json F) (d : F) : py F :=
  x <- as_float v ;;
  if nonzero d then Ret (fdiv x d) else Raise ZeroDivisionError.

End Values.

(** ** The module *)

(** One entry of [METAL_CONFIG]. *)
Record metal_config (F : Type) : Type := {
  symbol : str;
  price_key : str;
  import_duty : F
}.

(** The dictionary that [calculate_prices] returns, by its five keys. *)
Record prices (F : Type) : Type := {
  with_gst : F;
  with_import_duty : F;
  total : F;
  gst_amount : F;
  duty_amount : F
}.

(** The values that the report of lines 123-140 interpolates.  The text
    around them is fixed, and each number is printed by a format
    specification ([.2f], [,.2f], [.1f], [.4f]) of the interpreter. *)
Record quote (F : Type) : Type := {
  metal_symbol : str;
  metal_title : str;
  current_price_usd : json F;
  current_price_inr : json F;
  ounce_prices : prices F;
  price_per_10g_usd : F;
  price_per_10g_inr : F;
  gram_prices : prices F;
  exchange_rate : json F;
  duty_percent : F;
  total_tax_rate : F
}.

(** The format specifications of the report: [.2f], [,.2f], [.1f], [.4f]. *)
Inductive format_spec : Type := Fixed2 | Grouped2 | Fixed1 | Fixed4.

(** A part of an f-string: literal text, or a value under a format
    specification. *)
Inductive piece (F : Type) : Type :=
| Text (s : str)
| Formatted (spec : format_spec) (v : json F).
Arguments Text {F} s.

(** The string that [fetch_metal_price] returns: a message that is
    complete text; the report of lines 123-140, given by the values it
    prints; or the message of line 143, which ends with [str(e)].
    [ErrorFetching] keeps the class of the exception and not its message:
    two exceptions of one class with different messages (the
    [AttributeError] of a list and that of [None], say) give the same
    reply here and different texts in Python. *)
Inductive reply (F : Type) : Type :=
| Message (text : str)
| Report (q : quote F)
| ErrorFetching (metal : str) (e : exn).
Arguments Message {F} text.
Arguments ErrorFetching {F} metal e.

(** What the two HTTP exchanges produce: for each, the decoded body of a
    successful response, or the exception that [requests.get],
    [raise_for_status] or [response.json] raises. *)
Record upstream (F : Type) : Type := {
  goldprice_org : py (json F);
  exchangerate_api : py (json F)
}.

Section FetchMetalPrice.
Context {F : Type} `{PyFloat F}.

(** [str.lower] on a string with a code point outside ASCII, as the
    interpreter's Unicode tables define it. *)
Variable unicode_lower : str -> str.

(** [s.lower()] *)
Definition str_lower (s : str) : str :=
  if isascii s then map ascii_lower s else unicode_lower s.

Definition METAL_CONFIG : list (str * metal_config F) :=
  [ (u "gold",
     {| symbol := [129351%N]; price_key := u "xauPrice";
        import_duty := decimal 6 2 |});
    (u "silver",
     {| symbol := [129352%N]; price_key := u "xagPrice";
        import_duty := decimal 75 3 |}) ].

Definition GST_RATE : F := decimal 3 2.
Definition GRAMS_PER_OUNCE : F := decimal 311035 4.
Definition FALLBACK_EXCHANGE_RATE : F := decimal 830 1.

(** The [int] literals [1], [10] and [100] where they meet a [float]. *)
Definition f1 : F := decimal 1 0.
Definition f10 : F := decimal 10 0.
Definition f100 : F := decimal 100 0.

Definition get_usd_to_inr_rate (response : py (json F)) : py (json F) :=
  try_except
    (body <- response ;;
     rates <- py_get body (u "rates") (JDict []) ;;
     py_get rates (u "INR") (JFloat FALLBACK_EXCHANGE_RATE))
    [RequestException; KeyError; TypeError]
    (JFloat FALLBACK_EXCHANGE_RATE).

Definition fetch_metal_data (response : py (json F)) : py (json F) :=
  try_except
    (body <- response ;;
     data <- py_get body (u "items") (JList []) ;;
     if truthy data then py_getitem0 data else Ret JNull)
    [RequestException; KeyError; IndexError; TypeError]
    JNull.

Definition calculate_prices (base_price : json F)
    (gst_rate import_duty_rate : F) : py (prices F) :=
  a <- py_mul_float base_price (fadd f1 gst_rate) ;;
  b <- py_mul_float base_price (fadd f1 import_duty_rate) ;;
  c <- py_mul_float base_price (fadd (fadd f1 gst_rate) import_duty_rate) ;;
  d <- py_mul_float base_price gst_rate ;;
  e <- py_mul_float base_price import_duty_rate ;;
  Ret {| with_gst := a; with_import_duty := b; total := c;
         gst_amount := d; duty_amount := e |}.

(** Line 79: the keys of [METAL_CONFIG], each in double quotes. *)
Definition valid_metals : str :=
  join (u ", ")
    (map (fun m => [34%N] ++ m ++ [34%N]) (map fst METAL_CONFIG)).

(** Lines 80-81. *)
Definition invalid_metal_message (metal : str) : str :=
  [10060%N] ++ u " Invalid metal type: '" ++ metal ++ u "'" ++ [10%N]
    ++ u "Please choose from: " ++ valid_metals.

(** Line 105. *)
Definition unable_to_fetch_message (metal : str) : str :=
  [10060%N] ++ u " Unable to fetch " ++ metal ++ u " price data from API".

(** Line 109. *)
Definition price_not_found_message (metal : str) : str :=
  [10060%N] ++ u " " ++ str_title metal ++ u " price not found in API response".

(** Lines 76-140: the body of the [try]. [metal] is already normalised. *)
Definition fetch_metal_price_body (metal : str) (net : upstream F)
    : py (reply F) :=
  match assoc metal METAL_CONFIG with
  | None => Ret (Message (invalid_metal_message metal))
  | Some config =>
      let import_duty_rate := import_duty config in
      metal_data <- fetch_metal_data (goldprice_org net) ;;
      exchange_rate <- get_usd_to_inr_rate (exchangerate_api net) ;;
      if negb (truthy metal_data) then
        Ret (Message (unable_to_fetch_message metal))
      else
        current_price_usd <- py_get metal_data (price_key config) JNull ;;
        if negb (truthy current_price_usd) then
          Ret (Message (price_not_found_message metal))
        else
          current_price_inr <- py_mul current_price_usd exchange_rate ;;
          usd_per_gram <- py_div_float current_price_usd GRAMS_PER_OUNCE ;;
          let price_per_10g_usd := fmul usd_per_gram f10 in
          inr_per_gram <- py_div_float current_price_inr GRAMS_PER_OUNCE ;;
          let price_per_10g_inr := fmul inr_per_gram f10 in
          ounce_prices <-
            calculate_prices current_price_inr GST_RATE import_duty_rate ;;
          gram_prices <-
            calculate_prices (JFloat price_per_10g_inr) GST_RATE
              import_duty_rate ;;
          Ret (Report
                 {| metal_symbol := symbol config;
                    metal_title := str_title metal;
                    current_price_usd := current_price_usd;
                    current_price_inr := current_price_inr;
                    ounce_prices := ounce_prices;
                    price_per_10g_usd := price_per_10g_usd;
                    price_per_10g_inr := price_per_10g_inr;
                    gram_prices := gram_prices;
                    exchange_rate := exchange_rate;
                    duty_percent := fmul import_duty_rate f100;
                    total_tax_rate :=
                      fmul (fadd GST_RATE import_duty_rate) f100 |})
  end.

(** Lines 123-140: the report, part by part. *)
Definition report_pieces (q : quote F) : list (piece F) :=
  let rupees (v : F) := [Text [8377%N]; Formatted Grouped2 (JFloat v)] in
  let breakdown (base : json F) (p : prices F) :=
    [Text (u "  INR (Base): " ++ [8377%N]); Formatted Grouped2 base;
     Text ([10%N] ++ u "  INR + GST (3%): ")]
    ++ rupees (with_gst p) ++ [Text (u " (GST: ")] ++ rupees (gst_amount p)
    ++ [Text (u ")" ++ [10%N] ++ u "  INR + Import Duty (");
        Formatted Fixed1 (JFloat (duty_percent q)); Text (u "%): ")]
    ++ rupees (with_import_duty p) ++ [Text (u " (Duty: ")]
    ++ rupees (duty_amount p)
    ++ [Text (u ")" ++ [10%N] ++ u "  Market Price (GST + Duty): ")]
    ++ rupees (total p) in
  [Text (metal_symbol q ++ u " Current " ++ metal_title q ++ u " Price:"
         ++ [10%N; 10%N; 65533%N] ++ u " Conversion: 1 Ounce = ");
   Formatted Fixed4 (JFloat GRAMS_PER_OUNCE);
   Text (u " grams" ++ [10%N; 10%N; 65533%N; 128200%N] ++ u " Per Ounce:"
         ++ [10%N] ++ u "  USD: $");
   Formatted Fixed2 (current_price_usd q); Text [10%N]]
  ++ breakdown (current_price_inr q) (ounce_prices q)
  ++ [Text ([10%N; 10%N; 9878%N; 65039%N] ++ u " Per 10 Grams:" ++ [10%N]
            ++ u "  USD: $");
      Formatted Fixed2 (JFloat (price_per_10g_usd q)); Text [10%N]]
  ++ breakdown (JFloat (price_per_10g_inr q)) (gram_prices q)
  ++ [Text ([10%N; 10%N; 128202%N] ++ u " Exchange Rate: 1 USD = "
            ++ [8377%N]);
      Formatted Fixed2 (exchange_rate q);
      Text ([10%N; 128188%N] ++ u " Tax Summary: GST 3% + Import Duty ");
      Formatted Fixed1 (JFloat (duty_percent q)); Text (u "% = Total ");
      Formatted Fixed1 (JFloat (total_tax_rate q)); Text (u "%")].

(** [fetch_metal_price(metal)]: line 77 rebinds [metal] to its normal
    form, and the handler of line 142 turns every exception of the body
    into a returned string that names that normal form. *)
Definition fetch_metal_price (metal : str) (net : upstream F) : py (reply F) :=
  let metal := str_strip (str_lower metal) in
  match fetch_metal_price_body metal net with
  | Ret r => Ret r
  | Raise e => Ret (ErrorFetching metal e)
  end.

(** The selector as line 77 leaves it: [metal.lower().strip()]. *)
Definition normalized (metal : str) : str := str_strip (str_lower metal).

(** The tax arithmetic on one base price [b]: GST at rate [g] and import
    duty at rate [d], both on [b], their sum in the total. *)
Definition tax_formulas (p : prices F) (b g d : F) : Prop :=
  total p = fmul b (fadd (fadd f1 g) d)
  /\ with_gst p = fmul b (fadd f1 g)
  /\ with_import_duty p = fmul b (fadd f1 d)
  /\ gst_amount p = fmul b g
  /\ duty_amount p = fmul b d.

(** Each figure per 10 grams is the figure per ounce times
    [10 / GRAMS_PER_OUNCE]. *)
Definition scaled_from_ounce (q : quote F) : Prop :=
  let k := fdiv f10 GRAMS_PER_OUNCE in
  with_gst (gram_prices q) = fmul (with_gst (ounce_prices q)) k
  /\ with_import_duty (gram_prices q)
     = fmul (with_import_duty (ounce_prices q)) k
  /\ total (gram_prices q) = fmul (total (ounce_prices q)) k
  /\ gst_amount (gram_prices q) = fmul (gst_amount (ounce_prices q)) k
  /\ duty_amount (gram_prices q) = fmul (duty_amount (ounce_prices q)) k.

End FetchMetalPrice.

(** ** Sample responses *)

(** A case mapping that leaves every code point outside ASCII as it is. *)
Definition ascii_only_lower : str -> str := map ascii_lower.

(** The body [{"items": [{key: price}]}] of the price service. *)
Definition items_body {F : Type} (key : str) (price : json F) : json F :=
  JDict [(u "items", JList [JDict [(key, price)]])].

(** The body [{"rates": {"INR": rate}}] of the exchange-rate service. *)
Definition rates_body {F : Type} (rate : json F) : json F :=
  JDict [(u "rates", JDict [(u "INR", rate)])].

(** Both services answer, with the spot price under [key]. *)
Definition live {F : Type} (key : str) (price rate : json F) : upstream F :=
  {| goldprice_org := Ret (items_body key price);
     exchangerate_api := Ret (rates_body rate) |}.

(** Gold at 2000.00 USD per ounce, one dollar at 83.00 rupees. *)
Definition gold_net : upstream float :=
  live (u "xauPrice") (JFloat 2000%float) (JFloat 83%float).

(** The report on [gold_net]. *)
Definition gold_quote : quote float :=
  {| metal_symbol := [129351%N];
     metal_title := u "Gold";
     current_price_usd := JFloat 2000%float;
     current_price_inr := JFloat 166000%float;
     ounce_prices :=
       {| with_gst := 170980%float;
          with_import_duty := 175960%float;
          total := 180940%float;
          gst_amount := 4980%float;
          duty_amount := 9960%float |};
     price_per_10g_usd := 643.01445174980302%float;
     price_per_10g_inr := 53370.199495233654%float;
     gram_prices :=
       {| with_gst := 54971.305480090661%float;
          with_import_duty := 56572.411464947676%float;
          total := 58173.517449804684%float;
          gst_amount := 1601.1059848570096%float;
          duty_amount := 3202.2119697140192%float |};
     exchange_rate := JFloat 83%float;
     duty_percent := 6%float;
     total_tax_rate := 9%float |}.

(** Silver at 25.00 USD per ounce, one dollar at 83.00 rupees. *)
Definition silver_net : upstream float :=
  live (u "xagPrice") (JFloat 25%float) (JFloat 83%float).

Definition is_report {F : Type} (r : reply F) : bool :=
  match r with
  | Report _ => true
  | _ => false
  end.

(** ** The report as text *)

(** What a float is worth: not a number, an infinity, or a sign and the
    magnitude [n / d]. *)
Inductive float_view : Type :=
| VNaN
| VInf (negative : bool)
| VFinite (negative : bool) (n : N) (d : positive).

(** Reading a float for printing, and the float of a decimal numeral:
    [of_decimal m k] is [float] of the digits of [m] with the last [k] of
    them after the point. *)
Class PyFloatText (F : Type) : Type := {
  view : F -> float_view;
  of_decimal : N -> nat -> F
}.

(** The quotient [n / d] rounded to the nearest binary64 value, ties to
    even: the quotient is cut after at least 55 binary digits, and one more
    digit records whether anything was cut off. *)
Definition round_to_binary64 (n : N) (d : positive) : float :=
  match n with
  | N0 => 0%float
  | Npos p =>
      let s := Z.max 0 (Z.log2 (Zpos d) + 56 - Z.log2 (Zpos p)) in
      let scaled := (Zpos p * 2 ^ s)%Z in
      let sticky := if (scaled mod Zpos d =? 0)%Z then 0%Z else 1%Z in
      SF2Prim (binary_normalize prec emax (2 * (scaled / Zpos d) + sticky)
                 (- (s + 1)) false)
  end.

Definition binary64_view (x : float) : float_view :=
  match Prim2SF x with
  | S754_nan => VNaN
  | S754_infinity s => VInf s
  | S754_zero s => VFinite s 0 1
  | S754_finite s m e =>
      match e with
      | Z0 => VFinite s (Npos m) 1
      | Zpos k => VFinite s (Npos (m * 2 ^ k)) 1
      | Zneg k => VFinite s (Npos m) (2 ^ k)
      end
  end.

#[export] Instance binary64_text : PyFloatText float := {
  view := binary64_view;
  of_decimal m k := round_to_binary64 m (Z.to_pos (10 ^ Z.of_nat k))
}.

#[export] Instance exact_text : PyFloatText Qc := {
  view q := VFinite (Qnum (this q) <? 0)%Z (Z.abs_N (Qnum (this q)))
              (Qden (this q));
  of_decimal m k := Q2Qc (Z.of_N m # Z.to_pos (10 ^ Z.of_nat k))
}.

(** [n / d] rounded to the nearest integer, ties to the even one. *)
Definition round_half_even (n : N) (d : positive) : N :=
  let q := (n / Npos d)%N in
  match (2 * (n mod Npos d) ?= Npos d)%N with
  | Lt => q
  | Gt => (q + 1)%N
  | Eq => if N.even q then q else (q + 1)%N
  end.

Fixpoint uint_str (d : Decimal.uint) : str :=
  match d with
  | Decimal.Nil => []
  | Decimal.D0 r => 48%N :: uint_str r
  | Decimal.D1 r => 49%N :: uint_str r
  | Decimal.D2 r => 50%N :: uint_str r
  | Decimal.D3 r => 51%N :: uint_str r
  | Decimal.D4 r => 52%N :: uint_str r
  | Decimal.D5 r => 53%N :: uint_str r
  | Decimal.D6 r => 54%N :: uint_str r
  | Decimal.D7 r => 55%N :: uint_str r
  | Decimal.D8 r => 56%N :: uint_str r
  | Decimal.D9 r => 57%N :: uint_str r
  end.

(** The decimal digits of [n], without leading zeros; ["0"] for zero. *)
Definition digits (n : N) : str := uint_str (N.to_uint n).

(** [s] padded with zeros on the left to [width] characters. *)
Definition zfill (width : nat) (s : str) : str :=
  (repeat 48%N (width - List.length s) ++ s)%list.

(** A comma before every group of three digits, counted from the right;
    [sep_rev] works on the reversed digits. *)
Fixpoint sep_rev (k : nat) (s : str) : str :=
  match s with
  | [] => []
  | c :: t =>
      match k with
      | O => 44%N :: c :: sep_rev 2 t
      | S k' => c :: sep_rev k' t
      end
  end.

Definition group_thousands (s : str) : str := rev (sep_rev 3 (rev s)).

(** The precision of a format specification, and whether it groups. *)
Definition precision (spec : format_spec) : nat :=
  match spec with
  | Fixed2 | Grouped2 => 2
  | Fixed1 => 1
  | Fixed4 => 4
  end.

Definition grouped (spec : format_spec) : bool :=
  match spec with
  | Grouped2 => true
  | _ => false
  end.

Section Formatting.
Context {F : Type} `{PyFloat F} `{PyFloatText F}.

(** [format(x, spec)] for a float [x]: the sign, the integer part, a
    point and [precision spec] digits of the value rounded to that many
    decimals, ties to even. *)
Definition format_float (spec : format_spec) (x : F) : str :=
  match view x with
  | VNaN => u "nan"
  | VInf negative => (if negative then u "-" else []) ++ u "inf"
  | VFinite negative n d =>
      let p := precision spec in
      let unit := (10 ^ N.of_nat p)%N in
      let scaled := round_half_even (n * unit) d in
      let whole := digits (scaled / unit) in
      (if negative then u "-" else [])
        ++ (if grouped spec then group_thousands whole else whole)
        ++ u "." ++ zfill p (digits (scaled mod unit))
  end.

(** [format(v, spec)] for any value: an [int] or [bool] is converted to
    [float] first; a [str] has no float format ([ValueError]) and the
    other types take no format string at all ([TypeError]). *)
Definition format_value (spec : format_spec) (v : json F) : py str :=
  match v with
  | JStr _ => Raise ValueError
  | _ => x <- as_float v ;; Ret (format_float spec x)
  end.

(** The f-string of a list of parts, evaluated from left to right. *)
Fixpoint render (parts : list (piece F)) : py str :=
  match parts with
  | [] => Ret []
  | Text s :: rest => t <- render rest ;; Ret (s ++ t)
  | Formatted spec v :: rest =>
      s <- format_value spec v ;; t <- render rest ;; Ret (s ++ t)
  end.

(** [str(e)], the message of an exception, is not modelled. *)
Variable exn_text : exn -> str.
Variable unicode_lower : str -> str.

(** Line 143. *)
Definition error_fetching_message (metal : str) (e : exn) : str :=
  [10060%N] ++ u " Error fetching " ++ metal ++ u " price: " ++ exn_text e.

(** The text of a reply.  The report is formatted inside the [try], so an
    exception of the formatting would end in the handler too. *)
Definition reply_text (metal : str) (r : reply F) : str :=
  match r with
  | Message text => text
  | Report q =>
      match render (report_pieces q) with
      | Ret text => text
      | Raise e => error_fetching_message metal e
      end
  | ErrorFetching metal' e => error_fetching_message metal' e
  end.

(** The string that the tool [fetch_metal_price] hands to its caller. *)
Definition fetch_metal_price_text (metal : str) (net : upstream F) : str :=
  match fetch_metal_price unicode_lower metal net with
  | Ret r => reply_text (normalized unicode_lower metal) r
  | Raise e => error_fetching_message (normalized unicode_lower metal) e
  end.

End Formatting.

(** ** The web client of [client_ui.py] *)

(** The test that [main] applies to a fetched text: whether the cross
    mark U+274C occurs in it. *)
Definition has_error_mark (text : str) : bool := existsb (N.eqb 10060) text.

(** *** The regular expression of [extract_usd_price] *)

(** The constructs that the pattern uses: a literal character, a greedy
    repetition of a character class (zero or more, one or more), an
    optional character, and concatenation. *)
Inductive regex : Type :=
| Chr (c : N)
| Star (p : N -> bool)
| Plus (p : N -> bool)
| Opt (c : N)
| Cat (r1 r2 : regex).

(** Greedy repetition with backtracking: the longest run first, then the
    shorter ones, until the continuation [k] accepts. [k] receives the
    matched text and the rest of the subject. *)
Fixpoint star_match {A : Type} (p : N -> bool) (s : str)
    (k : str -> str -> option A) : option A :=
  match s with
  | c :: t =>
      if p c then
        match star_match p t (fun m rest => k (c :: m) rest) with
        | Some a => Some a
        | None => k [] s
        end
      else k [] s
  | [] => k [] []
  end.

Fixpoint re_match {A : Type} (r : regex) (s : str)
    (k : str -> str -> option A) : option A :=
  match r with
  | Chr c =>
      match s with
      | x :: t => if (x =? c)%N then k [x] t else None
      | [] => None
      end
  | Star p => star_match p s k
  | Plus p =>
      match s with
      | x :: t =>
          if p x then star_match p t (fun m rest => k (x :: m) rest) else None
      | [] => None
      end
  | Opt c =>
      match s with
      | x :: t =>
          if (x =? c)%N then
            match k [x] t with
            | Some a => Some a
            | None => k [] s
            end
          else k [] s
      | [] => k [] []
      end
  | Cat r1 r2 =>
      re_match r1 s
        (fun m1 rest1 => re_match r2 rest1 (fun m2 rest2 => k (m1 ++ m2)%list rest2))
  end.

Definition is_digit (c : N) : bool := ((48 <=? c) && (c <=? 57))%N.
Definition is_digit_or_comma (c : N) : bool := is_digit c || (c =? 44)%N.

(** The pattern up to its group: the letters USD, a colon, white space,
    a dollar sign. *)
Definition usd_prefix : regex :=
  Cat (Chr 85) (Cat (Chr 83) (Cat (Chr 68) (Cat (Chr 58)
    (Cat (Star isspace) (Chr 36))))).

(** Group 1: one or more digits or commas, then an optional point, then
    digits. *)
Definition usd_group : regex :=
  Cat (Plus is_digit_or_comma) (Cat (Opt 46) (Star is_digit)).

(** The text of group 1 when the pattern matches at the start of [s]. *)
Definition match_usd (s : str) : option str :=
  re_match usd_prefix s
    (fun _ rest => re_match usd_group rest (fun g _ => Some g)).

(** [re.search(pattern, s)]: the match at the leftmost position that has
    one; its group 1. *)
Fixpoint re_search_usd (s : str) : option str :=
  match match_usd s with
  | Some g => Some g
  | None =>
      match s with
      | [] => None
      | _ :: t => re_search_usd t
      end
  end.

(** The number that a string of digits writes. *)
Definition number (s : str) : N :=
  fold_left (fun acc c => (10 * acc + (c - 48))%N) s 0%N.

(** The digits before the first point of [s], and what follows it. *)
Fixpoint split_point (s : str) : str * option str :=
  match s with
  | [] => ([], None)
  | c :: t =>
      if (c =? 46)%N then ([], Some t)
      else let (whole, frac) := split_point t in (c :: whole, frac)
  end.

(** *** Tool results *)

(** The content of one tool result. *)
Inductive content : Type :=
| TextContent (text : str)
| OtherContent.

(** [result.content[0].text] *)
Definition first_text (result : list content) : py str :=
  match result with
  | [] => Raise IndexError
  | TextContent text :: _ => Ret text
  | OtherContent :: _ => Raise AttributeError
  end.

(** What [calculate_gold_silver_ratio] returns: the dictionary with the
    ratio, the one with the texts only, or the one with the error. *)
Inductive ratio_result (F : Type) : Type :=
| Ratio (ratio gold_price silver_price : F) (gold_text silver_text : str)
| NoPrices (gold_text silver_text : str)
| RatioError (e : exn).
Arguments NoPrices {F} gold_text silver_text.
Arguments RatioError {F} e.

Module ClientUI.
Section ClientUI.
Context {F : Type} `{PyFloat F} `{PyFloatText F}.

(** [float(s)] for a string of digits with at most one point, which is
    all that the pattern captures once the commas are removed: some digit
    must be there, and every character but the first point must be one. *)
Definition py_float (s : str) : py F :=
  let (whole, after) := split_point s in
  let frac := match after with Some f => f | None => [] end in
  match (whole ++ frac)%list with
  | [] => Raise ValueError
  | ds =>
      if forallb is_digit ds
      then Ret (of_decimal (number ds) (List.length frac))
      else Raise ValueError
  end.

(** Lines 135-141. *)
Definition extract_usd_price (price_text : str) : py (option F) :=
  match re_search_usd price_text with
  | Some group1 =>
      let price_str := filter (fun c => negb (c =? 44)%N) group1 in
      x <- py_float price_str ;; Ret (Some x)
  | None => Ret None
  end.

(** [str(e)], the message of an exception, is not modelled. *)
Variable exn_text : exn -> str.

(** Lines 74-88. [session] stands for opening the connection and
    initialising it, [call] for the call of the tool. *)
Definition fetch_metal_price (session : py unit) (call : py (list content))
    (metal : str) : str :=
  match (_ <- session ;; result <- call ;; first_text result) with
  | Ret text => text
  | Raise e =>
      ([10060%N] ++ u " Error fetching " ++ metal ++ u " price: "
         ++ exn_text e)%list
  end.

(** Lines 90-133. The two prices are tested for truth before the
    division: [None] and [0.0] are both false. *)
Definition calculate_gold_silver_ratio (session : py unit)
    (gold_call silver_call : py (list content)) : ratio_result F :=
  match
    (_ <- session ;;
     gold_result <- gold_call ;;
     silver_result <- silver_call ;;
     gold_text <- first_text gold_result ;;
     silver_text <- first_text silver_result ;;
     gold_usd <- extract_usd_price gold_text ;;
     silver_usd <- extract_usd_price silver_text ;;
     match gold_usd, silver_usd with
     | Some gold, Some silver =>
         if nonzero gold && nonzero silver then
           ratio <- py_div_float (JFloat gold) silver ;;
           Ret (Ratio ratio gold silver gold_text silver_text)
         else Ret (NoPrices gold_text silver_text)
     | _, _ => Ret (NoPrices gold_text silver_text)
     end)
  with
  | Ret result => result
  | Raise e => RatioError e
  end.

End ClientUI.
End ClientUI.

(** *** Showing a price text *)

(** What is left of [s] after the prefix [pre], if [s] starts with it. *)
Fixpoint strip_prefix (pre s : str) : option str :=
  match pre, s with
  | [], _ => Some s
  | c :: pre', x :: s' => if (x =? c)%N then strip_prefix pre' s' else None
  | _ :: _, [] => None
  end.

(** [p in s] *)
Fixpoint contains (p s : str) : bool :=
  match strip_prefix p s with
  | Some _ => true
  | None =>
      match s with
      | [] => false
      | _ :: t => contains p t
      end
  end.

(** [s.split(c)] for a separator of one character. *)
Fixpoint split_on (c : N) (s : str) : list str :=
  match s with
  | [] => [[]]
  | x :: t =>
      if (x =? c)%N then [] :: split_on c t
      else
        match split_on c t with
        | l :: ls => (x :: l) :: ls
        | [] => [[x]]
        end
  end.

(** The text before and after the first occurrence of [sep] in [s]. *)
Fixpoint find_sep (sep s : str) : option (str * str) :=
  match strip_prefix sep s with
  | Some rest => Some ([], rest)
  | None =>
      match s with
      | [] => None
      | c :: t =>
          match find_sep sep t with
          | Some (before, rest) => Some (c :: before, rest)
          | None => None
          end
      end
  end.

(** [s.split(sep)[1]]: what stands between the first occurrence of [sep]
    and the next one. *)
Definition second_piece (sep s : str) : py str :=
  match find_sep sep s with
  | None => Raise IndexError
  | Some (_, rest) =>
      Ret (match find_sep sep rest with
           | Some (piece, _) => piece
           | None => rest
           end)
  end.

(** What the page is asked to show. *)
Inductive event : Type :=
| Markdown (html : str)
| Metric (label value : str)
| Expander (label text : str).

Definition usd_label : str := [128181%N] ++ u " USD Price (Per Ounce)".
Definition inr_label : str := [127470%N; 127475%N] ++ u " INR Base Price".
Definition market_label : str := [127978%N] ++ u " Market Price (with taxes)".
Definition rate_label : str := [128177%N] ++ u " Exchange Rate".

(** Lines 213-220: the metric of one line, if it has one. *)
Definition line_metric (line : str) : py (option event) :=
  if contains (u "USD:") line && contains [36%N] line then
    v <- second_piece (u "USD: ") line ;;
    Ret (Some (Metric usd_label (str_strip v)))
  else if contains (u "INR (Base):") line && contains [8377%N] line then
    v <- second_piece (u "INR (Base): ") line ;;
    Ret (Some (Metric inr_label (str_strip v)))
  else if contains (u "Market Price (GST + Duty):") line
          && contains [8377%N] line then
    v <- second_piece (u "Market Price (GST + Duty): ") line ;;
    Ret (Some (Metric market_label (str_strip v)))
  else if contains (u "Exchange Rate:") line then
    v <- second_piece (u "Exchange Rate: ") line ;;
    Ret (Some (Metric rate_label (str_strip v)))
  else Ret None.

(** Lines 212-220: the metrics shown, and how the loop ends. *)
Fixpoint show_lines (lines : list str) : list event * py unit :=
  match lines with
  | [] => ([], Ret tt)
  | line :: rest =>
      match line_metric line with
      | Raise e => ([], Raise e)
      | Ret shown =>
          let (events, outcome) := show_lines rest in
          (match shown with
           | Some m => m :: events
           | None => events
           end, outcome)
      end
  end.

(** Lines 204-224: the heading, the metrics, and the full text in an
    expander.  What was shown stays on the page when a line raises.
    [metal_type] is ["gold"] or ["silver"] at both calls. *)
Definition display_price_data (price_text metal_type : str)
    : list event * py unit :=
  let heading :=
    Markdown (u "<div class='price-card'><h3>" ++ [128202%N] ++ u " "
                ++ str_title metal_type ++ u " Price Data</h3></div>") in
  let (metrics, outcome) := show_lines (split_on 10 price_text) in
  match outcome with
  | Ret _ =>
      (heading :: metrics
         ++ [Expander ([128203%N] ++ u " View Full Price Details") price_text],
       Ret tt)
  | Raise e => (heading :: metrics, Raise e)
  end.

(** Lines 247-269 of [main], for either metal: the text fetched by the
    client goes to an error card when it has the cross mark and to
    [display_price_data] otherwise.  The widgets around it (subheader,
    button, spinner) are left out; [exn_text] is [str(e)]. *)
Definition metal_rate_page (exn_text : exn -> str) (session : py unit)
    (call : py (list content)) (metal : str) : list event * py unit :=
  let result := ClientUI.fetch_metal_price exn_text session call metal in
  if has_error_mark result then
    ([Markdown (u "<div class='error-card'>" ++ result ++ u "</div>")],
     Ret tt)
  else display_price_data result metal.

(** ** Notions of the statements and proofs *)

Definition is_dict {F : Type} (v : json F) : bool :=
  match v with JDict _ => true | _ => false end.

Fixpoint takewhile (p : N -> bool) (s : str) : str :=
  match s with
  | c :: t => if p c then c :: takewhile p t else []
  | [] => []
  end.

Fixpoint dropwhile (p : N -> bool) (s : str) : str :=
  match s with
  | c :: t => if p c then dropwhile p t else s
  | [] => []
  end.

(** The pattern read from left to right without backtracking; it is
    shown below to capture what the matcher captures. *)
Definition scan_group (s : str) : option str :=
  match takewhile is_digit_or_comma s with
  | [] => None
  | g1 =>
      Some
        (match dropwhile is_digit_or_comma s with
         | x :: s3 =>
             if (x =? 46)%N then g1 ++ [x] ++ takewhile is_digit s3 else g1
         | [] => g1
         end)
  end.

Definition scan_usd (s : str) : option str :=
  match strip_prefix (u "USD:") s with
  | None => None
  | Some s1 =>
      match dropwhile isspace s1 with
      | c :: s2 => if (c =? 36)%N then scan_group s2 else None
      | [] => None
      end
  end.

(** The shape of group 1: digits and commas, then possibly a point and
    digits. *)
Definition group_shape (g : str) : Prop :=
  exists g1 g3 dot,
    g = g1 ++ dot ++ g3
    /\ g1 <> []
    /\ forallb is_digit_or_comma g1 = true
    /\ (dot = [] \/ dot = [46%N])
    /\ forallb is_digit g3 = true
    /\ (dot = [] -> g3 = []).

(** The characters of a formatted float: digits, comma, minus, point, and
    the letters of [nan] and [inf]. *)
Definition is_number_char (c : N) : bool :=
  is_digit c
  || existsb (N.eqb c) [44; 45; 46; 97; 102; 105; 110]%N.

Definition clean_piece {F : Type} (p : piece F) : bool :=
  match p with
  | Text s => negb (has_error_mark s)
  | Formatted _ _ => true
  end.

(** [p] differs from [s] at a character of [s]: it is a prefix of no
    extension of [s]. *)
Fixpoint breaks (p s : str) : bool :=
  match p, s with
  | c :: p', x :: s' => if (x =? c)%N then breaks p' s' else true
  | _, _ => false
  end.

(** No occurrence of [p] starts in [a], whatever follows [a]. *)
Fixpoint clear_of (p a : str) : bool :=
  match a with
  | [] => true
  | _ :: t => breaks p a && clear_of p t
  end.

(** [p] starts with a character that no formatted float has. *)
Definition off_number (p : str) : bool :=
  match p with
  | c :: _ => negb (is_number_char c)
  | [] => false
  end.

(** A formatted float, as far as the web client can tell: not empty, and
    made of the characters of numbers. *)
Definition number_text (s : str) : Prop :=
  forallb is_number_char s = true /\ s <> [].

(** The lines of the report, each with the formatted numbers it shows. *)
Definition heading_line (symbol title : str) : str :=
  symbol ++ u " Current " ++ title ++ u " Price:".
Definition conversion_line (grams : str) : str :=
  [65533%N] ++ u " Conversion: 1 Ounce = " ++ grams ++ u " grams".
Definition per_ounce_line : str := [65533%N; 128200%N] ++ u " Per Ounce:".
Definition per_10_grams_line : str := [9878%N; 65039%N] ++ u " Per 10 Grams:".
Definition usd_line (price : str) : str := u "  USD: $" ++ price.
Definition base_line (price : str) : str :=
  u "  INR (Base): " ++ [8377%N] ++ price.
Definition gst_line (price amount : str) : str :=
  u "  INR + GST (3%): " ++ [8377%N] ++ price ++ u " (GST: " ++ [8377%N]
    ++ amount ++ u ")".
Definition duty_line (percent price amount : str) : str :=
  u "  INR + Import Duty (" ++ percent ++ u "%): " ++ [8377%N] ++ price
    ++ u " (Duty: " ++ [8377%N] ++ amount ++ u ")".
Definition market_line (price : str) : str :=
  u "  Market Price (GST + Duty): " ++ [8377%N] ++ price.
Definition rate_line (rate : str) : str :=
  [128202%N] ++ u " Exchange Rate: 1 USD = " ++ [8377%N] ++ rate.
Definition tax_line (duty total : str) : str :=
  [128188%N] ++ u " Tax Summary: GST 3% + Import Duty " ++ duty
    ++ u "% = Total " ++ total ++ u "%".

Section Lines.
Context {F : Type} `{PyFloat F} `{PyFloatText F}.

(** The twenty lines of a report, for a dollar price [s], a base price in
    rupees [b] and a rate [r]; they are shown below to be the lines of the
    formatted report. *)
Definition report_lines (q : quote F) (s b r : F) : list str :=
  let money := format_float Grouped2 in
  let duty := format_float Fixed1 (duty_percent q) in
  [ heading_line (metal_symbol q) (metal_title q);
    [];
    conversion_line (format_float Fixed4 GRAMS_PER_OUNCE);
    [];
    per_ounce_line;
    usd_line (format_float Fixed2 s);
    base_line (money b);
    gst_line (money (with_gst (ounce_prices q)))
      (money (gst_amount (ounce_prices q)));
    duty_line duty (money (with_import_duty (ounce_prices q)))
      (money (duty_amount (ounce_prices q)));
    market_line (money (total (ounce_prices q)));
    [];
    per_10_grams_line;
    usd_line (format_float Fixed2 (price_per_10g_usd q));
    base_line (money (price_per_10g_inr q));
    gst_line (money (with_gst (gram_prices q)))
      (money (gst_amount (gram_prices q)));
    duty_line duty (money (with_import_duty (gram_prices q)))
      (money (duty_amount (gram_prices q)));
    market_line (money (total (gram_prices q)));
    [];
    rate_line (format_float Fixed2 r);
    tax_line duty (format_float Fixed1 (total_tax_rate q)) ].

End Lines.

(** ** Rounding in binary64 *)

Section RoundingNotions.
Local Open Scope Z_scope.

(** [located n u mrs]: the shift record [mrs] tells where the quotient
    [n / u] lies: its integer part is [shr_m mrs], the round bit tells
    whether the rest reaches one half, the sticky bit whether anything is
    left beyond. *)
Definition located (n u : Z) (mrs : shr_record) : Prop :=
  let m := shr_m mrs in
  0 <= m
  /\ match shr_r mrs, shr_s mrs with
     | false, false => n = m * u
     | false, true => m * u < n /\ 2 * n < (2 * m + 1) * u
     | true, false => 2 * n = (2 * m + 1) * u
     | true, true => (2 * m + 1) * u < 2 * n /\ n < (m + 1) * u
     end.

(** The result of rounding a mantissa of [d >= 53] digits in the normal
    range: the mantissa [m2] of 53 digits next to [n / (u * 2^(d-53))],
    at the exponent [ex + d - 53], renormalised when [m2] is [2^53]. *)
Definition rounded (s : bool) (m2 e : Z) : spec_float :=
  if m2 =? 2 ^ 53 then
    if e + 1 <=? 971 then S754_finite s (2 ^ 52)%positive (e + 1)
    else S754_infinity s
  else
    if e <=? 971 then S754_finite s (Z.to_pos m2) e else S754_infinity s.

(** The first integer that is too large for a [float]:
    [2^1024 - 2^970], half an ulp above the largest float. *)
Definition float_limit : Z := (2 ^ 54 - 1) * 2 ^ 970.

(** Half an ulp of a float of 53 digits, relative to the float:
    [2^-53]. *)
Definition half_ulp : Q := 1 # (2 ^ 53).

(** The relative distance of two rationals [x] and [y] is at most [eps]
    either way round: [y = x (1 + d)] and [x = y (1 + d')] with [d] and
    [d'] within [eps]. *)
Definition near (eps x y : Q) : Prop :=
  exists d d' : Q,
    (Qabs d <= eps /\ Qabs d' <= eps
     /\ y == x * (1 + d) /\ x == y * (1 + d'))%Q.

(** The rational number that a float is; zero where it is none. *)
Definition SF2Q (x : spec_float) : Q :=
  match x with
  | S754_finite s m e =>
      (inject_Z (if s then Zneg m else Zpos m) * inject_Z 2 ^ e)%Q
  | _ => 0%Q
  end.

(** The rational value of a primitive float. *)
Definition F2Q (x : float) : Q := SF2Q (Prim2SF x).

(** The sign [s] on the magnitude [x]. *)
Definition signed (s : bool) (x : Q) : Q := if s then (- x)%Q else x.

(** A float of 53 digits with its exponent between [lo] and [hi]. *)
Definition normal_in (x : float) (lo hi : Z) : Prop :=
  exists s m e,
    Prim2SF x = S754_finite s m e
    /\ Zpos (digits2_pos m) = 53
    /\ lo <= e <= hi.

(** [10 / 31.1035]: the factor from an amount per ounce to the amount
    per 10 grams. *)
Definition ounce_to_10g : Q := 100000 # 311035.

(** The relative tolerance of the specification, [1e-9]. *)
Definition tolerance : Q := 1 # 1000000000.

(** The float [g] is the float [o] times [10 / 31.1035] within the
    tolerance, relative to [g]; both are numbers. *)
Definition scaled_within_tolerance (g o : float) : Prop :=
  is_finite g = true /\ is_finite o = true
  /\ (Qabs (F2Q g - F2Q o * ounce_to_10g) <= tolerance * Qabs (F2Q g))%Q.

(** The magnitudes for which no figure of a report leaves the normal
    range of [float]. *)
Definition in_normal_range (b : float) : bool :=
  ((1e-250 <=? abs b) && (abs b <=? 1e280))%float.

(** The bound that five roundings and the constant add up to. *)
Definition chain_bound : Q :=
  let e := half_ulp in
  let c (a b : Q) := (a + b + a * b)%Q in
  c (c (c (c e e) e) (1 # 10 ^ 15)) e.

End RoundingNotions.

(** ** More sample responses *)

(** An exception without a message. *)
Definition no_text (e : exn) : str := [].

(** The report on [silver_net]. *)
Definition silver_quote : quote float :=
  Eval vm_compute in
    match fetch_metal_price ascii_only_lower (u "silver") silver_net with
    | Ret (Report q) => q
    | _ => gold_quote
    end.

(** The metal service is down; the exchange-rate service answers. *)
Definition metal_service_down : upstream float :=
  {| goldprice_org := Raise RequestException;
     exchangerate_api := Ret (rates_body (JFloat 83%float)) |}.

(** The metal service answers with a JSON array. *)
Definition metal_service_array : upstream float :=
  {| goldprice_org := Ret (JList []);
     exchangerate_api := Ret (rates_body (JFloat 83%float)) |}.

(** A spot price that is an [int] beyond the range of [float]. *)
Definition huge_spot_net : upstream float :=
  live (u "xauPrice") (JInt (2 ^ 1024)) (JFloat 83%float).

(** A spot price that is a string. *)
Definition text_spot_net : upstream float :=
  live (u "xauPrice") (JStr (u "2000.00")) (JFloat 83%float).

(** Gold at 2e306 USD per ounce, one dollar at 83.00 rupees. *)
Definition huge_gold_net : upstream float :=
  live (u "xauPrice") (JFloat 2e306%float) (JFloat 83%float).

(** ** Strings *)

Lemma str_eqb_eq (a b : str) : str_eqb a b = true <-> a = b.
Proof.
  revert b. induction a as [|x a IH]; intros [|y b]; simpl;
    try (split; [discriminate | congruence]); [tauto|].
  rewrite andb_true_iff, N.eqb_eq, IH. split.
  - intros [-> ->]. reflexivity.
  - intros E. injection E as -> ->. split; reflexivity.
Qed.

Lemma lstrip_suffix (s : str) : exists w, s = (w ++ lstrip s)%list.
Proof.
  induction s as [|c s [w IH]]; simpl.
  - exists []. reflexivity.
  - destruct (isspace c).
    + exists (c :: w). simpl. f_equal. exact IH.
    + exists []. reflexivity.
Qed.

Lemma lstrip_starts_clean (s : str) : starts_clean (lstrip s).
Proof.
  induction s as [|c s IH]; simpl; [exact I|].
  destruct (isspace c) eqn:E; [exact IH | exact E].
Qed.

Lemma lstrip_fixed (s : str) : starts_clean s -> lstrip s = s.
Proof.
  destruct s as [|c s]; simpl; [reflexivity|].
  intros ->. reflexivity.
Qed.

Lemma lstrip_idempotent (s : str) : lstrip (lstrip s) = lstrip s.
Proof. apply lstrip_fixed, lstrip_starts_clean. Qed.

Lemma rstrip_prefix (s : str) : exists w, s = (rstrip s ++ w)%list.
Proof.
  unfold rstrip. destruct (lstrip_suffix (rev s)) as [w Hw].
  exists (rev w). rewrite <- rev_app_distr, <- Hw, rev_involutive.
  reflexivity.
Qed.

Lemma rstrip_idempotent (s : str) : rstrip (rstrip s) = rstrip s.
Proof.
  unfold rstrip. rewrite rev_involutive, lstrip_idempotent. reflexivity.
Qed.

Lemma rstrip_starts_clean (s : str) : starts_clean s -> starts_clean (rstrip s).
Proof.
  intros Hs. destruct (rstrip_prefix s) as [w Hw].
  destruct (rstrip s) as [|c t]; [exact I|].
  rewrite Hw in Hs. exact Hs.
Qed.

Lemma str_strip_idempotent (s : str) : str_strip (str_strip s) = str_strip s.
Proof.
  unfold str_strip.
  rewrite (lstrip_fixed (rstrip (lstrip s))).
  - apply rstrip_idempotent.
  - apply rstrip_starts_clean, lstrip_starts_clean.
Qed.

Lemma str_strip_slice (s : str) : slice_of (str_strip s) s.
Proof.
  unfold slice_of, str_strip.
  destruct (lstrip_suffix s) as [w Hw].
  destruct (rstrip_prefix (lstrip s)) as [w' Hw'].
  exists w, w'. rewrite <- Hw'. exact Hw.
Qed.

Lemma ascii_lower_idempotent (c : N) : ascii_lower (ascii_lower c) = ascii_lower c.
Proof.
  unfold ascii_lower, is_ascii_upper.
  destruct ((65 <=? c)%N && (c <=? 90)%N) eqn:E; [|rewrite E; reflexivity].
  apply andb_true_iff in E as [E1 E2].
  apply N.leb_le in E1, E2.
  replace (c + 32 <=? 90)%N with false
    by (symmetry; apply N.leb_gt; lia).
  rewrite andb_false_r. reflexivity.
Qed.

Lemma ascii_lower_isascii (s : str) :
  isascii s = true -> isascii (map ascii_lower s) = true.
Proof.
  unfold isascii. rewrite !forallb_forall. intros Hs c Hc.
  apply in_map_iff in Hc as [c' [<- Hc']].
  specialize (Hs c' Hc'). apply N.ltb_lt in Hs. apply N.ltb_lt.
  unfold ascii_lower, is_ascii_upper.
  destruct ((65 <=? c')%N && (c' <=? 90)%N) eqn:E; [|exact Hs].
  apply andb_true_iff in E as [_ E2]. apply N.leb_le in E2. lia.
Qed.

Lemma isascii_slice (t s : str) :
  slice_of t s -> isascii s = true -> isascii t = true.
Proof.
  intros [pre [post ->]]. unfold isascii.
  rewrite !forallb_app. intros E.
  apply andb_true_iff in E as [_ E].
  apply andb_true_iff in E as [E _]. exact E.
Qed.

Lemma map_ascii_lower_slice (t s : str) :
  slice_of t (map ascii_lower s) -> map ascii_lower t = t.
Proof.
  intros [pre [post E]].
  assert (Hall : forall c, In c t -> ascii_lower c = c).
  { intros c Hc.
    assert (Hin : In c (map ascii_lower s))
      by (rewrite E; apply in_or_app; right; apply in_or_app; left; exact Hc).
    apply in_map_iff in Hin as [c' [<- _]]. apply ascii_lower_idempotent. }
  clear E. induction t as [|c t IH]; simpl; [reflexivity|].
  rewrite Hall by (left; reflexivity).
  f_equal. apply IH. intros c' Hc'. apply Hall. right. exact Hc'.
Qed.

Section Normalisation.
Variable unicode_lower : str -> str.

(** What is assumed of the interpreter's case mapping: a slice of a
    lowercased string is lowercase already. *)
Hypothesis unicode_lower_stable :
  forall s t, isascii s = false -> slice_of t (unicode_lower s) ->
              str_lower unicode_lower t = t.

Lemma str_lower_slice (s t : str) :
  slice_of t (str_lower unicode_lower s) -> str_lower unicode_lower t = t.
Proof.
  unfold str_lower at 1. destruct (isascii s) eqn:Es.
  - intros Ht. unfold str_lower.
    rewrite (isascii_slice Ht (ascii_lower_isascii s Es)).
    exact (map_ascii_lower_slice _ Ht).
  - apply unicode_lower_stable. exact Es.
Qed.

Lemma normalized_idempotent (metal : str) :
  normalized unicode_lower (normalized unicode_lower metal)
  = normalized unicode_lower metal.
Proof.
  unfold normalized.
  rewrite (str_lower_slice metal) by apply str_strip_slice.
  apply str_strip_idempotent.
Qed.

End Normalisation.

Lemma ascii_only_lower_stable (s t : str) :
  isascii s = false -> slice_of t (ascii_only_lower s) ->
  str_lower ascii_only_lower t = t.
Proof.
  intros _ Ht. unfold str_lower, ascii_only_lower in *.
  destruct (isascii t); exact (map_ascii_lower_slice _ Ht).
Qed.

(** ** The calculator *)

(** Steps through a computation that is known to return: the next bound
    call returned too. *)
Ltac returned H x :=
  match type of H with
  | bind ?m _ = Ret _ =>
      let E := fresh "E" x in
      destruct m as [x|] eqn:E; cbn [bind] in H; [|discriminate H]
  end.

Section Calculator.
Context {F : Type} `{PyFloat F}.

Lemma py_mul_float_returns (v : json F) (k x : F) :
  as_float v = Ret x -> py_mul_float v k = Ret (fmul x k).
Proof. unfold py_mul_float. intros ->. reflexivity. Qed.

Lemma as_float_JFloat (x : F) : as_float (JFloat x) = Ret x.
Proof. reflexivity. Qed.

(** On a base price that converts to the float [x], [calculate_prices]
    returns the five products of the source. *)
Lemma calculate_prices_returns (base : json F) (g d x : F) :
  as_float base = Ret x ->
  calculate_prices base g d
  = Ret {| with_gst := fmul x (fadd f1 g);
           with_import_duty := fmul x (fadd f1 d);
           total := fmul x (fadd (fadd f1 g) d);
           gst_amount := fmul x g;
           duty_amount := fmul x d |}.
Proof.
  intros Hx. unfold calculate_prices.
  rewrite !(py_mul_float_returns _ _ Hx). reflexivity.
Qed.

(** It returns on no other base price. *)
Lemma calculate_prices_inv (base : json F) (g d : F) (p : prices F) :
  calculate_prices base g d = Ret p ->
  exists x, as_float base = Ret x /\ tax_formulas p x g d.
Proof.
  intros Hp. destruct (as_float base) as [x|e] eqn:Hx.
  - exists x. split; [reflexivity|].
    rewrite (calculate_prices_returns _ g d Hx) in Hp.
    injection Hp as <-. repeat split.
  - unfold calculate_prices, py_mul_float in Hp. rewrite Hx in Hp.
    discriminate Hp.
Qed.

(** The inputs and the intermediate values behind a report. *)
Lemma report_inv (metal : str) (net : upstream F) (q : quote F) :
  fetch_metal_price_body metal net = Ret (Report q) ->
  exists config metal_data usd_per_gram inr_per_gram,
    assoc metal METAL_CONFIG = Some config
    /\ fetch_metal_data (goldprice_org net) = Ret metal_data
    /\ truthy metal_data = true
    /\ get_usd_to_inr_rate (exchangerate_api net) = Ret (exchange_rate q)
    /\ py_get metal_data (price_key config) JNull = Ret (current_price_usd q)
    /\ truthy (current_price_usd q) = true
    /\ py_mul (current_price_usd q) (exchange_rate q)
       = Ret (current_price_inr q)
    /\ py_div_float (current_price_usd q) GRAMS_PER_OUNCE = Ret usd_per_gram
    /\ price_per_10g_usd q = fmul usd_per_gram f10
    /\ py_div_float (current_price_inr q) GRAMS_PER_OUNCE = Ret inr_per_gram
    /\ price_per_10g_inr q = fmul inr_per_gram f10
    /\ calculate_prices (current_price_inr q) GST_RATE (import_duty config)
       = Ret (ounce_prices q)
    /\ calculate_prices (JFloat (price_per_10g_inr q)) GST_RATE
         (import_duty config)
       = Ret (gram_prices q).
Proof.
  unfold fetch_metal_price_body. intros Hq.
  destruct (assoc metal METAL_CONFIG) as [config|]; [|discriminate Hq].
  returned Hq data. returned Hq rate.
  destruct (truthy data) eqn:Tdata; cbn [negb] in Hq; [|discriminate Hq].
  returned Hq usd.
  destruct (truthy usd) eqn:Tusd; cbn [negb] in Hq; [|discriminate Hq].
  returned Hq rupees. returned Hq x. returned Hq y.
  returned Hq ounce. returned Hq gram.
  injection Hq as <-. simpl.
  exists config, data, x, y. repeat split; assumption.
Qed.

(** The two entries of [METAL_CONFIG]. *)
Lemma assoc_METAL_CONFIG_Some (metal : str) (config : metal_config F) :
  assoc metal METAL_CONFIG = Some config ->
  (metal = u "gold"
   /\ config = {| symbol := [129351%N]; price_key := u "xauPrice";
                  import_duty := decimal 6 2 |})
  \/ (metal = u "silver"
      /\ config = {| symbol := [129352%N]; price_key := u "xagPrice";
                     import_duty := decimal 75 3 |}).
Proof.
  unfold METAL_CONFIG. cbn [assoc].
  destruct (str_eqb metal (u "gold")) eqn:Eg.
  - intros E. injection E as <-. apply str_eqb_eq in Eg.
    left. split; [exact Eg | reflexivity].
  - destruct (str_eqb metal (u "silver")) eqn:Es; [|discriminate].
    intros E. injection E as <-. apply str_eqb_eq in Es.
    right. split; [exact Es | reflexivity].
Qed.

End Calculator.

(** ** Claims about the tax arithmetic *)

Section Breakdown.
Context {F : Type} `{PyFloat F}.
Variable unicode_lower : str -> str.

(** A report comes from the body of the [try], run on the normal form of
    the selector. *)
Lemma fetch_metal_price_report (metal : str) (net : upstream F) (q : quote F) :
  fetch_metal_price unicode_lower metal net = Ret (Report q) ->
  fetch_metal_price_body (normalized unicode_lower metal) net = Ret (Report q).
Proof.
  unfold fetch_metal_price, normalized.
  destruct (fetch_metal_price_body _ net) as [r|e]; congruence.
Qed.

(** The figures of a report are tax breakdowns of its two base prices. *)
Lemma report_tax_formulas (metal : str) (net : upstream F) (q : quote F) :
  fetch_metal_price unicode_lower metal net = Ret (Report q) ->
  exists config b,
    assoc (normalized unicode_lower metal) METAL_CONFIG = Some config
    /\ as_float (current_price_inr q) = Ret b
    /\ tax_formulas (ounce_prices q) b GST_RATE (import_duty config)
    /\ tax_formulas (gram_prices q) (price_per_10g_inr q) GST_RATE
         (import_duty config).
Proof.
  intros Hq.
  apply fetch_metal_price_report, report_inv in Hq.
  destruct Hq as (config & data & x & y & Hc & _ & _ & _ & _ & _ & _ & _
                  & _ & _ & _ & Ho & Hg).
  apply calculate_prices_inv in Ho as (b & Hb & Ho).
  apply calculate_prices_inv in Hg as (b' & Hb' & Hg).
  rewrite as_float_JFloat in Hb'. injection Hb' as <-.
  exists config, b. repeat split; first [assumption | apply Ho | apply Hg].
Qed.

(** C1. On every base price that is a number, [calculate_prices] returns
    the breakdown in which the total is [b * (1 + g + d)], the price with
    GST is [b * (1 + g)], the price with duty is [b * (1 + d)], and the two
    tax amounts are [b * g] and [b * d]: both taxes are taken on the same
    base and added.  In every report, the figures per ounce and per 10
    grams are such breakdowns at [GST_RATE] (0.03) and at the import duty
    of the metal's entry in [METAL_CONFIG]. *)
Theorem tax_breakdown_additive :
  (forall (base : json F) (b g d : F),
      as_float base = Ret b ->
      exists p, calculate_prices base g d = Ret p /\ tax_formulas p b g d)
  /\ (forall (metal : str) (net : upstream F) (q : quote F),
         fetch_metal_price unicode_lower metal net = Ret (Report q) ->
         exists config b,
           assoc (normalized unicode_lower metal) METAL_CONFIG = Some config
           /\ as_float (current_price_inr q) = Ret b
           /\ tax_formulas (ounce_prices q) b GST_RATE (import_duty config)
           /\ tax_formulas (gram_prices q) (price_per_10g_inr q) GST_RATE
                (import_duty config)).
Proof.
  split.
  - intros base b g d Hb. eexists. split.
    + apply calculate_prices_returns. exact Hb.
    + repeat split.
  - exact report_tax_formulas.
Qed.

End Breakdown.

(** The constants of the module, in binary64, are the floats that Python
    reads from the literals of the source. *)
Lemma binary64_constants :
  GST_RATE = 0.03%float
  /\ GRAMS_PER_OUNCE = 31.1035%float
  /\ FALLBACK_EXCHANGE_RATE = 83.0%float
  /\ map (fun kv => (fst kv, import_duty (snd kv))) METAL_CONFIG
     = [(u "gold", 0.06%float); (u "silver", 0.075%float)]
  /\ (f1, f10, f100) = (1%float, 10%float, 100%float).
Proof. repeat split. Qed.

Lemma gold_report :
  fetch_metal_price ascii_only_lower (u "gold") gold_net
  = Ret (Report gold_quote).
Proof. vm_compute. reflexivity. Qed.

Lemma tax_breakdown_additive_witness :
  (exists p, calculate_prices (JInt 166000) GST_RATE (0.06)%float = Ret p
             /\ tax_formulas p 166000%float GST_RATE (0.06)%float)
  /\ (exists config b,
         assoc (normalized ascii_only_lower (u "gold")) METAL_CONFIG
         = Some config
         /\ as_float (current_price_inr gold_quote) = Ret b
         /\ tax_formulas (ounce_prices gold_quote) b GST_RATE
              (import_duty config)
         /\ tax_formulas (gram_prices gold_quote)
              (price_per_10g_inr gold_quote) GST_RATE (import_duty config)).
Proof.
  split.
  - apply (proj1 (tax_breakdown_additive (F := float) ascii_only_lower)).
    vm_compute. reflexivity.
  - apply (proj2 (tax_breakdown_additive (F := float) ascii_only_lower)
             (u "gold") gold_net).
    vm_compute. reflexivity.
Defined.

(** The taxes are not compounded: on the gold figures the total differs
    from duty charged on the price with GST. *)
Lemma gold_total_not_compounded :
  total (ounce_prices gold_quote) = 180940%float
  /\ (166000 * (1 + 0.03) * (1 + 0.06))%float = 181238.80000000002%float.
Proof. split; vm_compute; reflexivity. Qed.

(** C5. Gold at 2000.00 USD per ounce and 83.00 rupees to the dollar: the
    base price per ounce is 166000.00 rupees, GST is 4980.00, import duty
    at the gold rate of 6% is 9960.00, and the total with both taxes is
    180940.00; the floats are these numbers exactly. *)
Theorem gold_scenario :
  exists config q,
    assoc (u "gold") METAL_CONFIG = Some config
    /\ import_duty config = 0.06%float
    /\ fetch_metal_price ascii_only_lower (u "gold") gold_net = Ret (Report q)
    /\ current_price_inr q = JFloat 166000%float
    /\ calculate_prices (JFloat 166000%float) GST_RATE (import_duty config)
       = Ret (ounce_prices q)
    /\ gst_amount (ounce_prices q) = 4980%float
    /\ duty_amount (ounce_prices q) = 9960%float
    /\ total (ounce_prices q) = 180940%float.
Proof.
  eexists. exists gold_quote. split; [reflexivity|].
  repeat split; vm_compute; reflexivity.
Qed.

(** C6. Silver at 25.00 USD per ounce and 83.00 rupees to the dollar: the
    base price per ounce is 2075.00 rupees, import duty at the silver rate
    of 7.5% is 155.625, and the total with both taxes is 2292.875, which
    is also the float of [2075 * 1.105]. *)
Theorem silver_scenario :
  exists config q,
    assoc (u "silver") METAL_CONFIG = Some config
    /\ import_duty config = 0.075%float
    /\ fetch_metal_price ascii_only_lower (u "silver") silver_net
       = Ret (Report q)
    /\ current_price_inr q = JFloat 2075%float
    /\ calculate_prices (JFloat 2075%float) GST_RATE (import_duty config)
       = Ret (ounce_prices q)
    /\ duty_amount (ounce_prices q) = 155.625%float
    /\ total (ounce_prices q) = 2292.875%float
    /\ total (ounce_prices q) = (2075 * 1.105)%float.
Proof.
  eexists. eexists. split; [reflexivity|].
  split; [vm_compute; reflexivity|].
  split; [vm_compute; reflexivity|].
  repeat split; vm_compute; reflexivity.
Qed.

(** ** Rounding in binary64 *)

Section Rounding.
Local Open Scope Z_scope.

(** *** The shift and the rounding of [SpecFloat] *)

Lemma fexp_eq (e : Z) : fexp prec emax e = Z.max (e - 53) (-1074).
Proof. reflexivity. Qed.

Lemma digits2_pos_bounds (p : positive) :
  2 ^ (Zpos (digits2_pos p) - 1) <= Zpos p < 2 ^ Zpos (digits2_pos p).
Proof.
  induction p as [p IH|p IH|]; cbn [digits2_pos].
  - rewrite Pos2Z.inj_succ.
    replace (Z.succ (Zpos (digits2_pos p)) - 1)
      with (Z.succ (Zpos (digits2_pos p) - 1)) by lia.
    rewrite !Z.pow_succ_r by lia. lia.
  - rewrite Pos2Z.inj_succ.
    replace (Z.succ (Zpos (digits2_pos p)) - 1)
      with (Z.succ (Zpos (digits2_pos p) - 1)) by lia.
    rewrite !Z.pow_succ_r by lia. lia.
  - simpl. lia.
Qed.

Lemma digits2_pos_unique (p : positive) (d : Z) :
  2 ^ (d - 1) <= Zpos p < 2 ^ d -> Zpos (digits2_pos p) = d.
Proof.
  intros [Hl Hu]. pose proof (digits2_pos_bounds p) as [Bl Bu].
  assert (0 < d).
  { destruct (Z_lt_le_dec 0 d) as [?|Hd]; [assumption|].
    assert (2 ^ d <= 1).
    { destruct (Z.eq_dec d 0) as [->|?]; [simpl; lia|].
      rewrite Z.pow_neg_r by lia. lia. }
    lia. }
  assert (Zpos (digits2_pos p) - 1 < d).
  { apply (Z.pow_lt_mono_r_iff 2); lia. }
  assert (d - 1 < Zpos (digits2_pos p)).
  { apply (Z.pow_lt_mono_r_iff 2); lia. }
  lia.
Qed.

Lemma iter_pos_nat {A : Type} (f : A -> A) (p : positive) (x : A) :
  iter_pos f p x = Nat.iter (Pos.to_nat p) f x.
Proof.
  revert x. induction p as [p IH|p IH|]; intros x; cbn [iter_pos].
  - rewrite !IH, Pos2Nat.inj_xI.
    replace (S (2 * Pos.to_nat p))
      with (Pos.to_nat p + S (Pos.to_nat p))%nat by lia.
    rewrite Nat.iter_add, Nat.iter_succ_r. reflexivity.
  - rewrite !IH, Pos2Nat.inj_xO.
    replace (2 * Pos.to_nat p)%nat with (Pos.to_nat p + Pos.to_nat p)%nat
      by lia.
    rewrite Nat.iter_add. reflexivity.
  - reflexivity.
Qed.

Lemma located_shr_1 (n u : Z) (mrs : shr_record) :
  0 < u -> located n u mrs -> located n (2 * u) (shr_1 mrs).
Proof.
  intros Hu. destruct mrs as [m r s]. unfold located. cbn [shr_m shr_r shr_s].
  intros [Hm H].
  destruct m as [|p|p]; [| |lia].
  - cbn [shr_1 shr_m shr_r shr_s].
    destruct r, s; cbn [orb]; split; lia.
  - destruct p as [p|p|]; cbn [shr_1 shr_m shr_r shr_s];
      destruct r, s; cbn [orb]; split; try lia;
      first [rewrite Pos2Z.inj_xI in * | rewrite Pos2Z.inj_xO in * | idtac];
      try nia.
Qed.

Lemma located_iter (n u : Z) (mrs : shr_record) (j : nat) :
  0 < u -> located n u mrs ->
  located n (u * 2 ^ Z.of_nat j) (Nat.iter j shr_1 mrs).
Proof.
  intros Hu Hl. induction j as [|j IH].
  - cbn [Nat.iter]. change (2 ^ Z.of_nat 0) with 1. rewrite Z.mul_1_r.
    exact Hl.
  - cbn [Nat.iter]. rewrite Nat2Z.inj_succ, Z.pow_succ_r by lia.
    replace (u * (2 * 2 ^ Z.of_nat j)) with (2 * (u * 2 ^ Z.of_nat j)) by ring.
    apply located_shr_1; [|exact IH].
    assert (0 < 2 ^ Z.of_nat j) by (apply Z.pow_pos_nonneg; lia). nia.
Qed.

Lemma located_shr (n u : Z) (mrs : shr_record) (e k : Z) :
  0 < u -> 0 <= k -> located n u mrs ->
  located n (u * 2 ^ k) (fst (shr mrs e k)) /\ snd (shr mrs e k) = e + k.
Proof.
  intros Hu Hk Hl. destruct k as [|p|p]; [| |lia]; cbn [shr fst snd].
  - change (2 ^ 0) with 1. rewrite Z.mul_1_r, Z.add_0_r. split; trivial.
  - split; [|reflexivity].
    rewrite iter_pos_nat, <- (positive_nat_Z p).
    apply located_iter; assumption.
Qed.

Lemma located_floor (n u : Z) (mrs : shr_record) :
  0 < u -> located n u mrs ->
  shr_m mrs * u <= n < (shr_m mrs + 1) * u.
Proof.
  intros Hu [Hm H]. destruct (shr_r mrs), (shr_s mrs); nia.
Qed.

Lemma located_of_loc_exact (m : Z) : 0 <= m ->
  located m 1 (shr_record_of_loc m loc_Exact).
Proof. intros Hm. split; cbn; lia. Qed.

(** Rounding to nearest, ties to even, moves to a neighbour within half
    a unit. *)
Lemma round_nearest_even_spec (n u : Z) (mrs : shr_record) :
  0 < u -> located n u mrs ->
  let m := shr_m mrs in
  let m2 := round_nearest_even m (loc_of_shr_record mrs) in
  (m2 = m /\ 2 * n <= (2 * m + 1) * u
   \/ m2 = m + 1 /\ (2 * m + 1) * u <= 2 * n)
  /\ - u <= 2 * m2 * u - 2 * n <= u.
Proof.
  intros Hu [Hm H]. destruct mrs as [m r s].
  cbn [shr_m shr_r shr_s] in *. cbv zeta.
  destruct r, s; cbn [loc_of_shr_record round_nearest_even].
  - split; [right|]; nia.
  - destruct (Z.even m); split; first [left; nia | right; nia | nia].
  - split; [left|]; nia.
  - split; [left|]; nia.
Qed.

(** In a tie the even neighbour is taken. *)
Lemma round_nearest_even_tie (n u : Z) (mrs : shr_record) :
  0 < u -> located n u mrs ->
  let m := shr_m mrs in
  2 * n = (2 * m + 1) * u ->
  round_nearest_even m (loc_of_shr_record mrs)
  = if Z.even m then m else m + 1.
Proof.
  intros Hu [Hm H]. destruct mrs as [m r s].
  cbn [shr_m shr_r shr_s] in *. cbv zeta. intros Ht.
  destruct r, s; cbn [loc_of_shr_record round_nearest_even];
    first [reflexivity | nia].
Qed.

Lemma pow2_split (d : Z) : 53 <= d -> 2 ^ d = 2 ^ 53 * 2 ^ (d - 53).
Proof.
  intros Hd. rewrite <- Z.pow_add_r by lia. f_equal. lia.
Qed.

Lemma pow2_split' (d : Z) : 53 <= d -> 2 ^ (d - 1) = 2 ^ 52 * 2 ^ (d - 53).
Proof.
  intros Hd. rewrite <- Z.pow_add_r by lia. f_equal. lia.
Qed.

Lemma binary_round_aux_normal (s : bool) (mx : positive) (ex : Z)
    (lx : location) (n u : Z) :
  0 < u ->
  located n u (shr_record_of_loc (Zpos mx) lx) ->
  53 <= Zpos (digits2_pos mx) ->
  -1074 <= Zpos (digits2_pos mx) + ex - 53 ->
  let U := u * 2 ^ (Zpos (digits2_pos mx) - 53) in
  exists m1 m2 : Z,
    m1 * U <= n < (m1 + 1) * U
    /\ 2 ^ 52 <= m1 < 2 ^ 53
    /\ (m2 = m1 /\ 2 * n <= (2 * m1 + 1) * U
        \/ m2 = m1 + 1 /\ (2 * m1 + 1) * U <= 2 * n)
    /\ (2 * n = (2 * m1 + 1) * U -> m2 = if Z.even m1 then m1 else m1 + 1)
    /\ - U <= 2 * m2 * U - 2 * n <= U
    /\ binary_round_aux prec emax s (Zpos mx) ex lx
       = rounded s m2 (ex + Zpos (digits2_pos mx) - 53).
Proof.
  intros Hu Hl Hd He U.
  set (d := Zpos (digits2_pos mx)) in *.
  pose proof (digits2_pos_bounds mx) as [Bl Bu]. fold d in Bl, Bu.
  assert (HP : 0 < 2 ^ (d - 53)) by (apply Z.pow_pos_nonneg; lia).
  assert (HU : 0 < U) by (unfold U; nia).
  unfold binary_round_aux, shr_fexp at 1.
  cbn [Zdigits2]. fold d. rewrite fexp_eq.
  replace (Z.max (d + ex - 53) (-1074) - ex) with (d - 53) by lia.
  destruct (@located_shr n u _ ex (d - 53) Hu ltac:(lia) Hl) as [Hl1 He1].
  fold U in Hl1.
  destruct (shr (shr_record_of_loc (Zpos mx) lx) ex (d - 53)) as [mrs1 e1].
  cbn [fst snd] in Hl1, He1. subst e1.
  pose proof (@located_floor n u _ Hu Hl) as Hf0.
  assert (Hmx : shr_m (shr_record_of_loc (Zpos mx) lx) = Zpos mx)
    by (destruct lx as [|[| |]]; reflexivity).
  rewrite Hmx in Hf0.
  pose proof (@located_floor n U _ HU Hl1) as Hf1.
  pose proof (@round_nearest_even_spec n U _ HU Hl1) as Hr. cbv zeta in Hr.
  pose proof (@round_nearest_even_tie n U _ HU Hl1) as Ht. cbv zeta in Ht.
  set (m1 := shr_m mrs1) in *.
  set (m2 := round_nearest_even m1 (loc_of_shr_record mrs1)) in *.
  rewrite (@pow2_split d Hd) in Bu. rewrite (@pow2_split' d Hd) in Bl.
  assert (Hm1 : 2 ^ 52 <= m1 < 2 ^ 53).
  { unfold U in Hf1. split; nia. }
  exists m1, m2.
  split; [exact Hf1|]. split; [exact Hm1|].
  split; [apply Hr|]. split; [exact Ht|]. split; [apply Hr|].
  assert (Hm2 : 2 ^ 52 <= m2 <= 2 ^ 53) by lia.
  unfold rounded, shr_fexp.
  destruct (Z.eqb_spec m2 (2 ^ 53)) as [E|E].
  - rewrite E. rewrite fexp_eq.
    change (Zdigits2 (2 ^ 53)) with 54.
    replace (Z.max (54 + (ex + (d - 53)) - 53) (-1074) - (ex + (d - 53)))
      with 1 by lia.
    cbn [shr iter_pos].
    change (shr_1 (shr_record_of_loc (2 ^ 53) loc_Exact))
      with {| shr_m := Zpos (2 ^ 52); shr_r := false; shr_s := false |}.
    cbn [shr_m]. change (emax - prec) with 971.
    replace (ex + (d - 53) + 1) with (ex + d - 53 + 1) by lia.
    reflexivity.
  - destruct m2 as [|p|p] eqn:Ep; [lia| |lia].
    cbn [Zdigits2].
    assert (Hp : Zpos (digits2_pos p) = 53).
    { apply digits2_pos_unique. change (2 ^ (53 - 1)) with (2 ^ 52). lia. }
    rewrite Hp, fexp_eq.
    replace (Z.max (53 + (ex + (d - 53)) - 53) (-1074) - (ex + (d - 53)))
      with 0 by lia.
    cbn [shr shr_record_of_loc shr_m Z.to_pos]. change (emax - prec) with 971.
    replace (ex + (d - 53)) with (ex + d - 53) by lia.
    reflexivity.
Qed.

Lemma pos_iter_xO (p k : positive) :
  Zpos (Pos.iter xO p k) = Zpos p * 2 ^ Zpos k.
Proof.
  induction k as [|k IH] using Pos.peano_ind.
  - cbn. lia.
  - rewrite Pos.iter_succ, Pos2Z.inj_xO, IH, Pos2Z.inj_succ, Z.pow_succ_r by lia.
    ring.
Qed.

Lemma valid_rounded (s : bool) (m2 e : Z) :
  2 ^ 52 <= m2 <= 2 ^ 53 -> -1074 <= e ->
  valid_binary (rounded s m2 e) = true.
Proof.
  intros Hm He. unfold rounded.
  destruct (Z.eqb_spec m2 (2 ^ 53)) as [E|E].
  - destruct (Z.leb_spec (e + 1) 971) as [L|L]; [|reflexivity].
    cbn [SpecFloat.valid_binary]. unfold bounded, canonical_mantissa.
    rewrite fexp_eq. change (Zpos (digits2_pos (2 ^ 52))) with 53.
    change (emax - prec) with 971.
    apply andb_true_intro. split; [apply Z.eqb_eq | apply Z.leb_le]; lia.
  - destruct (Z.leb_spec e 971) as [L|L]; [|reflexivity].
    cbn [SpecFloat.valid_binary]. unfold bounded, canonical_mantissa.
    rewrite fexp_eq. change (emax - prec) with 971.
    assert (Hp : Zpos (digits2_pos (Z.to_pos m2)) = 53).
    { apply digits2_pos_unique. rewrite Z2Pos.id by lia.
      change (2 ^ (53 - 1)) with (2 ^ 52). lia. }
    rewrite Hp.
    apply andb_true_intro. split; [apply Z.eqb_eq | apply Z.leb_le]; lia.
Qed.

(** Rounding the integer [p]: a float below [float_limit], an infinity
    from there on. *)
Lemma binary_round_int (s : bool) (p : positive) :
  exists m2 e,
    2 ^ 52 <= m2 <= 2 ^ 53 /\ -1074 <= e
    /\ binary_round prec emax s p 0 = rounded s m2 e
    /\ (Zpos p < float_limit <-> rounded s m2 e <> S754_infinity s).
Proof.
  pose proof (digits2_pos_bounds p) as [Bl Bu].
  set (d := Zpos (digits2_pos p)) in *.
  assert (Hd1 : 1 <= d) by (unfold d; lia).
  unfold binary_round. fold d. rewrite fexp_eq.
  replace (Z.max (d + 0 - 53) (-1074)) with (d - 53) by lia.
  unfold shl_align. rewrite Z.sub_0_r.
  destruct (Z_lt_le_dec d 53) as [Hd|Hd].
  - (* fewer than 53 digits: the mantissa is shifted left, nothing is lost *)
    destruct (d - 53) as [|k|k] eqn:Ek; [lia|lia|].
    assert (Hk : Zpos k = 53 - d) by lia.
    set (mz := Pos.iter xO p k).
    assert (Hmz : Zpos mz = Zpos p * 2 ^ (53 - d)).
    { unfold mz. rewrite pos_iter_xO, Hk. reflexivity. }
    assert (Bz : 2 ^ 52 <= Zpos mz < 2 ^ 53).
    { rewrite Hmz.
      replace (2 ^ 52) with (2 ^ (d - 1) * 2 ^ (53 - d))
        by (rewrite <- Z.pow_add_r by lia; f_equal; lia).
      replace (2 ^ 53) with (2 ^ d * 2 ^ (53 - d))
        by (rewrite <- Z.pow_add_r by lia; f_equal; lia).
      assert (0 < 2 ^ (53 - d)) by (apply Z.pow_pos_nonneg; lia). nia. }
    assert (Dz : Zpos (digits2_pos mz) = 53).
    { apply digits2_pos_unique. change (2 ^ (53 - 1)) with (2 ^ 52). lia. }
    destruct (@binary_round_aux_normal s mz (Zneg k) loc_Exact (Zpos mz) 1
                ltac:(lia)
                (@located_of_loc_exact (Zpos mz) ltac:(lia))
                ltac:(lia) ltac:(lia))
      as (m1 & m2 & Hf & Hm1 & Hr & _ & _ & Heq).
    rewrite Dz in *. change (2 ^ (53 - 53)) with 1 in *.
    rewrite Z.mul_1_r in *.
    assert (m2 = Zpos mz) by lia. subst m2.
    exists (Zpos mz), (Zneg k + 53 - 53).
    split; [lia|]. split; [lia|]. split; [exact Heq|].
    unfold rounded.
    destruct (Z.eqb_spec (Zpos mz) (2 ^ 53)) as [E|_]; [lia|].
    destruct (Z.leb_spec (Zneg k + 53 - 53) 971) as [_|L]; [|lia].
    split; [discriminate|]. intros _.
    assert (2 ^ d <= 2 ^ 53) by (apply Z.pow_le_mono_r; lia).
    assert (2 ^ 53 < float_limit) by reflexivity. lia.
  - (* at least 53 digits *)
    assert (Hsh : (let (m, e) :=
                     match d - 53 with
                     | Zneg k => (Pos.iter xO p k, d - 53)
                     | _ => (p, 0)
                     end in (m, e)) = (p, 0)).
    { destruct (d - 53) as [|k|k] eqn:Ek; [reflexivity|reflexivity|lia]. }
    replace (match d - 53 with
             | Zneg k => (Pos.iter xO p k, d - 53)
             | _ => (p, 0)
             end) with (p, 0)
      by (destruct (d - 53) as [|k|k] eqn:Ek; [reflexivity|reflexivity|lia]).
    clear Hsh.
    destruct (@binary_round_aux_normal s p 0 loc_Exact (Zpos p) 1
                ltac:(lia)
                (@located_of_loc_exact (Zpos p) ltac:(lia))
                Hd ltac:(fold d; lia))
      as (m1 & m2 & Hf & Hm1 & Hr & Ht & _ & Heq).
    fold d in Hf, Hr, Ht, Heq. rewrite Z.mul_1_l in Hf, Hr, Ht.
    exists m2, (0 + d - 53).
    split; [lia|]. split; [lia|]. split; [exact Heq|].
    assert (HP : 0 < 2 ^ (d - 53)) by (apply Z.pow_pos_nonneg; lia).
    unfold rounded.
    destruct (Z_lt_le_dec d 1024) as [Hs|Hs].
    + (* at most 1023 digits: always a float *)
      assert (Hlt : Zpos p < float_limit).
      { assert (2 ^ d <= 2 ^ 1023) by (apply Z.pow_le_mono_r; lia).
        assert (2 ^ 1023 < float_limit) by reflexivity. lia. }
      destruct (Z.eqb_spec m2 (2 ^ 53)) as [E|E].
      * destruct (Z.leb_spec (0 + d - 53 + 1) 971) as [_|L]; [|lia].
        split; [discriminate | intros _; exact Hlt].
      * destruct (Z.leb_spec (0 + d - 53) 971) as [_|L]; [|lia].
        split; [discriminate | intros _; exact Hlt].
    + destruct (Z_lt_le_dec 1024 d) as [Hb|Hb].
      * (* more than 1024 digits: never a float *)
        assert (Hge : float_limit <= Zpos p).
        { assert (2 ^ 1024 <= 2 ^ (d - 1)) by (apply Z.pow_le_mono_r; lia).
          assert (float_limit < 2 ^ 1024) by reflexivity. lia. }
        destruct (Z.eqb_spec m2 (2 ^ 53)) as [E|E].
        -- destruct (Z.leb_spec (0 + d - 53 + 1) 971) as [L|_]; [lia|].
           split; [lia | intros C; exfalso; apply C; reflexivity].
        -- destruct (Z.leb_spec (0 + d - 53) 971) as [L|_]; [lia|].
           split; [lia | intros C; exfalso; apply C; reflexivity].
      * (* 1024 digits: a float unless the mantissa rounds up to 2^53 *)
        assert (d = 1024) by lia.
        replace (d - 53) with 971 in * by lia.
        replace (0 + d - 53) with 971 by lia.
        unfold float_limit.
        replace (2 ^ 971) with (2 * 2 ^ 970) in * by reflexivity.
        assert (0 < 2 ^ 970) by reflexivity.
        destruct (Z.eqb_spec m2 (2 ^ 53)) as [E|E].
        -- change (971 + 1 <=? 971) with false. cbv iota.
           split; [|intros C; exfalso; apply C; reflexivity].
           intros Hlt. exfalso.
           destruct Hr as [[E1 _]|[E1 Hr]]; [lia|].
           assert (m1 = 2 ^ 53 - 1) by lia. subst m1.
           change (2 * (2 ^ 53 - 1) + 1) with (2 ^ 54 - 1) in Hr. nia.
        -- change (971 <=? 971) with true. cbv iota.
           split; [discriminate|]. intros _.
           destruct (Z_lt_le_dec (Zpos p) ((2 ^ 54 - 1) * 2 ^ 970))
             as [?|Hge]; [assumption|exfalso].
           assert (Hm1' : m1 = 2 ^ 53 - 1).
           { assert (2 ^ 53 - 1 <= m1); [|lia].
             destruct (Z_lt_le_dec m1 (2 ^ 53 - 1)) as [Hc|?]; [|assumption].
             exfalso. nia. }
           subst m1.
           change (2 * (2 ^ 53 - 1) + 1) with (2 ^ 54 - 1) in Hr, Ht.
           destruct (Z.eq_dec (2 * Zpos p) ((2 ^ 54 - 1) * (2 * 2 ^ 970)))
             as [Etie|Ntie].
           ++ specialize (Ht Etie).
              change (Z.even (2 ^ 53 - 1)) with false in Ht.
              cbv iota in Ht. apply E. rewrite Ht. reflexivity.
           ++ destruct Hr as [[_ Hr]|[E1 _]]; [nia|].
              apply E. rewrite E1. reflexivity.
Qed.

(** *** Converting an [int] *)

Lemma is_infinity_SF (x : float) :
  is_infinity x
  = match Prim2SF x with S754_infinity _ => true | _ => false end.
Proof.
  unfold is_infinity. rewrite eqb_spec, abs_spec.
  change (Prim2SF infinity) with (S754_infinity false).
  destruct (Prim2SF x) as [s|s| |s m e]; try reflexivity;
    destruct s; reflexivity.
Qed.

(** [float(n)] is defined for the integers of magnitude below
    [float_limit], and for no other. *)
Lemma of_int_defined (n : Z) :
  (exists x : float, of_int n = Some x) <-> Z.abs n < float_limit.
Proof.
  cbn [of_int binary64]. cbv zeta. rewrite is_infinity_SF. unfold Z2F.
  destruct n as [|p|p]; cbn [binary_normalize Z.abs].
  - rewrite Prim2SF_SF2Prim by reflexivity.
    split; [intros _; reflexivity | intros _; eexists; reflexivity].
  - destruct (binary_round_int false p) as (m2 & e & Hm & He & -> & Hlim).
    rewrite Prim2SF_SF2Prim by (apply valid_rounded; assumption).
    rewrite Hlim. unfold rounded.
    destruct (m2 =? 2 ^ 53); [destruct (e + 1 <=? 971)|destruct (e <=? 971)];
      split; first [intros _; discriminate
                   | intros _; eexists; reflexivity
                   | intros [x Hx]; discriminate Hx
                   | intros C; exfalso; apply C; reflexivity].
  - destruct (binary_round_int true p) as (m2 & e & Hm & He & -> & Hlim).
    rewrite Prim2SF_SF2Prim by (apply valid_rounded; assumption).
    change (Z.pos p < float_limit) with (Zpos p < float_limit).
    rewrite Hlim. unfold rounded.
    destruct (m2 =? 2 ^ 53); [destruct (e + 1 <=? 971)|destruct (e <=? 971)];
      split; first [intros _; discriminate
                   | intros _; eexists; reflexivity
                   | intros [x Hx]; discriminate Hx
                   | intros C; exfalso; apply C; reflexivity].
Qed.

(** An integer no larger in magnitude than one that converts, converts. *)
Lemma of_int_smaller (n k : Z) (x : float) :
  of_int n = Some x -> Z.abs k <= Z.abs n -> exists y : float, of_int k = Some y.
Proof.
  intros Hx Hk. apply of_int_defined.
  assert (Z.abs n < float_limit) by (apply of_int_defined; exists x; exact Hx).
  lia.
Qed.

(** *** The relative error of a product and of a quotient *)

Lemma round_error (n U m2 : Z) :
  0 < U -> 2 ^ 52 <= m2 -> 2 ^ 52 * U <= n ->
  - U <= 2 * m2 * U - 2 * n <= U ->
  near half_ulp (inject_Z (m2 * U)) (inject_Z n).
Proof.
  intros HU Hm Hn Hr.
  assert (P52 : 2 ^ 52 = 4503599627370496) by reflexivity.
  assert (P53 : Zpos (2 ^ 53) = 2 * 2 ^ 52) by reflexivity.
  rewrite P52 in *.
  assert (HmU : 0 < m2 * U) by nia.
  assert (Hnpos : 0 < n) by nia.
  exists ((n - m2 * U) # Z.to_pos (m2 * U)), ((m2 * U - n) # Z.to_pos n).
  repeat split.
  - apply Qabs_Qle_condition. unfold half_ulp, Qle, Qopp. cbn [Qnum Qden].
    rewrite P53, Z2Pos.id by lia. split; nia.
  - apply Qabs_Qle_condition. unfold half_ulp, Qle, Qopp. cbn [Qnum Qden].
    rewrite P53, Z2Pos.id by lia. split; nia.
  - unfold Qeq, Qmult, Qplus, inject_Z. cbn [Qnum Qden].
    rewrite ?Pos2Z.inj_mul, ?Z2Pos.id by lia. ring.
  - unfold Qeq, Qmult, Qplus, inject_Z. cbn [Qnum Qden].
    rewrite ?Pos2Z.inj_mul, ?Z2Pos.id by lia. ring.
Qed.

Lemma near_scale (eps x y c : Q) : near eps x y -> near eps (x * c) (y * c).
Proof.
  intros (d & d' & Hd & Hd' & E & E').
  exists d, d'. repeat split; try assumption.
  - rewrite E. ring.
  - rewrite E' at 1. ring.
Qed.

Lemma near_compat (eps x x' y y' : Q) :
  (x == x')%Q -> (y == y')%Q -> near eps x y -> near eps x' y'.
Proof.
  intros Ex Ey (d & d' & Hd & Hd' & E & E').
  exists d, d'. repeat split; try assumption.
  - rewrite <- Ex, <- Ey. exact E.
  - rewrite <- Ex, <- Ey. exact E'.
Qed.

Lemma near_signed (eps x y : Q) (s : bool) :
  near eps x y -> near eps (signed s x) (signed s y).
Proof.
  intros (d & d' & Hd & Hd' & E & E').
  exists d, d'. repeat split; try assumption;
    destruct s; cbn [signed]; [rewrite E | exact E | rewrite E' at 1 | exact E'];
    ring.
Qed.

Lemma SF2Q_finite (s : bool) (m : positive) (e : Z) :
  (SF2Q (S754_finite s m e) == signed s (inject_Z (Zpos m) * inject_Z 2 ^ e))%Q.
Proof.
  cbn [SF2Q]. destruct s; cbn [signed]; [|reflexivity].
  change (inject_Z (Zneg m)) with (- inject_Z (Zpos m))%Q. ring.
Qed.

Lemma two_not_0 : ~ (inject_Z 2 == 0)%Q.
Proof. discriminate. Qed.

Lemma Qpow2_nonneg (k : Z) : 0 <= k -> (inject_Z 2 ^ k == inject_Z (2 ^ k))%Q.
Proof. intros Hk. symmetry. apply Zpower_Qpower. exact Hk. Qed.

(** A mantissa in [2^52, 2^53] at an exponent that leaves room is a
    float of 53 digits, of the same value. *)
Lemma rounded_finite (s : bool) (m2 e1 : Z) :
  2 ^ 52 <= m2 <= 2 ^ 53 -> e1 + 1 <= 971 ->
  exists m e,
    rounded s m2 e1 = S754_finite s m e
    /\ Zpos (digits2_pos m) = 53
    /\ e1 <= e <= e1 + 1
    /\ (inject_Z (Zpos m) * inject_Z 2 ^ e == inject_Z m2 * inject_Z 2 ^ e1)%Q.
Proof.
  intros Hm He. unfold rounded.
  destruct (Z.eqb_spec m2 (2 ^ 53)) as [E|E].
  - destruct (Z.leb_spec (e1 + 1) 971) as [_|L]; [|lia].
    exists (2 ^ 52)%positive, (e1 + 1).
    split; [reflexivity|]. split; [reflexivity|]. split; [lia|].
    rewrite E, (Qpower_plus _ _ _ two_not_0).
    change (inject_Z 2 ^ 1)%Q with (inject_Z 2).
    rewrite <- !inject_Z_mult || idtac.
    setoid_replace (inject_Z (2 ^ 53)) with (inject_Z (Zpos (2 ^ 52)) * inject_Z 2)%Q
      by (rewrite <- inject_Z_mult; reflexivity).
    ring.
  - destruct (Z.leb_spec e1 971) as [_|L]; [|lia].
    exists (Z.to_pos m2), e1.
    split; [reflexivity|].
    split.
    { apply digits2_pos_unique. rewrite Z2Pos.id by lia.
      change (2 ^ (53 - 1)) with (2 ^ 52). lia. }
    split; [lia|]. rewrite Z2Pos.id by lia. reflexivity.
Qed.

(** Rounding in the normal range: a float of 53 digits within half an
    ulp, relatively [2^-53], of the quotient [n / u] at the exponent
    [ex]. *)
Lemma binary_round_aux_near (s : bool) (mx : positive) (ex : Z)
    (lx : location) (n u : Z) :
  0 < u ->
  located n u (shr_record_of_loc (Zpos mx) lx) ->
  53 <= Zpos (digits2_pos mx) ->
  -1074 <= Zpos (digits2_pos mx) + ex - 53 ->
  Zpos (digits2_pos mx) + ex - 52 <= 971 ->
  exists m e,
    binary_round_aux prec emax s (Zpos mx) ex lx = S754_finite s m e
    /\ Zpos (digits2_pos m) = 53
    /\ ex + Zpos (digits2_pos mx) - 53 <= e <= ex + Zpos (digits2_pos mx) - 52
    /\ near half_ulp (inject_Z (Zpos m) * inject_Z 2 ^ e)
         (inject_Z n / inject_Z u * inject_Z 2 ^ ex).
Proof.
  intros Hu Hl Hd Hlo Hhi.
  destruct (@binary_round_aux_normal s mx ex lx n u Hu Hl Hd Hlo)
    as (m1 & m2 & Hf & Hm1 & Hr & _ & Herr & Heq).
  set (d := Zpos (digits2_pos mx)) in *.
  set (U := u * 2 ^ (d - 53)) in *.
  assert (HP : 0 < 2 ^ (d - 53)) by (apply Z.pow_pos_nonneg; lia).
  assert (HU : 0 < U) by (unfold U; nia).
  assert (Hm2 : 2 ^ 52 <= m2 <= 2 ^ 53) by lia.
  destruct (@rounded_finite s m2 (ex + d - 53) Hm2 ltac:(lia))
    as (m & e & Hfin & Hdig & He & Hval).
  exists m, e. rewrite Heq.
  split; [exact Hfin|]. split; [exact Hdig|]. split; [lia|].
  assert (Hn : 2 ^ 52 * U <= n) by nia.
  pose proof (@round_error n U m2 HU ltac:(lia) Hn Herr) as Hnear.
  apply (@near_scale _ _ _ (inject_Z 2 ^ ex / inject_Z u)) in Hnear.
  revert Hnear. apply near_compat.
  - rewrite Hval. unfold U.
    replace (ex + d - 53) with (ex + (d - 53)) by lia.
    rewrite (Qpower_plus _ _ _ two_not_0), (@Qpow2_nonneg (d - 53)) by lia.
    rewrite !inject_Z_mult. field.
    intros C. apply (inject_Z_injective u 0) in C. lia.
  - field. intros C. apply (inject_Z_injective u 0) in C. lia.
Qed.

Lemma digits_53 (m : positive) :
  Zpos (digits2_pos m) = 53 -> 2 ^ 52 <= Zpos m < 2 ^ 53.
Proof.
  intros Hd. pose proof (digits2_pos_bounds m) as B. rewrite Hd in B.
  exact B.
Qed.

Lemma digits_ge (m : positive) (d : Z) :
  2 ^ (d - 1) <= Zpos m -> d <= Zpos (digits2_pos m).
Proof.
  intros Hl. pose proof (digits2_pos_bounds m) as [_ Bu].
  destruct (Z_lt_le_dec (Zpos (digits2_pos m)) d) as [Hc|?]; [|assumption].
  exfalso.
  assert (2 ^ Zpos (digits2_pos m) <= 2 ^ (d - 1))
    by (apply Z.pow_le_mono_r; lia).
  lia.
Qed.

Lemma digits_le (m : positive) (d : Z) :
  0 <= d -> Zpos m < 2 ^ d -> Zpos (digits2_pos m) <= d.
Proof.
  intros Hd Hu. pose proof (digits2_pos_bounds m) as [Bl _].
  destruct (Z_lt_le_dec d (Zpos (digits2_pos m))) as [Hc|?]; [|lia].
  exfalso.
  assert (2 ^ d <= 2 ^ (Zpos (digits2_pos m) - 1))
    by (apply Z.pow_le_mono_r; lia).
  lia.
Qed.

(** The product of two floats of 53 digits, in the normal range. *)
Lemma SFmul_near (sx sy : bool) (mx my : positive) (ex ey : Z) :
  Zpos (digits2_pos mx) = 53 -> Zpos (digits2_pos my) = 53 ->
  -1126 <= ex + ey <= 917 ->
  exists m e,
    SFmul prec emax (S754_finite sx mx ex) (S754_finite sy my ey)
    = S754_finite (xorb sx sy) m e
    /\ Zpos (digits2_pos m) = 53
    /\ ex + ey + 52 <= e <= ex + ey + 54
    /\ near half_ulp (SF2Q (S754_finite (xorb sx sy) m e))
         (SF2Q (S754_finite sx mx ex) * SF2Q (S754_finite sy my ey)).
Proof.
  intros Hx Hy He. cbn [SFmul].
  apply digits_53 in Hx, Hy.
  assert (Hl : 2 ^ 104 <= Zpos (mx * my)).
  { rewrite Pos2Z.inj_mul. change (2 ^ 104) with (2 ^ 52 * 2 ^ 52). nia. }
  assert (Hu : Zpos (mx * my) < 2 ^ 106).
  { rewrite Pos2Z.inj_mul. change (2 ^ 106) with (2 ^ 53 * 2 ^ 53). nia. }
  pose proof (@digits_ge (mx * my) 105 Hl) as Dl.
  pose proof (@digits_le (mx * my) 106 ltac:(lia) Hu) as Du.
  destruct (@binary_round_aux_near (xorb sx sy) (mx * my) (ex + ey) loc_Exact
              (Zpos (mx * my)) 1 ltac:(lia)
              (@located_of_loc_exact (Zpos (mx * my)) ltac:(lia))
              ltac:(lia) ltac:(lia) ltac:(lia))
    as (m & e & Heq & Hd & Hr & Hn).
  exists m, e. split; [exact Heq|]. split; [exact Hd|]. split; [lia|].
  apply (@near_signed _ _ _ (xorb sx sy)) in Hn.
  revert Hn. apply near_compat.
  - symmetry. apply SF2Q_finite.
  - rewrite !SF2Q_finite.
    rewrite Pos2Z.inj_mul, inject_Z_mult.
    destruct sx, sy; cbn [signed xorb];
      rewrite (Qpower_plus _ _ _ two_not_0); field.
Qed.

Lemma located_new_location (n u q r : Z) :
  0 < u -> 0 <= q -> n = u * q + r -> 0 <= r < u ->
  located n u (shr_record_of_loc q (new_location u r)).
Proof.
  intros Hu Hq Hn Hr. unfold new_location.
  destruct (Z.even u) eqn:Ev.
  - unfold new_location_even.
    destruct (Z.eqb_spec r 0) as [E|E].
    + split; cbn [shr_record_of_loc shr_m shr_r shr_s]; nia.
    + destruct (Z.compare_spec (2 * r) u) as [C|C|C]; split;
        cbn [shr_record_of_loc shr_m shr_r shr_s]; nia.
  - unfold new_location_odd.
    destruct (Z.eqb_spec r 0) as [E|E].
    + split; cbn [shr_record_of_loc shr_m shr_r shr_s]; nia.
    + assert (Ho : u <> 2 * r).
      { intros C. rewrite C, Z.even_mul in Ev. discriminate Ev. }
      destruct (Z.compare_spec (2 * r + 1) u) as [C|C|C]; split;
        cbn [shr_record_of_loc shr_m shr_r shr_s]; nia.
Qed.

(** The quotient of two floats of 53 digits, in the normal range. *)
Lemma SFdiv_near (sx sy : bool) (mx my : positive) (ex ey : Z) :
  Zpos (digits2_pos mx) = 53 -> Zpos (digits2_pos my) = 53 ->
  -1021 <= ex - ey <= 1022 ->
  exists m e,
    SFdiv prec emax (S754_finite sx mx ex) (S754_finite sy my ey)
    = S754_finite (xorb sx sy) m e
    /\ Zpos (digits2_pos m) = 53
    /\ ex - ey - 53 <= e <= ex - ey - 51
    /\ near half_ulp (SF2Q (S754_finite (xorb sx sy) m e))
         (SF2Q (S754_finite sx mx ex) / SF2Q (S754_finite sy my ey)).
Proof.
  intros Hx Hy He. cbn [SFdiv]. unfold SFdiv_core_binary.
  cbn [Zdigits2]. rewrite Hx, Hy, fexp_eq.
  replace (Z.min (Z.max (53 + ex - (53 + ey) - 53) (-1074)) (ex - ey))
    with (ex - ey - 53) by lia.
  replace (ex - ey - (ex - ey - 53)) with 53 by lia.
  cbv iota. rewrite Z.shiftl_mul_pow2 by lia.
  apply digits_53 in Hx, Hy.
  pose proof (Z_div_mod (Zpos mx * 2 ^ 53) (Zpos my) ltac:(lia)) as Hdm.
  destruct (Z.div_eucl (Zpos mx * 2 ^ 53) (Zpos my)) as [q r].
  destruct Hdm as [Hn Hr].
  assert (P : 2 ^ 53 = 2 * 2 ^ 52) by reflexivity.
  assert (P52 : 0 < 2 ^ 52) by reflexivity.
  assert (Hq : 2 ^ 52 <= q < 2 ^ 54).
  { change (2 ^ 54) with (2 * (2 * 2 ^ 52)). rewrite P in *. split; nia. }
  destruct q as [|mq|mq]; [lia| |lia].
  pose proof (@digits_ge mq 53 ltac:(change (2 ^ (53 - 1)) with (2 ^ 52); lia))
    as Dl.
  pose proof (@digits_le mq 54 ltac:(lia) ltac:(lia)) as Du.
  destruct (@binary_round_aux_near (xorb sx sy) mq (ex - ey - 53)
              (new_location (Zpos my) r) (Zpos mx * 2 ^ 53) (Zpos my)
              ltac:(lia)
              (@located_new_location (Zpos mx * 2 ^ 53) (Zpos my) (Zpos mq) r
                 ltac:(lia) ltac:(lia) Hn Hr)
              ltac:(lia) ltac:(lia) ltac:(lia))
    as (m & e & Heq & Hd & Hre & Hnear).
  exists m, e. split; [exact Heq|]. split; [exact Hd|]. split; [lia|].
  apply (@near_signed _ _ _ (xorb sx sy)) in Hnear.
  revert Hnear. apply near_compat.
  - symmetry. apply SF2Q_finite.
  - assert (Hmy : ~ (inject_Z (Zpos my) == 0)%Q) by discriminate.
    assert (Hpy : ~ (inject_Z 2 ^ ey == 0)%Q)
      by (apply Qpower_not_0; exact two_not_0).
    assert (Hp53 : ~ (inject_Z 2 ^ 53 == 0)%Q)
      by (apply Qpower_not_0; exact two_not_0).
    rewrite !SF2Q_finite.
    replace (ex - ey - 53) with (ex + (- ey + - (53))) by lia.
    rewrite inject_Z_mult.
    destruct sx, sy; cbn [signed xorb];
      rewrite <- (@Qpow2_nonneg 53) by lia;
      rewrite !(Qpower_plus _ _ _ two_not_0), !Qpower_opp;
      field; repeat split; assumption.
Qed.

Lemma mul_near (x y : float) (lx hx ly hy : Z) :
  normal_in x lx hx -> normal_in y ly hy ->
  -1126 <= lx + ly -> hx + hy <= 917 ->
  normal_in (x * y) (lx + ly + 52) (hx + hy + 54)
  /\ near half_ulp (F2Q (x * y)) (F2Q x * F2Q y).
Proof.
  intros (sx & mx & ex & Ex & Dx & Hx) (sy & my & ey & Ey & Dy & Hy) Hl Hh.
  destruct (@SFmul_near sx sy mx my ex ey Dx Dy ltac:(lia))
    as (m & e & Heq & Hd & He & Hn).
  unfold F2Q. rewrite mul_spec, Ex, Ey. unfold SF64mul. rewrite Heq.
  split; [|exact Hn].
  exists (xorb sx sy), m, e.
  rewrite mul_spec, Ex, Ey. unfold SF64mul.
  split; [exact Heq|]. split; [exact Hd | lia].
Qed.

Lemma div_near (x y : float) (lx hx ly hy : Z) :
  normal_in x lx hx -> normal_in y ly hy ->
  -1021 <= lx - hy -> hx - ly <= 1022 ->
  normal_in (x / y) (lx - hy - 53) (hx - ly - 51)
  /\ near half_ulp (F2Q (x / y)) (F2Q x / F2Q y).
Proof.
  intros (sx & mx & ex & Ex & Dx & Hx) (sy & my & ey & Ey & Dy & Hy) Hl Hh.
  destruct (@SFdiv_near sx sy mx my ex ey Dx Dy ltac:(lia))
    as (m & e & Heq & Hd & He & Hn).
  unfold F2Q. rewrite div_spec, Ex, Ey. unfold SF64div. rewrite Heq.
  split; [|exact Hn].
  exists (xorb sx sy), m, e.
  rewrite div_spec, Ex, Ey. unfold SF64div.
  split; [exact Heq|]. split; [exact Hd | lia].
Qed.

Lemma near_sym (eps x y : Q) : near eps x y -> near eps y x.
Proof.
  intros (d & d' & Hd & Hd' & E & E'). exists d', d. repeat split; assumption.
Qed.

Lemma Qabs_compose (a b d e : Q) :
  (Qabs d <= a -> Qabs e <= b -> Qabs (d + e + d * e) <= a + b + a * b)%Q.
Proof.
  intros Hd He.
  eapply Qle_trans; [apply Qabs_triangle|].
  apply Qplus_le_compat.
  - eapply Qle_trans; [apply Qabs_triangle|].
    apply Qplus_le_compat; assumption.
  - rewrite Qabs_Qmult.
    eapply Qle_trans.
    + apply Qmult_le_compat_r; [exact Hd | apply Qabs_nonneg].
    + rewrite (Qmult_comm a (Qabs e)), (Qmult_comm a b).
      apply Qmult_le_compat_r; [exact He|].
      eapply Qle_trans; [apply Qabs_nonneg | exact Hd].
Qed.

(** Relative distances add up, with their product. *)
Lemma near_trans (a b x y z : Q) :
  near a x y -> near b y z -> near (a + b + a * b) x z.
Proof.
  intros (d & d' & Hd & Hd' & E & E') (e & e' & He & He' & G & G').
  exists (d + e + d * e)%Q, (d' + e' + d' * e')%Q.
  split; [apply Qabs_compose; assumption|].
  split; [apply Qabs_compose; assumption|].
  split.
  - rewrite G, E. ring.
  - rewrite E' at 1. rewrite G' at 1. ring.
Qed.

Lemma near_weaken (a b x y : Q) : (a <= b)%Q -> near a x y -> near b x y.
Proof.
  intros Hab (d & d' & Hd & Hd' & E & E').
  exists d, d'. repeat split; try assumption; eapply Qle_trans; eassumption.
Qed.

Lemma near_distance (eps x y : Q) :
  near eps x y -> (Qabs (x - y) <= eps * Qabs x)%Q.
Proof.
  intros (d & _ & Hd & _ & E & _).
  setoid_replace (x - y)%Q with (x * - d)%Q by (rewrite E; ring).
  rewrite Qabs_Qmult, Qabs_opp, Qmult_comm.
  apply Qmult_le_compat_r; [exact Hd | apply Qabs_nonneg].
Qed.

(** *** The figures per 10 grams and per ounce *)

Lemma normal_in_finite (x : float) (lo hi : Z) :
  normal_in x lo hi -> is_finite x = true.
Proof.
  intros (s & m & e & E & _).
  unfold is_finite, is_nan. rewrite is_infinity_SF, eqb_spec, E.
  unfold SFeqb, SFcompare.
  rewrite Z.compare_refl, Pos.compare_cont_refl.
  destruct s; reflexivity.
Qed.

Lemma in_normal_range_normal (b : float) :
  in_normal_range b = true -> normal_in b (-883) 878.
Proof.
  unfold in_normal_range. rewrite andb_true_iff, !leb_spec, abs_spec.
  change (Prim2SF 1e-250) with (S754_finite false 6448907850777164 (-883)).
  change (Prim2SF 1e280) with (S754_finite false 4962080516648048 878).
  pose proof (Prim2SF_valid b) as Hv.
  destruct (Prim2SF b) as [s|s| |s m e] eqn:Eb; cbn [SFabs];
    intros [Hlo Hhi]; try discriminate Hlo; try discriminate Hhi.
  unfold SFleb, SFcompare in Hlo, Hhi.
  assert (He : -883 <= e <= 878).
  { split.
    - destruct (Z.compare_spec (-883) e); [lia|lia|discriminate Hlo].
    - destruct (Z.compare_spec e 878); [lia|lia|discriminate Hhi]. }
  exists s, m, e. split; [exact Eb|]. split; [|exact He].
  cbn [SpecFloat.valid_binary] in Hv. unfold bounded, canonical_mantissa in Hv.
  apply andb_true_iff in Hv as [Hc _]. apply Z.eqb_eq in Hc.
  rewrite fexp_eq in Hc. lia.
Qed.

Lemma normal_in_GRAMS_PER_OUNCE :
  normal_in (GRAMS_PER_OUNCE (F := float)) (-48) (-48).
Proof.
  exists false, 8754856938119889%positive, (-48).
  split; [reflexivity|]. split; [reflexivity | lia].
Qed.

Lemma normal_in_f10 : normal_in (f10 (F := float)) (-49) (-49).
Proof.
  exists false, 5629499534213120%positive, (-49).
  split; [reflexivity|]. split; [reflexivity | lia].
Qed.

(** The float quotient [10 / 31.1035] of the constants is [10 / 31.1035]
    to 15 digits. *)
Lemma ounce_factor_near :
  near (1 # 10 ^ 15)
    (F2Q (f10 (F := float)) / F2Q (GRAMS_PER_OUNCE (F := float)))
    ounce_to_10g.
Proof.
  exists (Qred (ounce_to_10g
                / (F2Q (f10 (F := float)) / F2Q (GRAMS_PER_OUNCE (F := float)))
                - 1)),
         (Qred (F2Q (f10 (F := float)) / F2Q (GRAMS_PER_OUNCE (F := float))
                / ounce_to_10g - 1)).
  split; [|split; [|split]].
  - apply Qle_bool_imp_le. vm_compute. reflexivity.
  - apply Qle_bool_imp_le. vm_compute. reflexivity.
  - apply Qeq_bool_eq. vm_compute. reflexivity.
  - apply Qeq_bool_eq. vm_compute. reflexivity.
Qed.

Lemma F2Q_GRAMS_PER_OUNCE_not_0 :
  ~ (F2Q (GRAMS_PER_OUNCE (F := float)) == 0)%Q.
Proof. intros C. apply Qeq_eq_bool in C. vm_compute in C. discriminate C. Qed.

Lemma chain_bound_small : (chain_bound <= tolerance)%Q.
Proof. apply Qle_bool_imp_le. vm_compute. reflexivity. Qed.

(** Scaling before the tax factor or after it: for a base price [b] in
    the normal range and a tax factor [t] between [2^-6] and [2],
    [b / 31.1035 * 10 * t] as the floats compute it is [b * t] as the
    floats compute it, times [10 / 31.1035], within the tolerance. *)
Lemma scaled_chain (b t : float) :
  normal_in b (-883) 878 -> normal_in t (-58) (-52) ->
  scaled_within_tolerance
    (fmul (fmul (fdiv b GRAMS_PER_OUNCE) f10) t) (fmul b t).
Proof.
  intros Hb Ht. cbn [fmul fdiv binary64].
  destruct (div_near Hb normal_in_GRAMS_PER_OUNCE ltac:(lia) ltac:(lia))
    as [N1 D1].
  destruct (mul_near N1 normal_in_f10 ltac:(lia) ltac:(lia)) as [N2 M2].
  destruct (mul_near N2 Ht ltac:(lia) ltac:(lia)) as [N3 M3].
  destruct (mul_near Hb Ht ltac:(lia) ltac:(lia)) as [N4 M4].
  split; [exact (normal_in_finite N3)|].
  split; [exact (normal_in_finite N4)|].
  set (vb := F2Q b) in *. set (vt := F2Q t) in *.
  set (vG := F2Q GRAMS_PER_OUNCE) in *. set (v10 := F2Q f10) in *.
  set (x1 := (b / GRAMS_PER_OUNCE)%float) in *.
  set (x2 := (x1 * f10)%float) in *.
  set (g := (x2 * t)%float) in *. set (o := (b * t)%float) in *.
  assert (HG : ~ (vG == 0)%Q) by exact F2Q_GRAMS_PER_OUNCE_not_0.
  (* the float computation of the figure per 10 grams, step by step *)
  pose proof (near_scale vt M2) as S2.
  pose proof (near_scale (v10 * vt)%Q D1) as S3.
  pose proof (near_scale (vb * vt)%Q ounce_factor_near) as S4.
  fold v10 vG in S4.
  pose proof (near_sym (near_scale ounce_to_10g M4)) as S5.
  assert (S3' : near half_ulp (F2Q x1 * v10 * vt) (vb / vG * v10 * vt)).
  { revert S3. apply near_compat; ring. }
  assert (S4' : near (1 # 10 ^ 15) (vb / vG * v10 * vt)
                  (vb * vt * ounce_to_10g)).
  { revert S4. apply near_compat; [field; exact HG | ring]. }
  pose proof (near_trans (near_trans (near_trans (near_trans M3 S2) S3') S4')
                S5) as Hn.
  apply (near_weaken chain_bound_small) in Hn.
  exact (near_distance Hn).
Qed.

(** The base price per 10 grams is the base price per ounce times
    [10 / 31.1035], within the tolerance. *)
Lemma scaled_base (b : float) :
  normal_in b (-883) 878 ->
  scaled_within_tolerance (fmul (fdiv b GRAMS_PER_OUNCE) f10) b.
Proof.
  intros Hb. cbn [fmul fdiv binary64].
  destruct (div_near Hb normal_in_GRAMS_PER_OUNCE ltac:(lia) ltac:(lia))
    as [N1 D1].
  destruct (mul_near N1 normal_in_f10 ltac:(lia) ltac:(lia)) as [N2 M2].
  split; [exact (normal_in_finite N2)|].
  split; [exact (normal_in_finite Hb)|].
  set (vb := F2Q b) in *.
  set (vG := F2Q GRAMS_PER_OUNCE) in *. set (v10 := F2Q f10) in *.
  assert (HG : ~ (vG == 0)%Q) by exact F2Q_GRAMS_PER_OUNCE_not_0.
  pose proof (near_scale v10 D1) as S2.
  pose proof (near_scale vb ounce_factor_near) as S3. fold v10 vG in S3.
  assert (S3' : near (1 # 10 ^ 15) (vb / vG * v10) (vb * ounce_to_10g)).
  { revert S3. apply near_compat; [field; exact HG | ring]. }
  pose proof (near_trans (near_trans M2 S2) S3') as Hn.
  apply (@near_weaken _ tolerance) in Hn;
    [|apply Qle_bool_imp_le; vm_compute; reflexivity].
  exact (near_distance Hn).
Qed.

(** The tax factors of both metals are floats between [2^-6] and [2]. *)
Ltac tax_factor :=
  do 3 eexists; split; [vm_compute; reflexivity|];
  split; [vm_compute; reflexivity | lia].

Lemma tax_factors_normal (metal : str) (config : metal_config float) :
  assoc metal METAL_CONFIG = Some config ->
  let d := import_duty config in
  normal_in (fadd f1 GST_RATE) (-58) (-52)
  /\ normal_in (fadd f1 d) (-58) (-52)
  /\ normal_in (fadd (fadd f1 GST_RATE) d) (-58) (-52)
  /\ normal_in (GST_RATE (F := float)) (-58) (-52)
  /\ normal_in d (-58) (-52).
Proof.
  intros Hc. apply assoc_METAL_CONFIG_Some in Hc.
  destruct Hc as [[_ ->]|[_ ->]]; cbn [import_duty]; cbv zeta;
    repeat split; tax_factor.
Qed.

End Rounding.

(** ** Claims about the figures per 10 grams *)

Section PerTenGrams.
Context {F : Type} `{PyFloat F}.
Variable unicode_lower : str -> str.

(** In a report the two base prices per 10 grams are the spot price and
    its rupee value, divided by [GRAMS_PER_OUNCE] and multiplied by 10, and
    the taxes per 10 grams are computed once, from that scaled base. *)
Lemma per_10g_derivation (metal : str) (net : upstream F) (q : quote F) :
  fetch_metal_price unicode_lower metal net = Ret (Report q) ->
  exists config s b,
    assoc (normalized unicode_lower metal) METAL_CONFIG = Some config
    /\ nonzero GRAMS_PER_OUNCE = true
    /\ py_mul (current_price_usd q) (exchange_rate q)
       = Ret (current_price_inr q)
    /\ as_float (current_price_usd q) = Ret s
    /\ as_float (current_price_inr q) = Ret b
    /\ price_per_10g_usd q = fmul (fdiv s GRAMS_PER_OUNCE) f10
    /\ price_per_10g_inr q = fmul (fdiv b GRAMS_PER_OUNCE) f10
    /\ tax_formulas (ounce_prices q) b GST_RATE (import_duty config)
    /\ tax_formulas (gram_prices q) (fmul (fdiv b GRAMS_PER_OUNCE) f10)
         GST_RATE (import_duty config).
Proof.
  intros Hq.
  destruct (report_tax_formulas unicode_lower metal net Hq)
    as (config & b & Hc & Hb & Ho & Hg).
  apply fetch_metal_price_report, report_inv in Hq.
  destruct Hq as (config' & data & x & y & _ & _ & _ & _ & _ & _ & Hm & Hx
                  & Hpx & Hy & Hpy & _ & _).
  unfold py_div_float in Hx, Hy. rewrite Hb in Hy.
  destruct (as_float (current_price_usd q)) as [s|e]; [|discriminate Hx].
  cbn [bind] in Hx, Hy.
  destruct (nonzero GRAMS_PER_OUNCE); [|discriminate Hx].
  injection Hx as <-. injection Hy as <-.
  exists config, s, b. rewrite <- Hpy.
  repeat split; first [assumption | reflexivity | apply Ho | apply Hg].
Qed.

End PerTenGrams.

(** In binary64 the figures per 10 grams of a report are the figures per
    ounce times [10 / 31.1035] within the tolerance, when the base price
    in rupees is in the normal range. *)
Lemma report_scaled_within_tolerance (unicode_lower : str -> str)
    (metal : str) (net : upstream float) (q : quote float) (b : float) :
  fetch_metal_price unicode_lower metal net = Ret (Report q) ->
  as_float (current_price_inr q) = Ret b ->
  in_normal_range b = true ->
  scaled_within_tolerance (price_per_10g_inr q) b
  /\ scaled_within_tolerance (with_gst (gram_prices q))
       (with_gst (ounce_prices q))
  /\ scaled_within_tolerance (with_import_duty (gram_prices q))
       (with_import_duty (ounce_prices q))
  /\ scaled_within_tolerance (total (gram_prices q))
       (total (ounce_prices q))
  /\ scaled_within_tolerance (gst_amount (gram_prices q))
       (gst_amount (ounce_prices q))
  /\ scaled_within_tolerance (duty_amount (gram_prices q))
       (duty_amount (ounce_prices q)).
Proof.
  intros Hq Hb Hr. apply in_normal_range_normal in Hr.
  apply per_10g_derivation in Hq.
  destruct Hq as (config & s & b' & Hc & _ & _ & _ & Hb' & _ & Hp
                  & (O1 & O2 & O3 & O4 & O5) & (G1 & G2 & G3 & G4 & G5)).
  assert (b' = b) as -> by congruence.
  destruct (tax_factors_normal _ Hc) as (T1 & T2 & T3 & T4 & T5).
  rewrite Hp, O1, O2, O3, O4, O5, G1, G2, G3, G4, G5.
  split; [exact (scaled_base Hr)|].
  split; [apply scaled_chain; assumption|].
  split; [apply scaled_chain; assumption|].
  split; [apply scaled_chain; assumption|].
  split; apply scaled_chain; assumption.
Qed.

(** In exact arithmetic, scaling a base price commutes with a tax factor. *)
Lemma exact_scaling (b g ten k : Qc) :
  g <> Q2Qc 0 -> (b / g * ten * k = b * k * (ten / g))%Qc.
Proof. intros Hg. field. exact Hg. Qed.

Lemma exact_nonzero (x : Qc) : nonzero x = true -> x <> Q2Qc 0.
Proof.
  simpl. unfold Qc_eq_bool.
  destruct (Qc_eq_dec x (Q2Qc 0)); [discriminate | trivial].
Qed.

Lemma exact_scaled_from_ounce (unicode_lower : str -> str) (metal : str)
    (net : upstream Qc) (q : quote Qc) :
  fetch_metal_price unicode_lower metal net = Ret (Report q) ->
  scaled_from_ounce q.
Proof.
  intros Hq. apply per_10g_derivation in Hq.
  destruct Hq as (config & s & b & _ & Hg & _ & _ & _ & _ & _
                  & (O1 & O2 & O3 & O4 & O5) & (G1 & G2 & G3 & G4 & G5)).
  apply exact_nonzero in Hg.
  unfold scaled_from_ounce.
  rewrite O1, O2, O3, O4, O5, G1, G2, G3, G4, G5.
  repeat split; apply exact_scaling; exact Hg.
Qed.

(** The gold figures in exact arithmetic. *)
Lemma exact_gold_report :
  exists q,
    fetch_metal_price ascii_only_lower (u "gold")
      (live (u "xauPrice") (JFloat (Q2Qc 2000)) (JFloat (Q2Qc 83)))
    = Ret (Report q)
    /\ (total (ounce_prices q) == 180940)%Q
    /\ (price_per_10g_inr q == 1660000 / 31.1035)%Q.
Proof.
  eexists. split; [vm_compute; reflexivity|].
  split; vm_compute; reflexivity.
Qed.

(** In binary64 the price with GST per 10 grams of the gold report is not
    the price with GST per ounce times [10 / GRAMS_PER_OUNCE]: the two
    floats differ in their last digits. *)
Lemma gold_per_10g_not_scaled_bitwise :
  fetch_metal_price ascii_only_lower (u "gold") gold_net
  = Ret (Report gold_quote)
  /\ with_gst (gram_prices gold_quote) = 54971.305480090661%float
  /\ fmul (with_gst (ounce_prices gold_quote)) (fdiv f10 GRAMS_PER_OUNCE)
     = 54971.305480090668%float
  /\ PrimFloat.ltb
       (abs (54971.305480090668 - 54971.305480090661)) 1e-10 = true
  /\ ~ scaled_from_ounce gold_quote.
Proof.
  split; [vm_compute; reflexivity|].
  split; [vm_compute; reflexivity|].
  split; [vm_compute; reflexivity|].
  split; [vm_compute; reflexivity|].
  intros [Hc _].
  apply (f_equal (fun x => PrimFloat.eqb x 54971.305480090661%float)) in Hc.
  vm_compute in Hc. discriminate Hc.
Qed.

(** In binary64 the figures per 10 grams are not the figures per ounce
    scaled once a figure per ounce overflows: at a spot price of 2e306
    dollars and 83 rupees to the dollar the base price in rupees is the
    float 1.66e308, the market price per ounce is [inf], and the market
    price per 10 grams is the finite 5.8173517449804687e+307, while [inf]
    times [10 / 31.1035] is [inf].  No tolerance covers that. *)
Lemma per_10g_not_scaled_at_overflow :
  exists q,
    fetch_metal_price ascii_only_lower (u "gold") huge_gold_net
    = Ret (Report q)
    /\ current_price_inr q = JFloat 1.66e308%float
    /\ total (ounce_prices q) = infinity
    /\ fmul (total (ounce_prices q)) (fdiv f10 GRAMS_PER_OUNCE) = infinity
    /\ total (gram_prices q) = 5.8173517449804687e+307%float
    /\ ~ scaled_from_ounce q
    /\ ~ scaled_within_tolerance (total (gram_prices q))
           (total (ounce_prices q)).
Proof.
  eexists. split; [vm_compute; reflexivity|].
  split; [vm_compute; reflexivity|].
  split; [vm_compute; reflexivity|].
  split; [vm_compute; reflexivity|].
  split; [vm_compute; reflexivity|].
  split.
  - intros (_ & _ & Ht & _).
    apply (f_equal is_infinity) in Ht. vm_compute in Ht. discriminate Ht.
  - intros (_ & Hf & _). vm_compute in Hf. discriminate Hf.
Qed.

(** C3, amended. For every spot price and exchange rate behind a report,
    the price per 10 grams in dollars is [s / GRAMS_PER_OUNCE * 10], the
    base price per 10 grams in rupees is [(s * r) / GRAMS_PER_OUNCE * 10],
    and the tax formulas are applied once, to that scaled base, with the
    rates used per ounce.  In exact arithmetic each figure per 10 grams is
    therefore the figure per ounce times [10 / GRAMS_PER_OUNCE].  In
    binary64, the arithmetic of the code, the same holds within the
    relative tolerance 1e-9, for the base price and for each of the five
    tax figures, whenever the base price in rupees has a magnitude
    between 1e-250 and 1e280; it need not hold to the last bit, and beyond
    that range it can fail altogether. *)
Theorem per_10g_from_scaled_base :
  (forall (F : Type) (PF : PyFloat F) (unicode_lower : str -> str)
          (metal : str) (net : upstream F) (q : quote F),
      fetch_metal_price unicode_lower metal net = Ret (Report q) ->
      exists config s b,
        assoc (normalized unicode_lower metal) METAL_CONFIG = Some config
        /\ nonzero GRAMS_PER_OUNCE = true
        /\ py_mul (current_price_usd q) (exchange_rate q)
           = Ret (current_price_inr q)
        /\ as_float (current_price_usd q) = Ret s
        /\ as_float (current_price_inr q) = Ret b
        /\ price_per_10g_usd q = fmul (fdiv s GRAMS_PER_OUNCE) f10
        /\ price_per_10g_inr q = fmul (fdiv b GRAMS_PER_OUNCE) f10
        /\ tax_formulas (ounce_prices q) b GST_RATE (import_duty config)
        /\ tax_formulas (gram_prices q) (fmul (fdiv b GRAMS_PER_OUNCE) f10)
             GST_RATE (import_duty config))
  /\ (forall (unicode_lower : str -> str) (metal : str) (net : upstream Qc)
             (q : quote Qc),
         fetch_metal_price unicode_lower metal net = Ret (Report q) ->
         scaled_from_ounce q)
  /\ (forall (unicode_lower : str -> str) (metal : str)
             (net : upstream float) (q : quote float) (b : float),
         fetch_metal_price unicode_lower metal net = Ret (Report q) ->
         as_float (current_price_inr q) = Ret b ->
         in_normal_range b = true ->
         scaled_within_tolerance (price_per_10g_inr q) b
         /\ scaled_within_tolerance (with_gst (gram_prices q))
              (with_gst (ounce_prices q))
         /\ scaled_within_tolerance (with_import_duty (gram_prices q))
              (with_import_duty (ounce_prices q))
         /\ scaled_within_tolerance (total (gram_prices q))
              (total (ounce_prices q))
         /\ scaled_within_tolerance (gst_amount (gram_prices q))
              (gst_amount (ounce_prices q))
         /\ scaled_within_tolerance (duty_amount (gram_prices q))
              (duty_amount (ounce_prices q))).
Proof.
  split; [|split].
  - intros F PF unicode_lower metal net q. apply per_10g_derivation.
  - exact exact_scaled_from_ounce.
  - exact report_scaled_within_tolerance.
Qed.

(** ** Claims about the guards on the fetched values *)

Section Guards.
Context {F : Type} `{PyFloat F}.
Variable unicode_lower : str -> str.

(** The well-formed responses: the first item of ["items"] is the metal
    data, and the ["INR"] entry of ["rates"] is the rate. *)
Lemma live_fetches (key : str) (price rate : json F) :
  fetch_metal_data (goldprice_org (live key price rate))
  = Ret (JDict [(key, price)])
  /\ get_usd_to_inr_rate (exchangerate_api (live key price rate)) = Ret rate.
Proof. split; reflexivity. Qed.

(** The guard of line 104 stops metal data that is missing or falsy. *)
Lemma falsy_data_unable_to_fetch (metal : str) (net : upstream F)
    (config : metal_config F) (metal_data rate : json F) :
  assoc (normalized unicode_lower metal) METAL_CONFIG = Some config ->
  fetch_metal_data (goldprice_org net) = Ret metal_data ->
  truthy metal_data = false ->
  get_usd_to_inr_rate (exchangerate_api net) = Ret rate ->
  fetch_metal_price unicode_lower metal net
  = Ret (Message (unable_to_fetch_message (normalized unicode_lower metal))).
Proof.
  intros Hc Hd Td Hr.
  unfold fetch_metal_price. fold (normalized unicode_lower metal).
  unfold fetch_metal_price_body.
  rewrite Hc, Hd, Hr. cbn [bind]. rewrite Td. reflexivity.
Qed.

(** The guard of line 108 stops a spot price that is missing or falsy. *)
Lemma falsy_spot_not_found (metal : str) (net : upstream F)
    (config : metal_config F) (metal_data rate usd : json F) :
  assoc (normalized unicode_lower metal) METAL_CONFIG = Some config ->
  fetch_metal_data (goldprice_org net) = Ret metal_data ->
  truthy metal_data = true ->
  get_usd_to_inr_rate (exchangerate_api net) = Ret rate ->
  py_get metal_data (price_key config) JNull = Ret usd ->
  truthy usd = false ->
  fetch_metal_price unicode_lower metal net
  = Ret (Message (price_not_found_message (normalized unicode_lower metal))).
Proof.
  intros Hc Hd Td Hr Hu Tu.
  unfold fetch_metal_price. fold (normalized unicode_lower metal).
  unfold fetch_metal_price_body.
  rewrite Hc, Hd, Hr. cbn [bind]. rewrite Td. cbn [negb].
  rewrite Hu. cbn [bind]. rewrite Tu. reflexivity.
Qed.

(** No guard stops a spot price that is a non-zero float, whatever its
    sign and whatever the exchange rate. *)
Lemma nonzero_spot_priced (metal : str) (net : upstream F)
    (config : metal_config F) (metal_data : json F) (s r : F) :
  assoc (normalized unicode_lower metal) METAL_CONFIG = Some config ->
  fetch_metal_data (goldprice_org net) = Ret metal_data ->
  truthy metal_data = true ->
  get_usd_to_inr_rate (exchangerate_api net) = Ret (JFloat r) ->
  py_get metal_data (price_key config) JNull = Ret (JFloat s) ->
  nonzero s = true ->
  nonzero GRAMS_PER_OUNCE = true ->
  exists q,
    fetch_metal_price unicode_lower metal net = Ret (Report q)
    /\ current_price_usd q = JFloat s
    /\ exchange_rate q = JFloat r
    /\ current_price_inr q = JFloat (fmul s r)
    /\ tax_formulas (ounce_prices q) (fmul s r) GST_RATE (import_duty config).
Proof.
  intros Hc Hd Td Hr Hu Hs Hg.
  unfold fetch_metal_price. fold (normalized unicode_lower metal).
  unfold fetch_metal_price_body.
  rewrite Hc, Hd, Hr. cbn [bind]. rewrite Td. cbn [negb].
  rewrite Hu. cbn [bind truthy]. rewrite Hs. cbn [negb].
  unfold py_div_float.
  cbn [py_mul as_num as_float to_float bind]. rewrite Hg. cbn [bind].
  rewrite !(calculate_prices_returns _ _ _ (as_float_JFloat _)).
  cbn [bind].
  eexists. split; [reflexivity|]. cbn. repeat split.
Qed.

(** No guard stops a spot price that is true, and no check is made on the
    exchange rate: when the multiplication of line 112 returns and both
    the spot price and the product convert to [float], the operation
    returns a report on them. *)
Lemma truthy_spot_priced (metal : str) (net : upstream F)
    (config : metal_config F) (metal_data usd rate inr : json F) (s b : F) :
  assoc (normalized unicode_lower metal) METAL_CONFIG = Some config ->
  fetch_metal_data (goldprice_org net) = Ret metal_data ->
  truthy metal_data = true ->
  get_usd_to_inr_rate (exchangerate_api net) = Ret rate ->
  py_get metal_data (price_key config) JNull = Ret usd ->
  truthy usd = true ->
  nonzero GRAMS_PER_OUNCE = true ->
  py_mul usd rate = Ret inr ->
  as_float usd = Ret s ->
  as_float inr = Ret b ->
  exists q,
    fetch_metal_price unicode_lower metal net = Ret (Report q)
    /\ current_price_usd q = usd
    /\ exchange_rate q = rate
    /\ current_price_inr q = inr
    /\ price_per_10g_usd q = fmul (fdiv s GRAMS_PER_OUNCE) f10
    /\ price_per_10g_inr q = fmul (fdiv b GRAMS_PER_OUNCE) f10
    /\ tax_formulas (ounce_prices q) b GST_RATE (import_duty config).
Proof.
  intros Hc Hd Td Hr Hu Tu Hg Hm Hs Hb.
  unfold fetch_metal_price. fold (normalized unicode_lower metal).
  unfold fetch_metal_price_body.
  rewrite Hc, Hd, Hr. cbn [bind]. rewrite Td. cbn [negb].
  rewrite Hu. cbn [bind]. rewrite Tu. cbn [negb].
  rewrite Hm. cbn [bind]. unfold py_div_float.
  rewrite Hs, Hb. cbn [bind]. rewrite Hg. cbn [bind].
  rewrite (calculate_prices_returns _ _ _ Hb).
  rewrite (calculate_prices_returns _ _ _ (as_float_JFloat _)).
  cbn [bind].
  eexists. split; [reflexivity|]. cbn. repeat split.
Qed.

(** Past the two guards the reply is a report or the text of line 143;
    none of the three messages is left. *)
Lemma truthy_spot_outcome (metal : str) (net : upstream F)
    (config : metal_config F) (metal_data usd rate : json F) :
  assoc (normalized unicode_lower metal) METAL_CONFIG = Some config ->
  fetch_metal_data (goldprice_org net) = Ret metal_data ->
  truthy metal_data = true ->
  get_usd_to_inr_rate (exchangerate_api net) = Ret rate ->
  py_get metal_data (price_key config) JNull = Ret usd ->
  truthy usd = true ->
  (exists q, fetch_metal_price unicode_lower metal net = Ret (Report q))
  \/ (exists e,
         fetch_metal_price unicode_lower metal net
         = Ret (ErrorFetching (normalized unicode_lower metal) e)).
Proof.
  intros Hc Hd Td Hr Hu Tu.
  unfold fetch_metal_price. fold (normalized unicode_lower metal).
  unfold fetch_metal_price_body.
  rewrite Hc, Hd, Hr. cbn [bind]. rewrite Td. cbn [negb].
  rewrite Hu. cbn [bind]. rewrite Tu. cbn [negb].
  destruct (py_mul usd rate) as [inr|e]; cbn [bind];
    [|right; exists e; reflexivity].
  destruct (py_div_float usd GRAMS_PER_OUNCE) as [x|e]; cbn [bind];
    [|right; exists e; reflexivity].
  destruct (py_div_float inr GRAMS_PER_OUNCE) as [y|e]; cbn [bind];
    [|right; exists e; reflexivity].
  destruct (calculate_prices inr GST_RATE (import_duty config)) as [o|e];
    cbn [bind]; [|right; exists e; reflexivity].
  destruct (calculate_prices _ GST_RATE (import_duty config)) as [g|e];
    cbn [bind]; [|right; exists e; reflexivity].
  left. eexists. reflexivity.
Qed.

(** What a report says of the fetched values: it carries the spot price
    and the rate as they came, and its base price is their product. *)
Lemma report_of_fetched (metal : str) (net : upstream F)
    (config : metal_config F) (metal_data usd rate : json F) (q : quote F) :
  assoc (normalized unicode_lower metal) METAL_CONFIG = Some config ->
  fetch_metal_data (goldprice_org net) = Ret metal_data ->
  get_usd_to_inr_rate (exchangerate_api net) = Ret rate ->
  py_get metal_data (price_key config) JNull = Ret usd ->
  fetch_metal_price unicode_lower metal net = Ret (Report q) ->
  current_price_usd q = usd
  /\ exchange_rate q = rate
  /\ py_mul usd rate = Ret (current_price_inr q)
  /\ exists s b,
       as_float usd = Ret s
       /\ as_float (current_price_inr q) = Ret b
       /\ tax_formulas (ounce_prices q) b GST_RATE (import_duty config).
Proof.
  intros Hc Hd Hr Hu Hq.
  destruct (report_tax_formulas unicode_lower metal net Hq)
    as (config0 & b & Hc0 & Hb & Ho & _).
  apply fetch_metal_price_report, report_inv in Hq.
  destruct Hq as (config' & data & x & y & Hc' & Hd' & _ & Hr' & Hu' & _
                  & Hm & Hx & _).
  assert (config0 = config) as -> by congruence.
  assert (config' = config) as -> by congruence.
  assert (data = metal_data) as -> by congruence.
  assert (Eu : current_price_usd q = usd) by congruence.
  assert (Er : exchange_rate q = rate) by congruence.
  rewrite Eu, Er in Hm. rewrite Eu in Hx.
  split; [exact Eu|]. split; [exact Er|]. split; [exact Hm|].
  unfold py_div_float in Hx.
  destruct (as_float usd) as [s|e]; [|discriminate Hx].
  exists s, b. repeat split; first [assumption | apply Ho].
Qed.

End Guards.

Lemma binary64_GRAMS_PER_OUNCE_nonzero :
  nonzero (GRAMS_PER_OUNCE (F := float)) = true.
Proof. reflexivity. Qed.

(** In binary64: a negative spot price is priced, with negative figures; a
    zero exchange rate is priced, with figures that are all zero; and a
    response without rates is priced at the fallback rate. *)
Lemma nonpositive_inputs_are_priced :
  (exists q,
      fetch_metal_price ascii_only_lower (u "gold")
        (live (u "xauPrice") (JFloat (-2000)%float) (JFloat 83%float))
      = Ret (Report q)
      /\ current_price_inr q = JFloat (-166000)%float
      /\ total (ounce_prices q) = (-180940)%float)
  /\ (exists q,
         fetch_metal_price ascii_only_lower (u "gold")
           (live (u "xauPrice") (JFloat 2000%float) (JFloat 0%float))
         = Ret (Report q)
         /\ current_price_inr q = JFloat 0%float
         /\ total (ounce_prices q) = 0%float)
  /\ (exists q,
         fetch_metal_price ascii_only_lower (u "gold")
           {| goldprice_org := Ret (items_body (u "xauPrice") (JFloat 2000%float));
              exchangerate_api := Ret (JDict []) |}
         = Ret (Report q)
         /\ exchange_rate q = JFloat 83%float
         /\ current_price_inr q = JFloat 166000%float).
Proof.
  repeat split; eexists; (split; [vm_compute; reflexivity|]);
    split; vm_compute; reflexivity.
Qed.

(** C2, amended. The guard on the spot price is its truth value, and the
    exchange rate is not checked at all.  When both fetches return and the
    metal data passes the first guard, a spot price that is missing,
    [None], zero or otherwise falsy gets the message that the price was
    not found, and no figures.  Every other spot price goes on into the
    arithmetic with the rate as the lookup returned it, whatever their
    signs: in binary64 the reply is then either a report or the generic
    error text of line 143, and it is a report exactly when the product
    [spot * rate] is computed and both the spot price and the product
    convert to [float]; the report carries the spot price and the rate as
    they came, and its figures per ounce are the tax breakdown of the
    product.  So a non-zero float spot price [s] with a float rate [r] is
    always priced, on the base [s * r], and a non-zero int spot price [n]
    with an int rate [k] is priced on the base [n * k] whenever [n] and
    [n * k] are within the range of [float]. *)
Theorem spot_guard_is_truthiness :
  (forall (F : Type) (PF : PyFloat F) (unicode_lower : str -> str)
          (metal : str) (net : upstream F) (config : metal_config F)
          (metal_data rate usd : json F),
      assoc (normalized unicode_lower metal) METAL_CONFIG = Some config ->
      fetch_metal_data (goldprice_org net) = Ret metal_data ->
      truthy metal_data = true ->
      get_usd_to_inr_rate (exchangerate_api net) = Ret rate ->
      py_get metal_data (price_key config) JNull = Ret usd ->
      truthy usd = false ->
      fetch_metal_price unicode_lower metal net
      = Ret (Message
               (price_not_found_message (normalized unicode_lower metal))))
  /\ (forall (unicode_lower : str -> str) (metal : str)
             (net : upstream float) (config : metal_config float)
             (metal_data rate usd : json float),
         assoc (normalized unicode_lower metal) METAL_CONFIG = Some config ->
         fetch_metal_data (goldprice_org net) = Ret metal_data ->
         truthy metal_data = true ->
         get_usd_to_inr_rate (exchangerate_api net) = Ret rate ->
         py_get metal_data (price_key config) JNull = Ret usd ->
         truthy usd = true ->
         ((exists q,
              fetch_metal_price unicode_lower metal net = Ret (Report q))
          \/ (exists e,
                 fetch_metal_price unicode_lower metal net
                 = Ret (ErrorFetching (normalized unicode_lower metal) e)))
         /\ ((exists q,
                 fetch_metal_price unicode_lower metal net = Ret (Report q))
             <-> (exists inr s b,
                     py_mul usd rate = Ret inr
                     /\ as_float usd = Ret s
                     /\ as_float inr = Ret b))
         /\ (forall q,
                fetch_metal_price unicode_lower metal net = Ret (Report q) ->
                current_price_usd q = usd
                /\ exchange_rate q = rate
                /\ py_mul usd rate = Ret (current_price_inr q)
                /\ exists s b,
                     as_float usd = Ret s
                     /\ as_float (current_price_inr q) = Ret b
                     /\ tax_formulas (ounce_prices q) b GST_RATE
                          (import_duty config)))
  /\ (forall (unicode_lower : str -> str) (metal : str)
             (net : upstream float) (config : metal_config float)
             (metal_data : json float) (s r : float),
         assoc (normalized unicode_lower metal) METAL_CONFIG = Some config ->
         fetch_metal_data (goldprice_org net) = Ret metal_data ->
         truthy metal_data = true ->
         get_usd_to_inr_rate (exchangerate_api net) = Ret (JFloat r) ->
         py_get metal_data (price_key config) JNull = Ret (JFloat s) ->
         nonzero s = true ->
         exists q,
           fetch_metal_price unicode_lower metal net = Ret (Report q)
           /\ current_price_usd q = JFloat s
           /\ exchange_rate q = JFloat r
           /\ current_price_inr q = JFloat (s * r)%float
           /\ tax_formulas (ounce_prices q) (s * r)%float GST_RATE
                (import_duty config))
  /\ (forall (unicode_lower : str -> str) (metal : str)
             (net : upstream float) (config : metal_config float)
             (metal_data : json float) (n k : Z) (s b : float),
         assoc (normalized unicode_lower metal) METAL_CONFIG = Some config ->
         fetch_metal_data (goldprice_org net) = Ret metal_data ->
         truthy metal_data = true ->
         get_usd_to_inr_rate (exchangerate_api net) = Ret (JInt k) ->
         py_get metal_data (price_key config) JNull = Ret (JInt n) ->
         n <> 0%Z ->
         of_int n = Some s ->
         of_int (n * k) = Some b ->
         exists q,
           fetch_metal_price unicode_lower metal net = Ret (Report q)
           /\ current_price_usd q = JInt n
           /\ exchange_rate q = JInt k
           /\ current_price_inr q = JInt (n * k)
           /\ tax_formulas (ounce_prices q) b GST_RATE (import_duty config)).
Proof.
  split.
  { intros F PF unicode_lower metal net config metal_data rate usd.
    apply falsy_spot_not_found. }
  split.
  { intros unicode_lower metal net config metal_data rate usd
           Hc Hd Td Hr Hu Tu.
    split; [exact (truthy_spot_outcome unicode_lower metal net Hc Hd Td Hr
                     Hu Tu)|].
    split; [split|].
    - intros (q & Hq).
      destruct (report_of_fetched unicode_lower metal net Hc Hd Hr Hu Hq)
        as (_ & _ & Hm & s & b & Hs & Hb & _).
      exists (current_price_inr q), s, b. repeat split; assumption.
    - intros (inr & s & b & Hm & Hs & Hb).
      destruct (truthy_spot_priced unicode_lower metal net Hc Hd Td Hr Hu Tu
                  binary64_GRAMS_PER_OUNCE_nonzero Hm Hs Hb) as (q & Hq & _).
      exists q. exact Hq.
    - intros q Hq.
      exact (report_of_fetched unicode_lower metal net Hc Hd Hr Hu Hq). }
  split.
  { intros unicode_lower metal net config metal_data s r Hc Hd Td Hr Hu Hs.
    apply (@nonzero_spot_priced float binary64 unicode_lower metal net config
             metal_data s r);
      first [assumption | exact binary64_GRAMS_PER_OUNCE_nonzero]. }
  intros unicode_lower metal net config metal_data n k s b
         Hc Hd Td Hr Hu Hn Hs Hb.
  assert (Tu : truthy (F := float) (JInt n) = true).
  { cbn [truthy]. destruct (Z.eqb_spec n 0); [contradiction | reflexivity]. }
  assert (Hfs : as_float (F := float) (JInt n) = Ret s).
  { unfold as_float. cbn [as_num to_float]. rewrite Hs. reflexivity. }
  assert (Hfb : as_float (F := float) (JInt (n * k)) = Ret b).
  { unfold as_float. cbn [as_num to_float]. rewrite Hb. reflexivity. }
  destruct (truthy_spot_priced unicode_lower metal net Hc Hd Td Hr Hu Tu
              binary64_GRAMS_PER_OUNCE_nonzero (inr := JInt (n * k))
              eq_refl Hfs Hfb)
    as (q & Hq & Eu & Er & Ei & _ & _ & Ho).
  exists q. repeat split; first [assumption | apply Ho].
Qed.

Lemma spot_guard_is_truthiness_witness :
  fetch_metal_price ascii_only_lower (u "Gold")
    (live (u "xauPrice") (JInt 0) (JFloat 83%float))
  = Ret (Message (price_not_found_message (u "gold")))
  /\ ((exists q,
          fetch_metal_price ascii_only_lower (u "gold")
            (live (u "xauPrice") (JFloat (-2000)%float) (JInt 0))
          = Ret (Report q))
      <-> (exists inr s b,
              py_mul (JFloat (-2000)%float) (JInt 0) = Ret inr
              /\ as_float (JFloat (-2000)%float) = Ret s
              /\ as_float inr = Ret b))
  /\ (exists q,
         fetch_metal_price ascii_only_lower (u "gold")
           {| goldprice_org :=
                Ret (items_body (u "xauPrice") (JFloat (-2000)%float));
              exchangerate_api := Raise RequestException |}
         = Ret (Report q)
         /\ current_price_usd q = JFloat (-2000)%float
         /\ exchange_rate q = JFloat 83%float
         /\ current_price_inr q = JFloat (-2000 * 83)%float
         /\ tax_formulas (ounce_prices q) (-2000 * 83)%float GST_RATE
              0.06%float)
  /\ (exists q,
         fetch_metal_price ascii_only_lower (u "gold")
           (live (u "xauPrice") (JInt (-2000)) (JInt 83))
         = Ret (Report q)
         /\ current_price_usd q = JInt (-2000)
         /\ exchange_rate q = JInt 83
         /\ current_price_inr q = JInt (-2000 * 83)
         /\ tax_formulas (ounce_prices q) (-166000)%float GST_RATE
              0.06%float).
Proof.
  pose proof spot_guard_is_truthiness as (Hfalsy & Htruthy & Hfloat & Hint).
  split.
  { apply (Hfalsy float binary64 ascii_only_lower
             (u "Gold") (live (u "xauPrice") (JInt 0) (JFloat 83%float))
             {| symbol := [129351%N]; price_key := u "xauPrice";
                import_duty := 0.06%float |}
             (JDict [(u "xauPrice", JInt 0)]) (JFloat 83%float) (JInt 0));
      reflexivity. }
  split.
  { apply (Htruthy ascii_only_lower (u "gold")
             (live (u "xauPrice") (JFloat (-2000)%float) (JInt 0))
             {| symbol := [129351%N]; price_key := u "xauPrice";
                import_duty := 0.06%float |}
             (JDict [(u "xauPrice", JFloat (-2000)%float)]) (JInt 0)
             (JFloat (-2000)%float));
      reflexivity. }
  split.
  { apply (Hfloat ascii_only_lower (u "gold")
             {| goldprice_org :=
                  Ret (items_body (u "xauPrice") (JFloat (-2000)%float));
                exchangerate_api := Raise RequestException |}
             {| symbol := [129351%N]; price_key := u "xauPrice";
                import_duty := 0.06%float |}
             (JDict [(u "xauPrice", JFloat (-2000)%float)])
             (-2000)%float 83%float);
      reflexivity. }
  apply (Hint ascii_only_lower (u "gold")
           (live (u "xauPrice") (JInt (-2000)) (JInt 83))
           {| symbol := [129351%N]; price_key := u "xauPrice";
              import_duty := 0.06%float |}
           (JDict [(u "xauPrice", JInt (-2000))])
           (-2000)%Z 83%Z (-2000)%float (-166000)%float);
    first [reflexivity | discriminate].
Defined.

(** ** Claims about the metal selector *)

Section Selector.
Context {F : Type} `{PyFloat F}.
Variable unicode_lower : str -> str.

Lemma assoc_METAL_CONFIG_None (metal : str) :
  metal <> u "gold" -> metal <> u "silver" ->
  assoc metal (METAL_CONFIG (F := F)) = None.
Proof.
  intros Hg Hs. unfold METAL_CONFIG. cbn [assoc].
  destruct (str_eqb metal (u "gold")) eqn:Eg;
    [apply str_eqb_eq in Eg; contradiction|].
  destruct (str_eqb metal (u "silver")) eqn:Es;
    [apply str_eqb_eq in Es; contradiction|].
  reflexivity.
Qed.

(** C4. A selector whose normal form is neither ["gold"] nor ["silver"]
    gets the invalid-metal message, whatever the services would answer:
    no figures are produced.  The message ends with the list of the valid
    labels, ["gold", "silver"], each in double quotes. *)
Theorem unknown_metal_rejected (metal : str) (net : upstream F) :
  normalized unicode_lower metal <> u "gold" ->
  normalized unicode_lower metal <> u "silver" ->
  fetch_metal_price unicode_lower metal net
  = Ret (Message (invalid_metal_message (F := F)
                    (normalized unicode_lower metal)))
  /\ exists text,
       invalid_metal_message (F := F) (normalized unicode_lower metal)
       = (text ++ u "Please choose from: "
            ++ [34%N] ++ u "gold" ++ [34%N] ++ u ", "
            ++ [34%N] ++ u "silver" ++ [34%N])%list.
Proof.
  intros Hg Hs. split.
  - unfold fetch_metal_price. fold (normalized unicode_lower metal).
    unfold fetch_metal_price_body.
    rewrite (assoc_METAL_CONFIG_None Hg Hs). reflexivity.
  - exists ([10060%N] ++ u " Invalid metal type: '"
              ++ normalized unicode_lower metal ++ u "'" ++ [10%N])%list.
    unfold invalid_metal_message. rewrite <- !app_assoc. reflexivity.
Qed.

(** The selectors of the examples, in normal form. *)
Lemma normalized_examples :
  normalized unicode_lower (u "GOLD") = u "gold"
  /\ normalized unicode_lower (u " Silver ") = u "silver"
  /\ normalized unicode_lower (u "platinum") = u "platinum".
Proof. repeat split. Qed.

(** The three messages, and when each is returned. *)
Lemma message_inv (metal : str) (net : upstream F) (text : str) :
  fetch_metal_price unicode_lower metal net = Ret (Message text) ->
  let m := normalized unicode_lower metal in
  (assoc m METAL_CONFIG = None /\ text = invalid_metal_message m)
  \/ ((m = u "gold" \/ m = u "silver")
      /\ (text = unable_to_fetch_message m
          \/ text = price_not_found_message m)).
Proof.
  intros Hr m. unfold fetch_metal_price in Hr.
  fold (normalized unicode_lower metal) in Hr. fold m in Hr.
  unfold fetch_metal_price_body in Hr.
  destruct (assoc m METAL_CONFIG) as [config|] eqn:Hc.
  - right. split.
    { apply assoc_METAL_CONFIG_Some in Hc as [[-> _]|[-> _]]; auto. }
    destruct (fetch_metal_data (goldprice_org net)) as [data|];
      cbn [bind] in Hr; [|discriminate Hr].
    destruct (get_usd_to_inr_rate (exchangerate_api net)) as [rate|];
      cbn [bind] in Hr; [|discriminate Hr].
    destruct (truthy data); cbn [negb] in Hr;
      [|injection Hr as <-; left; reflexivity].
    destruct (py_get data (price_key config) JNull) as [usd|];
      cbn [bind] in Hr; [|discriminate Hr].
    destruct (truthy usd); cbn [negb] in Hr;
      [|injection Hr as <-; right; reflexivity].
    destruct (py_mul usd rate) as [inr|]; cbn [bind] in Hr; [|discriminate Hr].
    destruct (py_div_float usd GRAMS_PER_OUNCE); cbn [bind] in Hr;
      [|discriminate Hr].
    destruct (py_div_float inr GRAMS_PER_OUNCE); cbn [bind] in Hr;
      [|discriminate Hr].
    destruct (calculate_prices inr GST_RATE (import_duty config));
      cbn [bind] in Hr; [|discriminate Hr].
    destruct (calculate_prices _ GST_RATE (import_duty config));
      cbn [bind] in Hr; discriminate Hr.
  - left. injection Hr as <-. split; reflexivity.
Qed.

(** The invalid-metal message is none of the other messages of a known
    metal: the texts part at their third character. *)
Lemma invalid_metal_message_distinct (metal other : str) :
  metal = u "gold" \/ metal = u "silver" ->
  invalid_metal_message (F := F) other <> unable_to_fetch_message metal
  /\ invalid_metal_message (F := F) other <> price_not_found_message metal.
Proof.
  intros [-> | ->]; split; intros E; cbv in E; discriminate E.
Qed.

(** A selector whose normal form is a key of [METAL_CONFIG] is never
    answered with the invalid-metal message. *)
Lemma known_metal_not_rejected (metal other : str) (net : upstream F)
    (config : metal_config F) :
  assoc (normalized unicode_lower metal) METAL_CONFIG = Some config ->
  fetch_metal_price unicode_lower metal net
  <> Ret (Message (invalid_metal_message (F := F) other)).
Proof.
  intros Hc Hr. apply message_inv in Hr. cbv zeta in Hr.
  destruct Hr as [[Hn _]|[Hm Ht]]; [congruence|].
  destruct (invalid_metal_message_distinct other Hm) as [Hu Hp].
  destruct Ht as [Ht|Ht]; [exact (Hu Ht) | exact (Hp Ht)].
Qed.

(** On well-formed responses with a non-zero float under the price key
    of the entry, such a selector is priced with that entry. *)
Lemma known_metal_priced (metal : str) (config : metal_config F) (s r : F) :
  assoc (normalized unicode_lower metal) METAL_CONFIG = Some config ->
  nonzero s = true ->
  nonzero GRAMS_PER_OUNCE = true ->
  exists q,
    fetch_metal_price unicode_lower metal
      (live (price_key config) (JFloat s) (JFloat r))
    = Ret (Report q)
    /\ metal_symbol q = symbol config
    /\ metal_title q = str_title (normalized unicode_lower metal)
    /\ current_price_usd q = JFloat s
    /\ current_price_inr q = JFloat (fmul s r)
    /\ tax_formulas (ounce_prices q) (fmul s r) GST_RATE (import_duty config).
Proof.
  intros Hc Hs Hg.
  unfold fetch_metal_price. fold (normalized unicode_lower metal).
  unfold fetch_metal_price_body. rewrite Hc.
  destruct (live_fetches (price_key config) (JFloat s) (JFloat r))
    as [-> ->].
  cbn [bind truthy negb py_get assoc].
  replace (str_eqb (price_key config) (price_key config)) with true
    by (symmetry; apply str_eqb_eq; reflexivity).
  cbn [bind truthy]. rewrite Hs. cbn [negb].
  unfold py_div_float.
  cbn [py_mul as_num as_float to_float bind]. rewrite Hg. cbn [bind].
  rewrite !(calculate_prices_returns _ _ _ (as_float_JFloat _)).
  cbn [bind].
  eexists. split; [reflexivity|]. cbn. repeat split.
Qed.

Hypothesis unicode_lower_stable :
  forall s t, isascii s = false -> slice_of t (unicode_lower s) ->
              str_lower unicode_lower t = t.

(** C10. The selector is normalised before it is validated.  The
    operation answers a selector as it answers the selector lowercased and
    stripped of surrounding white space.  A selector whose normal form is
    a key of [METAL_CONFIG] is accepted as that metal: whatever the
    services answer, the reply is never the invalid-metal message, and on
    well-formed responses with a non-zero float price under the price key
    of the entry it is a report with the symbol, the title and the import
    duty of that entry.  ["GOLD"] and [" Silver "] have the normal forms
    ["gold"] and ["silver"], whose entries have the price keys
    ["xauPrice"] and ["xagPrice"]. *)
Theorem selector_is_normalized :
  (forall (metal : str) (net : upstream F),
      fetch_metal_price unicode_lower metal net
      = fetch_metal_price unicode_lower
          (str_strip (str_lower unicode_lower metal)) net)
  /\ (forall (metal : str) (config : metal_config F),
         assoc (normalized unicode_lower metal) METAL_CONFIG = Some config ->
         (forall (net : upstream F) (other : str),
             fetch_metal_price unicode_lower metal net
             <> Ret (Message (invalid_metal_message (F := F) other)))
         /\ (forall s r : F,
                nonzero s = true ->
                nonzero GRAMS_PER_OUNCE = true ->
                exists q,
                  fetch_metal_price unicode_lower metal
                    (live (price_key config) (JFloat s) (JFloat r))
                  = Ret (Report q)
                  /\ metal_symbol q = symbol config
                  /\ metal_title q
                     = str_title (normalized unicode_lower metal)
                  /\ current_price_usd q = JFloat s
                  /\ current_price_inr q = JFloat (fmul s r)
                  /\ tax_formulas (ounce_prices q) (fmul s r) GST_RATE
                       (import_duty config)))
  /\ (normalized unicode_lower (u "GOLD") = u "gold"
      /\ assoc (normalized unicode_lower (u "GOLD")) METAL_CONFIG
         = Some {| symbol := [129351%N]; price_key := u "xauPrice";
                   import_duty := decimal 6 2 |}
      /\ str_title (normalized unicode_lower (u "GOLD")) = u "Gold")
  /\ (normalized unicode_lower (u " Silver ") = u "silver"
      /\ assoc (normalized unicode_lower (u " Silver ")) METAL_CONFIG
         = Some {| symbol := [129352%N]; price_key := u "xagPrice";
                   import_duty := decimal 75 3 |}
      /\ str_title (normalized unicode_lower (u " Silver ")) = u "Silver")
  /\ (forall net : upstream F,
         fetch_metal_price unicode_lower (u "GOLD") net
         = fetch_metal_price unicode_lower (u "gold") net)
  /\ (forall net : upstream F,
         fetch_metal_price unicode_lower (u " Silver ") net
         = fetch_metal_price unicode_lower (u "silver") net).
Proof.
  split.
  { intros metal net. unfold fetch_metal_price.
    fold (normalized unicode_lower metal).
    fold (normalized unicode_lower (normalized unicode_lower metal)).
    rewrite (normalized_idempotent unicode_lower unicode_lower_stable).
    reflexivity. }
  split.
  { intros metal config Hc. split.
    - intros net other. exact (@known_metal_not_rejected metal other net config Hc).
    - intros s r. exact (@known_metal_priced metal config s r Hc). }
  repeat split.
Qed.

End Selector.

Lemma unknown_metal_rejected_witness :
  fetch_metal_price ascii_only_lower (u "Platinum ") gold_net
  = Ret (Message (invalid_metal_message (F := float) (u "platinum")))
  /\ exists text,
       invalid_metal_message (F := float) (u "platinum")
       = (text ++ u "Please choose from: "
            ++ [34%N] ++ u "gold" ++ [34%N] ++ u ", "
            ++ [34%N] ++ u "silver" ++ [34%N])%list.
Proof.
  apply (unknown_metal_rejected (F := float) ascii_only_lower
           (u "Platinum ") gold_net); discriminate.
Defined.

Lemma selector_is_normalized_witness :
  fetch_metal_price ascii_only_lower (u "  GoLd") gold_net
  = fetch_metal_price ascii_only_lower (u "gold") gold_net
  /\ fetch_metal_price (F := float) ascii_only_lower (u "GOLD")
       {| goldprice_org := Raise RequestException;
          exchangerate_api := Raise RequestException |}
     <> Ret (Message (invalid_metal_message (F := float) (u "gold")))
  /\ exists q,
       fetch_metal_price ascii_only_lower (u " Silver ")
         (live (u "xagPrice") (JFloat 25%float) (JFloat 83%float))
       = Ret (Report q)
       /\ metal_symbol q = [129352%N]
       /\ metal_title q = u "Silver"
       /\ current_price_usd q = JFloat 25%float
       /\ current_price_inr q = JFloat (25 * 83)%float
       /\ tax_formulas (ounce_prices q) (25 * 83)%float GST_RATE
            0.075%float.
Proof.
  pose proof (selector_is_normalized (F := float) ascii_only_lower
                ascii_only_lower_stable) as (Hnorm & Hknown & _).
  split; [exact (Hnorm (u "  GoLd") gold_net)|].
  split.
  - apply (proj1 (Hknown (u "GOLD")
                    {| symbol := [129351%N]; price_key := u "xauPrice";
                       import_duty := 0.06%float |} eq_refl)).
  - apply (proj2 (Hknown (u " Silver ")
                    {| symbol := [129352%N]; price_key := u "xagPrice";
                       import_duty := 0.075%float |} eq_refl)
             25%float 83%float); reflexivity.
Defined.

(** ** Claims about the operation as a whole *)

Section Operation.
Context {F : Type} `{PyFloat F}.
Variable unicode_lower : str -> str.

(** C8. For every selector and for every answer or exception of the two
    services, the operation returns a string and raises nothing.  When the
    price service or the rate lookup raises, the string is an error
    message, not a report. *)
Theorem fetch_metal_price_always_returns :
  (forall (metal : str) (net : upstream F),
      exists r, fetch_metal_price unicode_lower metal net = Ret r)
  /\ (forall (metal : str) (net : upstream F) (e : exn) (r : reply F),
         fetch_metal_data (goldprice_org net) = Raise e
         \/ get_usd_to_inr_rate (exchangerate_api net) = Raise e ->
         fetch_metal_price unicode_lower metal net = Ret r ->
         is_report r = false).
Proof.
  split.
  - intros metal net. unfold fetch_metal_price.
    destruct (fetch_metal_price_body _ net) as [r|e]; eexists; reflexivity.
  - intros metal net e r He Hr.
    destruct r as [text|q|m e']; try reflexivity.
    apply fetch_metal_price_report, report_inv in Hr.
    destruct Hr as (config & data & x & y & _ & Hd & _ & Hx & _).
    destruct He as [He|He]; congruence.
Qed.

(** The cases in which the rate lookup falls back: the request raises an
    exception that the handler lists, or the body is an object without
    ["rates"], or ["rates"] is an object without ["INR"].  The result is
    the bare number 83.0, as a live rate of 83.0 would be returned. *)
Lemma get_usd_to_inr_rate_fallback :
  (forall e : exn,
      In e [RequestException; KeyError; TypeError] ->
      get_usd_to_inr_rate (Raise e)
      = Ret (JFloat (FALLBACK_EXCHANGE_RATE (F := F))))
  /\ (forall items : list (str * json F),
         assoc (u "rates") items = None ->
         get_usd_to_inr_rate (Ret (JDict items))
         = Ret (JFloat FALLBACK_EXCHANGE_RATE))
  /\ (forall items rates : list (str * json F),
         assoc (u "rates") items = Some (JDict rates) ->
         assoc (u "INR") rates = None ->
         get_usd_to_inr_rate (Ret (JDict items))
         = Ret (JFloat FALLBACK_EXCHANGE_RATE))
  /\ get_usd_to_inr_rate (Ret (rates_body (JFloat FALLBACK_EXCHANGE_RATE)))
     = get_usd_to_inr_rate (Raise RequestException).
Proof.
  repeat split.
  - intros e [<-|[<-|[<-|[]]]]; reflexivity.
  - intros items Hi. unfold get_usd_to_inr_rate. cbn [bind py_get].
    rewrite Hi. reflexivity.
  - intros items rates Hi Hr. unfold get_usd_to_inr_rate. cbn [bind py_get].
    rewrite Hi. cbn [bind py_get]. rewrite Hr. reflexivity.
Qed.

(** C9. A body that is valid JSON of another shape is not covered by the
    handler of the rate lookup: a body that is a list, or whose ["rates"]
    is [null], makes [.get] raise [AttributeError], which propagates, and
    a ["rates"] object whose ["INR"] is [null] makes the lookup return
    [None]; none of them yields the fallback 83.0.  The operation then
    answers with its generic error message instead of a report at the
    fallback rate. *)
Theorem get_usd_to_inr_rate_malformed_body :
  get_usd_to_inr_rate (F := F) (Ret (JList [])) = Raise AttributeError
  /\ get_usd_to_inr_rate (F := F) (Ret (JDict [(u "rates", JNull)]))
     = Raise AttributeError
  /\ get_usd_to_inr_rate (F := F) (Ret (rates_body JNull)) = Ret JNull
  /\ fetch_metal_price (F := F) unicode_lower (u "gold")
       {| goldprice_org := Ret (items_body (u "xauPrice") (JInt 2000));
          exchangerate_api := Ret (JList []) |}
     = Ret (ErrorFetching (u "gold") AttributeError)
  /\ fetch_metal_price (F := F) unicode_lower (u "gold")
       {| goldprice_org := Ret (items_body (u "xauPrice") (JInt 2000));
          exchangerate_api := Ret (rates_body JNull) |}
     = Ret (ErrorFetching (u "gold") TypeError).
Proof. repeat split. Qed.

End Operation.

Lemma fetch_metal_price_always_returns_witness :
  (exists r, fetch_metal_price (F := float) ascii_only_lower (u "gold")
               {| goldprice_org := Ret (JInt 7);
                  exchangerate_api := Raise OtherException |}
             = Ret r)
  /\ is_report (ErrorFetching (F := float) (u "gold") AttributeError) = false.
Proof.
  split.
  - apply (proj1 (fetch_metal_price_always_returns (F := float)
                    ascii_only_lower)).
  - apply (proj2 (fetch_metal_price_always_returns (F := float)
                    ascii_only_lower)
             (u "gold")
             {| goldprice_org := Ret (JInt 7);
                exchangerate_api := Raise OtherException |}
             AttributeError).
    + left. reflexivity.
    + reflexivity.
Defined.

Lemma per_10g_from_scaled_base_witness :
  (exists config s b,
      assoc (normalized ascii_only_lower (u "gold")) METAL_CONFIG
      = Some config
      /\ nonzero (GRAMS_PER_OUNCE (F := float)) = true
      /\ py_mul (current_price_usd gold_quote) (exchange_rate gold_quote)
         = Ret (current_price_inr gold_quote)
      /\ as_float (current_price_usd gold_quote) = Ret s
      /\ as_float (current_price_inr gold_quote) = Ret b
      /\ price_per_10g_usd gold_quote = fmul (fdiv s GRAMS_PER_OUNCE) f10
      /\ price_per_10g_inr gold_quote = fmul (fdiv b GRAMS_PER_OUNCE) f10
      /\ tax_formulas (ounce_prices gold_quote) b GST_RATE
           (import_duty config)
      /\ tax_formulas (gram_prices gold_quote)
           (fmul (fdiv b GRAMS_PER_OUNCE) f10) GST_RATE (import_duty config))
  /\ (exists q,
         fetch_metal_price ascii_only_lower (u "gold")
           (live (u "xauPrice") (JFloat (Q2Qc 2000)) (JFloat (Q2Qc 83)))
         = Ret (Report q)
         /\ scaled_from_ounce q)
  /\ (scaled_within_tolerance 53370.199495233654%float 166000%float
      /\ scaled_within_tolerance 54971.305480090661%float 170980%float
      /\ scaled_within_tolerance 56572.411464947676%float 175960%float
      /\ scaled_within_tolerance 58173.517449804684%float 180940%float
      /\ scaled_within_tolerance 1601.1059848570096%float 4980%float
      /\ scaled_within_tolerance 3202.2119697140192%float 9960%float).
Proof.
  split; [|split].
  - apply (proj1 per_10g_from_scaled_base float binary64 ascii_only_lower
             (u "gold") gold_net gold_quote).
    vm_compute. reflexivity.
  - eexists. split.
    + vm_compute. reflexivity.
    + apply (proj1 (proj2 per_10g_from_scaled_base) ascii_only_lower
               (u "gold")
               (live (u "xauPrice") (JFloat (Q2Qc 2000)) (JFloat (Q2Qc 83)))).
      vm_compute. reflexivity.
  - apply (proj2 (proj2 per_10g_from_scaled_base) ascii_only_lower
             (u "gold") gold_net gold_quote 166000%float);
      vm_compute; reflexivity.
Defined.

(** ** Further properties of the replies *)

Section Replies.
Context {F : Type} `{PyFloat F}.
Variable unicode_lower : str -> str.

(** X1. For a known metal and an exchange-rate lookup that returns, the
    reply is the message [Unable to fetch <metal> price data from API]
    whenever the request to the metal service raises one of the four
    exceptions that [fetch_metal_data] catches, or its JSON object has no
    ["items"], or ["items"] is an empty list. *)
Theorem unable_to_fetch_causes (metal : str) (net : upstream F)
    (config : metal_config F) (rate : json F) :
  assoc (normalized unicode_lower metal) METAL_CONFIG = Some config ->
  get_usd_to_inr_rate (exchangerate_api net) = Ret rate ->
  (exists e, goldprice_org net = Raise e
             /\ In e [RequestException; KeyError; IndexError; TypeError])
  \/ (exists items, goldprice_org net = Ret (JDict items)
                    /\ (assoc (u "items") items = None
                        \/ assoc (u "items") items = Some (JList []))) ->
  fetch_metal_price unicode_lower metal net
  = Ret (Message (unable_to_fetch_message (normalized unicode_lower metal))).
Proof.
  intros Hc Hr Hcause.
  assert (Hd : fetch_metal_data (goldprice_org net) = Ret JNull).
  2:{ exact (falsy_data_unable_to_fetch unicode_lower metal net Hc Hd
               eq_refl Hr). }
  destruct Hcause as [(e & -> & He)|(items & -> & Hi)].
  - cbn [In] in He.
    destruct He as [<-|[<-|[<-|[<-|[]]]]]; reflexivity.
  - unfold fetch_metal_data. cbn [bind py_get].
    destruct Hi as [-> | ->]; reflexivity.
Qed.

(** X2. When the metal service answers with JSON that is not an object (a
    list, a string, a number, [null]), [.get] raises [AttributeError],
    which [fetch_metal_data] does not catch: for a known metal the reply
    is the generic error text, not the unable-to-fetch message, and the
    exchange-rate service is not consulted. *)
Theorem metal_body_not_object (metal : str) (net : upstream F)
    (config : metal_config F) (body : json F) :
  assoc (normalized unicode_lower metal) METAL_CONFIG = Some config ->
  goldprice_org net = Ret body ->
  is_dict body = false ->
  fetch_metal_price unicode_lower metal net
  = Ret (ErrorFetching (normalized unicode_lower metal) AttributeError).
Proof.
  intros Hc Hb Hd. unfold fetch_metal_price.
  fold (normalized unicode_lower metal).
  unfold fetch_metal_price_body. rewrite Hc, Hb.
  destruct body; try discriminate Hd; reflexivity.
Qed.

(** X3. A spot price that is a nonzero [int] too large for a [float]
    passes the truth test and then fails in the arithmetic: the reply is
    the generic error text for [OverflowError], whatever number the
    exchange rate is. *)
Theorem huge_int_spot_overflows (metal : str) (net : upstream F)
    (config : metal_config F) (metal_data rate : json F) (a : num F) (n : Z) :
  assoc (normalized unicode_lower metal) METAL_CONFIG = Some config ->
  fetch_metal_data (goldprice_org net) = Ret metal_data ->
  truthy metal_data = true ->
  get_usd_to_inr_rate (exchangerate_api net) = Ret rate ->
  as_num rate = Some a ->
  py_get metal_data (price_key config) JNull = Ret (JInt n) ->
  n <> 0%Z ->
  of_int n = None ->
  fetch_metal_price unicode_lower metal net
  = Ret (ErrorFetching (normalized unicode_lower metal) OverflowError).
Proof.
  intros Hc Hd Td Hr Ha Hu Hn Ho.
  unfold fetch_metal_price. fold (normalized unicode_lower metal).
  unfold fetch_metal_price_body.
  rewrite Hc, Hd, Hr. cbn [bind]. rewrite Td. cbn [negb].
  rewrite Hu. cbn [bind truthy].
  destruct (Z.eqb_spec n 0) as [E|_]; [contradiction|]. cbn [negb].
  unfold py_mul, py_div_float, as_float. cbn [as_num]. rewrite Ha.
  destruct a as [m|x]; cbn [to_float bind]; rewrite Ho; reflexivity.
Qed.

(** X4. A spot price that is true but not a number (a non-empty string,
    list or object) with a [float] exchange rate fails in the first
    multiplication: the reply is the generic error text for [TypeError],
    not the price-not-found message. *)
Theorem non_numeric_spot_type_error (metal : str) (net : upstream F)
    (config : metal_config F) (metal_data usd : json F) (r : F) :
  assoc (normalized unicode_lower metal) METAL_CONFIG = Some config ->
  fetch_metal_data (goldprice_org net) = Ret metal_data ->
  truthy metal_data = true ->
  get_usd_to_inr_rate (exchangerate_api net) = Ret (JFloat r) ->
  py_get metal_data (price_key config) JNull = Ret usd ->
  truthy usd = true ->
  as_num usd = None ->
  fetch_metal_price unicode_lower metal net
  = Ret (ErrorFetching (normalized unicode_lower metal) TypeError).
Proof.
  intros Hc Hd Td Hr Hu Tu Hn.
  unfold fetch_metal_price. fold (normalized unicode_lower metal).
  unfold fetch_metal_price_body.
  rewrite Hc, Hd, Hr. cbn [bind]. rewrite Td. cbn [negb].
  rewrite Hu. cbn [bind]. rewrite Tu. cbn [negb].
  unfold py_mul. rewrite Hn. reflexivity.
Qed.

(** A report carries the symbol and the title of gold or of silver. *)
Lemma report_metal (metal : str) (net : upstream F) (q : quote F) :
  fetch_metal_price unicode_lower metal net = Ret (Report q) ->
  (normalized unicode_lower metal = u "gold"
   /\ metal_symbol q = [129351%N] /\ metal_title q = u "Gold"
   /\ duty_percent q = fmul (decimal 6 2) f100
   /\ total_tax_rate q = fmul (fadd GST_RATE (decimal 6 2)) f100)
  \/ (normalized unicode_lower metal = u "silver"
      /\ metal_symbol q = [129352%N] /\ metal_title q = u "Silver"
      /\ duty_percent q = fmul (decimal 75 3) f100
      /\ total_tax_rate q = fmul (fadd GST_RATE (decimal 75 3)) f100).
Proof.
  intros Hq. apply fetch_metal_price_report in Hq.
  unfold fetch_metal_price_body in Hq.
  destruct (assoc (normalized unicode_lower metal) METAL_CONFIG)
    as [config|] eqn:Hc; [|discriminate Hq].
  returned Hq data. returned Hq rate.
  destruct (truthy data); cbn [negb] in Hq; [|discriminate Hq].
  returned Hq usd.
  destruct (truthy usd); cbn [negb] in Hq; [|discriminate Hq].
  returned Hq rupees. returned Hq x. returned Hq y.
  returned Hq ounce. returned Hq gram.
  injection Hq as <-. cbn.
  apply assoc_METAL_CONFIG_Some in Hc as [[-> ->]|[-> ->]];
    [left | right]; repeat split.
Qed.

(** The values that a report prints are numbers. *)
Lemma report_numbers (metal : str) (net : upstream F) (q : quote F) :
  fetch_metal_price unicode_lower metal net = Ret (Report q) ->
  exists s b,
    as_float (current_price_usd q) = Ret s
    /\ as_float (current_price_inr q) = Ret b.
Proof.
  intros Hq. apply per_10g_derivation in Hq.
  destruct Hq as (config & s & b & _ & _ & _ & Hs & Hb & _).
  exists s, b. split; assumption.
Qed.

End Replies.

(** X6. In binary64 the percentages that a report prints are exact: a
    report is titled [Gold] with the medal U+1F947, a duty of 6.0 and a
    total tax of 9.0 per cent, or [Silver] with U+1F948, 7.5 and 10.5 per
    cent; the products [0.06 * 100], [(0.03 + 0.06) * 100] and so on carry
    no rounding error into the text. *)
Theorem report_names_the_metal (unicode_lower : str -> str) (metal : str)
    (net : upstream float) (q : quote float) :
  fetch_metal_price unicode_lower metal net = Ret (Report q) ->
  (normalized unicode_lower metal = u "gold"
   /\ metal_title q = u "Gold" /\ metal_symbol q = [129351%N]
   /\ duty_percent q = 6%float /\ total_tax_rate q = 9%float)
  \/ (normalized unicode_lower metal = u "silver"
      /\ metal_title q = u "Silver" /\ metal_symbol q = [129352%N]
      /\ duty_percent q = 7.5%float /\ total_tax_rate q = 10.5%float).
Proof.
  intros Hq. apply report_metal in Hq.
  destruct Hq as [(Hm & Hs & Ht & Hd & Hr)|(Hm & Hs & Ht & Hd & Hr)];
    [left | right]; rewrite Hm, Hs, Ht, Hd, Hr;
    repeat split; vm_compute; reflexivity.
Qed.

(** ** Numerals *)

Lemma forallb_rev {A : Type} (p : A -> bool) (l : list A) :
  forallb p (rev l) = forallb p l.
Proof.
  induction l as [|a l IH]; [reflexivity|].
  simpl. rewrite forallb_app, IH. simpl. rewrite andb_true_r. apply andb_comm.
Qed.

Lemma forallb_imp {A : Type} (p q : A -> bool) (l : list A) :
  (forall a, p a = true -> q a = true) ->
  forallb p l = true -> forallb q l = true.
Proof.
  intros Hpq. rewrite !forallb_forall. intros Hp a Ha. auto.
Qed.

Lemma filter_keeps (p : N -> bool) (s : str) :
  forallb p s = true -> filter p s = s.
Proof.
  induction s as [|c s IH]; [reflexivity|]. cbn [forallb filter].
  intros Hs. apply andb_true_iff in Hs as [-> Hs]. rewrite (IH Hs). reflexivity.
Qed.

Lemma existsb_filter (p : N -> bool) (s : str) :
  existsb p s = match filter p s with [] => false | _ => true end.
Proof.
  induction s as [|c s IH]; [reflexivity|]. cbn [existsb filter].
  destruct (p c); [reflexivity | exact IH].
Qed.

Lemma not_in_text (c : N) (s : str) : existsb (N.eqb c) s = false -> ~ In c s.
Proof.
  intros He Hin. assert (Ht : existsb (N.eqb c) s = true).
  { apply existsb_exists. exists c. split; [exact Hin | apply N.eqb_refl]. }
  congruence.
Qed.

Lemma uint_str_digits (d : Decimal.uint) : forallb is_digit (uint_str d) = true.
Proof. induction d; simpl; auto. Qed.

Lemma digits_are_digits (n : N) : forallb is_digit (digits n) = true.
Proof. apply uint_str_digits. Qed.

Lemma number_acc (d : Decimal.uint) (acc : positive) :
  fold_left (fun a c => (10 * a + (c - 48))%N) (uint_str d) (Npos acc)
  = Npos (Pos.of_uint_acc d acc).
Proof.
  revert acc.
  induction d; intros acc; cbn [uint_str fold_left Pos.of_uint_acc];
    [reflexivity| ..]; rewrite <- IHd; f_equal; lia.
Qed.

Lemma number_uint_str (d : Decimal.uint) : number (uint_str d) = N.of_uint d.
Proof.
  unfold number, N.of_uint.
  induction d; simpl; [reflexivity | exact IHd | ..];
    match goal with
    | |- fold_left _ _ ?a = Npos (Pos.of_uint_acc _ ?p) =>
        change a with (Npos p); apply number_acc
    end.
Qed.

(** Reading the digits of [n] gives [n] back. *)
Lemma number_digits (n : N) : number (digits n) = n.
Proof. unfold digits. rewrite number_uint_str. apply DecimalN.Unsigned.of_to. Qed.

Lemma digits_nonempty (n : N) : digits n <> [].
Proof.
  unfold digits. destruct n as [|p]; [discriminate|].
  simpl. pose proof (DecimalPos.Unsigned.to_uint_nonnil p) as Hp.
  destruct (Pos.to_uint p); [contradiction | discriminate ..].
Qed.

Lemma fold_number_app (b : str) (acc : N) :
  fold_left (fun a c => (10 * a + (c - 48))%N) b acc
  = (acc * 10 ^ N.of_nat (List.length b) + number b)%N.
Proof.
  unfold number. revert acc. induction b as [|c b IH]; intros acc.
  - simpl. lia.
  - cbn [fold_left List.length]. rewrite IH, (IH (10 * 0 + (c - 48))%N).
    rewrite Nat2N.inj_succ, N.pow_succ_r'. lia.
Qed.

Lemma number_app (a b : str) :
  number (a ++ b) = (number a * 10 ^ N.of_nat (List.length b) + number b)%N.
Proof. unfold number at 1. rewrite fold_left_app. apply fold_number_app. Qed.

Lemma zfill_digits (p : nat) (s : str) :
  forallb is_digit s = true -> forallb is_digit (zfill p s) = true.
Proof.
  intros Hs. unfold zfill. rewrite forallb_app, Hs, andb_true_r.
  induction (p - List.length s)%nat; [reflexivity | exact IHn].
Qed.

Lemma number_zfill (p : nat) (s : str) : number (zfill p s) = number s.
Proof.
  unfold zfill, number. rewrite fold_left_app. f_equal.
  induction (p - List.length s)%nat as [|k IH]; [reflexivity | exact IH].
Qed.

Lemma digits_short (n : N) : (n < 100)%N -> (List.length (digits n) <= 2)%nat.
Proof.
  intros Hn.
  assert (Hall : forallb (fun k => (List.length (digits (N.of_nat k)) <=? 2)%nat)
                   (seq 0 100) = true) by (vm_compute; reflexivity).
  rewrite forallb_forall in Hall.
  specialize (Hall (N.to_nat n)). rewrite N2Nat.id in Hall.
  apply Nat.leb_le, Hall, in_seq. lia.
Qed.

Lemma zfill_length (p : nat) (s : str) :
  (List.length s <= p)%nat -> List.length (zfill p s) = p.
Proof.
  intros Hs. unfold zfill. rewrite length_app, repeat_length. lia.
Qed.

Lemma split_point_digits (a b : str) :
  forallb is_digit a = true -> split_point (a ++ 46%N :: b) = (a, Some b).
Proof.
  intros Ha. induction a as [|c a IH]; [reflexivity|].
  cbn [forallb] in Ha. apply andb_true_iff in Ha as [Hc Ha].
  cbn [app split_point]. rewrite (IH Ha).
  destruct (N.eqb_spec c 46) as [->|]; [discriminate Hc | reflexivity].
Qed.

Lemma split_point_no_point (a : str) :
  forallb is_digit a = true -> split_point a = (a, None).
Proof.
  induction a as [|c a IH]; [reflexivity|]. cbn [forallb split_point].
  intros Ha. apply andb_true_iff in Ha as [Hc Ha]. rewrite (IH Ha).
  destruct (N.eqb_spec c 46) as [->|]; [discriminate Hc | reflexivity].
Qed.

Lemma filter_commas (g1 : str) :
  forallb is_digit_or_comma g1 = true ->
  filter (fun c => negb (c =? 44)%N) g1 = filter is_digit g1
  /\ forallb is_digit (filter is_digit g1) = true.
Proof.
  induction g1 as [|c g IH]; [split; reflexivity|].
  cbn [forallb filter]. intros Hg. apply andb_true_iff in Hg as [Hc Hg].
  destruct (IH Hg) as [E1 E2]. unfold is_digit_or_comma in Hc.
  destruct (is_digit c) eqn:Hd.
  - destruct (N.eqb_spec c 44) as [->|]; [discriminate Hd|].
    cbn [negb forallb]. rewrite Hd, E1, E2. split; reflexivity.
  - cbn [orb] in Hc. rewrite Hc. cbn [negb]. split; assumption.
Qed.

(** ** The matcher *)

Lemma takewhile_dropwhile (p : N -> bool) (s : str) :
  takewhile p s ++ dropwhile p s = s.
Proof.
  induction s as [|c t IH]; simpl; [reflexivity|].
  destruct (p c); simpl; [rewrite IH|]; reflexivity.
Qed.

Lemma takewhile_all (p : N -> bool) (s : str) : forallb p (takewhile p s) = true.
Proof.
  induction s as [|c s IH]; [reflexivity|]. cbn [takewhile].
  destruct (p c) eqn:Hc; [|reflexivity]. cbn [forallb]. rewrite Hc, IH. reflexivity.
Qed.

Lemma takewhile_stop (p : N -> bool) (a : str) (c : N) (r : str) :
  forallb p a = true -> p c = false ->
  takewhile p (a ++ c :: r) = a /\ dropwhile p (a ++ c :: r) = c :: r.
Proof.
  intros Ha Hc. induction a as [|x a IH]; cbn [app takewhile dropwhile].
  - rewrite Hc. split; reflexivity.
  - cbn [forallb] in Ha. apply andb_true_iff in Ha as [Hx Ha].
    rewrite Hx. destruct (IH Ha) as [-> ->]. split; reflexivity.
Qed.

(** A repetition whose continuation rejects every rest that starts with
    one more character of the class stops after the longest run. *)
Lemma star_match_commit {A : Type} (p : N -> bool) (s : str)
    (k : str -> str -> option A) :
  (forall m c t, p c = true -> k m (c :: t) = None) ->
  star_match p s k = k (takewhile p s) (dropwhile p s).
Proof.
  revert k. induction s as [|c t IH]; intros k Hk; simpl; [reflexivity|].
  destruct (p c) eqn:Hc; [|reflexivity].
  rewrite IH by (intros m c' t' Hc'; apply Hk; exact Hc').
  rewrite (Hk [] c t Hc).
  destruct (k (c :: takewhile p t) (dropwhile p t)); reflexivity.
Qed.

(** A repetition whose continuation accepts the longest run keeps it. *)
Lemma star_match_first {A : Type} (p : N -> bool) (s : str)
    (k : str -> str -> option A) (a : A) :
  k (takewhile p s) (dropwhile p s) = Some a ->
  star_match p s k = Some a.
Proof.
  revert k. induction s as [|c t IH]; intros k Hk; simpl in *; [exact Hk|].
  destruct (p c); [|exact Hk].
  rewrite (IH (fun m rest => k (c :: m) rest) Hk). reflexivity.
Qed.

Lemma isspace_not_dollar (c : N) : isspace c = true -> (c =? 36)%N = false.
Proof.
  intros Hc. destruct (N.eqb_spec c 36) as [->|]; [discriminate Hc | reflexivity].
Qed.

Lemma group_match (s : str) :
  re_match usd_group s (fun g _ => Some g) = scan_group s.
Proof.
  unfold usd_group, scan_group. cbn [re_match].
  destruct s as [|x t]; [reflexivity|]. cbn [takewhile dropwhile].
  destruct (is_digit_or_comma x) eqn:Hx; [|reflexivity].
  apply star_match_first.
  destruct (dropwhile is_digit_or_comma t) as [|y s3] eqn:Hd.
  - cbn. rewrite ?app_nil_r. reflexivity.
  - destruct (y =? 46)%N eqn:Hy.
    + erewrite star_match_first; [reflexivity|].
      cbn. reflexivity.
    + assert (Hnd : is_digit y = false).
      { destruct (is_digit y) eqn:E; [|reflexivity].
        assert (Hy' : is_digit_or_comma y = true)
          by (unfold is_digit_or_comma; rewrite E; reflexivity).
        clear - Hd Hy'. exfalso.
        induction t as [|c t IH]; [discriminate Hd|].
        simpl in Hd. destruct (is_digit_or_comma c) eqn:Ec.
        - apply IH. exact Hd.
        - injection Hd as -> _. congruence. }
      cbn [star_match]. rewrite Hnd. cbn. rewrite ?app_nil_r. reflexivity.
Qed.

(** The backtracking matcher captures what the scan from left to right
    captures. *)
Lemma match_usd_scan (s : str) : match_usd s = scan_usd s.
Proof.
  unfold match_usd, scan_usd, usd_prefix.
  destruct s as [|c1 s]; [reflexivity|].
  cbn [re_match u map list_ascii_of_string strip_prefix].
  change (N_of_ascii "U") with 85%N. destruct (c1 =? 85)%N; [|reflexivity].
  destruct s as [|c2 s]; [reflexivity|]. cbn [strip_prefix].
  change (N_of_ascii "S") with 83%N. destruct (c2 =? 83)%N; [|reflexivity].
  destruct s as [|c3 s]; [reflexivity|]. cbn [strip_prefix].
  change (N_of_ascii "D") with 68%N. destruct (c3 =? 68)%N; [|reflexivity].
  destruct s as [|c4 s]; [reflexivity|]. cbn [strip_prefix].
  change (N_of_ascii ":") with 58%N. destruct (c4 =? 58)%N; [|reflexivity].
  rewrite star_match_commit.
  - destruct (dropwhile isspace s) as [|c s2]; [reflexivity|].
    destruct (c =? 36)%N; [|reflexivity]. apply group_match.
  - intros m c t Hc. rewrite (isspace_not_dollar c Hc). reflexivity.
Qed.

Lemma re_search_usd_skip (pre s : str) :
  forallb (fun c => negb (c =? 85)%N) pre = true ->
  re_search_usd (pre ++ s) = re_search_usd s.
Proof.
  induction pre as [|c pre IH]; intros Hp; [reflexivity|].
  simpl in Hp. apply andb_true_iff in Hp as [Hc Hp].
  cbn [app re_search_usd]. rewrite match_usd_scan.
  unfold scan_usd. cbn [u map list_ascii_of_string strip_prefix].
  change (N_of_ascii "U") with 85%N.
  apply negb_true_iff in Hc. rewrite Hc. apply IH. exact Hp.
Qed.

Lemma re_search_usd_here (s g : str) :
  match_usd s = Some g -> re_search_usd s = Some g.
Proof. intros Hm. destruct s; cbn [re_search_usd]; rewrite Hm; reflexivity. Qed.

Lemma scan_usd_dollar (s g : str) : scan_usd s = Some g -> In 36%N s.
Proof.
  unfold scan_usd. cbn [u map list_ascii_of_string].
  change (N_of_ascii "U") with 85%N. change (N_of_ascii "S") with 83%N.
  change (N_of_ascii "D") with 68%N. change (N_of_ascii ":") with 58%N.
  destruct s as [|c1 [|c2 [|c3 [|c4 s]]]]; cbn [strip_prefix];
    repeat match goal with
           | |- context [(?c =? ?k)%N] => destruct (c =? k)%N
           end; try discriminate.
  destruct (dropwhile isspace s) as [|c s2] eqn:Hd; [discriminate|].
  destruct (N.eqb_spec c 36) as [->|]; [|discriminate].
  intros _. do 4 right.
  rewrite <- (takewhile_dropwhile isspace s), Hd.
  apply in_or_app. right. left. reflexivity.
Qed.

(** The pattern matches only in a text with a dollar sign. *)
Lemma re_search_usd_dollar (s g : str) : re_search_usd s = Some g -> In 36%N s.
Proof.
  induction s as [|c s IH]; cbn [re_search_usd]; rewrite match_usd_scan.
  - destruct (scan_usd []) eqn:E; [|discriminate].
    intros _. exact (scan_usd_dollar _ E).
  - destruct (scan_usd (c :: s)) eqn:E.
    + intros _. exact (scan_usd_dollar _ E).
    + intros Hs. right. exact (IH Hs).
Qed.

Lemma scan_group_shape (s g : str) : scan_group s = Some g -> group_shape g.
Proof.
  unfold scan_group.
  pose proof (takewhile_all is_digit_or_comma s) as Hg1.
  destruct (takewhile is_digit_or_comma s) as [|x g1] eqn:E1; [discriminate|].
  intros Hg. injection Hg as <-.
  destruct (dropwhile is_digit_or_comma s) as [|y s3].
  - exists (x :: g1), [], []. rewrite !app_nil_r.
    repeat split; auto; discriminate.
  - destruct (N.eqb_spec y 46) as [->|].
    + exists (x :: g1), (takewhile is_digit s3), [46%N].
      repeat split; auto; try discriminate. apply takewhile_all.
    + exists (x :: g1), [], []. rewrite !app_nil_r.
      repeat split; auto; discriminate.
Qed.

Lemma scan_usd_shape (s g : str) : scan_usd s = Some g -> group_shape g.
Proof.
  unfold scan_usd.
  destruct (strip_prefix (u "USD:") s) as [s1|]; [|discriminate].
  destruct (dropwhile isspace s1) as [|c s2]; [discriminate|].
  destruct (c =? 36)%N; [|discriminate].
  apply scan_group_shape.
Qed.

(** Whatever the pattern captures has the shape of its group. *)
Lemma re_search_usd_shape (s g : str) : re_search_usd s = Some g -> group_shape g.
Proof.
  induction s as [|c s IH]; cbn [re_search_usd]; rewrite match_usd_scan.
  - destruct (scan_usd []) eqn:E; [|discriminate].
    intros Hg. injection Hg as <-. exact (scan_usd_shape _ E).
  - destruct (scan_usd (c :: s)) eqn:E.
    + intros Hg. injection Hg as <-. exact (scan_usd_shape _ E).
    + exact IH.
Qed.

(** ** The characters of the report *)

Lemma sep_rev_chars (k : nat) (s : str) :
  forallb is_number_char s = true -> forallb is_number_char (sep_rev k s) = true.
Proof.
  revert k. induction s as [|c t IH]; intros k Hs; [reflexivity|].
  simpl in Hs. apply andb_true_iff in Hs as [Hc Ht].
  destruct k; simpl; rewrite Hc, IH by exact Ht; reflexivity.
Qed.

Lemma digit_number_char (c : N) : is_digit c = true -> is_number_char c = true.
Proof. intros Hc. unfold is_number_char. rewrite Hc. reflexivity. Qed.

Lemma digits_chars (n : N) : forallb is_number_char (digits n) = true.
Proof.
  apply (forallb_imp is_digit); [exact digit_number_char | apply digits_are_digits].
Qed.

Lemma number_char_no_mark (s : str) :
  forallb is_number_char s = true -> has_error_mark s = false.
Proof.
  intros Hs. unfold has_error_mark.
  induction s as [|c t IH]; [reflexivity|].
  cbn [existsb forallb] in *. apply andb_true_iff in Hs as [Hc Ht].
  rewrite (IH Ht), orb_false_r.
  destruct (N.eqb_spec 10060 c) as [<-|]; [discriminate Hc | reflexivity].
Qed.

Lemma has_error_mark_app (a b : str) :
  has_error_mark (a ++ b) = has_error_mark a || has_error_mark b.
Proof. apply existsb_app. Qed.

Lemma number_chars_no_U (s : str) :
  forallb is_number_char s = true ->
  forallb (fun c => negb (c =? 85)%N) s = true.
Proof.
  apply forallb_imp. intros c Hc.
  destruct (N.eqb_spec c 85) as [->|]; [discriminate Hc | reflexivity].
Qed.

Section FormatFacts.
Context {F : Type} `{PyFloat F} `{PyFloatText F}.

Lemma format_float_chars (spec : format_spec) (x : F) :
  forallb is_number_char (format_float spec x) = true.
Proof.
  unfold format_float. destruct (view x) as [|negative|negative n d].
  - reflexivity.
  - destruct negative; reflexivity.
  - rewrite !forallb_app.
    assert (Hw : forall w, forallb is_number_char
                  (if grouped spec then group_thousands (digits w) else digits w)
                = true).
    { intros w. destruct (grouped spec); [|apply digits_chars].
      unfold group_thousands. rewrite forallb_rev. apply sep_rev_chars.
      rewrite forallb_rev. apply digits_chars. }
    rewrite Hw.
    rewrite (forallb_imp is_digit is_number_char _ digit_number_char
               (zfill_digits _ _ (digits_are_digits _))).
    destruct negative; reflexivity.
Qed.

Lemma format_value_num (spec : format_spec) (v : json F) (x : F) :
  as_float v = Ret x -> format_value spec v = Ret (format_float spec x).
Proof.
  intros Hx. destruct v; try discriminate Hx; unfold format_value;
    rewrite Hx; reflexivity.
Qed.

Lemma render_text (s : str) (rest : list (piece F)) (t : str) :
  render rest = Ret t -> render (Text s :: rest) = Ret (s ++ t).
Proof. intros Hr. cbn [render]. rewrite Hr. reflexivity. Qed.

Lemma render_formatted (spec : format_spec) (v : json F) (x : F)
    (rest : list (piece F)) (t : str) :
  as_float v = Ret x -> render rest = Ret t ->
  render (Formatted spec v :: rest) = Ret (format_float spec x ++ t).
Proof.
  intros Hx Hr. cbn [render]. rewrite (format_value_num _ _ Hx), Hr. reflexivity.
Qed.

Lemma format_value_no_mark (spec : format_spec) (v : json F) (s : str) :
  format_value spec v = Ret s -> has_error_mark s = false.
Proof.
  intros Hs. apply number_char_no_mark.
  destruct v; cbn in Hs; try discriminate Hs;
    match type of Hs with
    | context [match ?m with _ => _ end] =>
        destruct m; try discriminate Hs
    | _ => idtac
    end;
    injection Hs as <-; apply format_float_chars.
Qed.

Lemma render_no_mark (parts : list (piece F)) (text : str) :
  forallb clean_piece parts = true ->
  render parts = Ret text -> has_error_mark text = false.
Proof.
  revert text. induction parts as [|p parts IH]; intros text Hc Hr.
  - injection Hr as <-. reflexivity.
  - simpl in Hc. apply andb_true_iff in Hc as [Hp Hc].
    destruct p as [s|spec v]; cbn [render] in Hr.
    + destruct (render parts) as [t|e]; [|discriminate Hr].
      injection Hr as <-. rewrite has_error_mark_app, (IH t Hc eq_refl).
      apply negb_true_iff in Hp. rewrite Hp. reflexivity.
    + destruct (format_value spec v) as [s|e] eqn:Hs; [|discriminate Hr].
      cbn [bind] in Hr.
      destruct (render parts) as [t|e]; [|discriminate Hr].
      injection Hr as <-. rewrite has_error_mark_app, (IH t Hc eq_refl).
      rewrite (format_value_no_mark _ _ Hs). reflexivity.
Qed.

Lemma format_fixed2_finite (x : F) (n : N) (d : positive) :
  view x = VFinite false n d ->
  format_float Fixed2 x
  = let cents := round_half_even (n * 100) d in
    digits (cents / 100) ++ 46%N :: zfill 2 (digits (cents mod 100)).
Proof. intros Hv. unfold format_float. rewrite Hv. reflexivity. Qed.

(** The text of a report up to the first price. *)
Lemma report_text_start (q : quote F) (s b r : F) :
  as_float (current_price_usd q) = Ret s ->
  as_float (current_price_inr q) = Ret b ->
  as_float (exchange_rate q) = Ret r ->
  exists rest,
    render (report_pieces q)
    = Ret ((metal_symbol q ++ u " Current " ++ metal_title q ++ u " Price:"
              ++ [10%N; 10%N; 65533%N] ++ u " Conversion: 1 Ounce = ")
             ++ format_float Fixed4 GRAMS_PER_OUNCE
             ++ (u " grams" ++ [10%N; 10%N; 65533%N; 128200%N]
                   ++ u " Per Ounce:" ++ [10%N] ++ u "  USD: $")
             ++ format_float Fixed2 s ++ [10%N] ++ rest).
Proof.
  intros Hs Hb Hr. eexists. unfold report_pieces. cbn [app].
  repeat first
    [ apply render_text
    | apply (render_text [10%N])
    | eapply render_formatted; [first [eassumption | reflexivity]|]
    | reflexivity ].
Qed.

(** [float] of a numeral with two decimals is the float of its
    hundredths. *)
Lemma py_float_cents (cents : N) :
  ClientUI.py_float
    (digits (cents / 100) ++ 46%N :: zfill 2 (digits (cents mod 100)))
  = Ret (of_decimal cents 2).
Proof.
  unfold ClientUI.py_float.
  rewrite (split_point_digits _ _ (digits_are_digits _)).
  assert (Hm : (cents mod 100 < 100)%N) by (apply N.mod_lt; discriminate).
  assert (Hd : forallb is_digit
                 (digits (cents / 100) ++ zfill 2 (digits (cents mod 100))) = true).
  { rewrite forallb_app, digits_are_digits.
    apply zfill_digits, digits_are_digits. }
  assert (Hn : number (digits (cents / 100) ++ zfill 2 (digits (cents mod 100)))
               = cents).
  { rewrite number_app, number_zfill, !number_digits.
    rewrite (@zfill_length 2 _ (digits_short Hm)).
    change (10 ^ N.of_nat 2)%N with 100%N.
    rewrite (N.div_mod cents 100) at 3 by discriminate. lia. }
  rewrite (@zfill_length 2 _ (digits_short Hm)).
  destruct (digits (cents / 100) ++ zfill 2 (digits (cents mod 100)))
    as [|c ds] eqn:E.
  - apply app_eq_nil in E as [E _]. exfalso. exact (digits_nonempty _ E).
  - rewrite Hd, Hn. reflexivity.
Qed.

(** The pattern, at a price written with two decimals and followed by a
    line break, captures the price. *)
Lemma search_at_price (cents : N) (rest : str) :
  re_search_usd
    (u "USD: $"
       ++ (digits (cents / 100) ++ 46%N :: zfill 2 (digits (cents mod 100)))
       ++ 10%N :: rest)
  = Some (digits (cents / 100) ++ 46%N :: zfill 2 (digits (cents mod 100))).
Proof.
  set (whole := digits (cents / 100)).
  set (frac := zfill 2 (digits (cents mod 100))).
  assert (Hw : forallb is_digit_or_comma whole = true).
  { apply (forallb_imp is_digit); [|apply digits_are_digits].
    intros c Hc. unfold is_digit_or_comma. rewrite Hc. reflexivity. }
  assert (Hf : forallb is_digit frac = true)
    by apply zfill_digits, digits_are_digits.
  apply re_search_usd_here. rewrite match_usd_scan.
  change (scan_usd (u "USD: $" ++ (whole ++ 46%N :: frac) ++ 10%N :: rest))
    with (scan_group ((whole ++ 46%N :: frac) ++ 10%N :: rest)).
  unfold scan_group. rewrite <- app_assoc. cbn [app].
  destruct (takewhile_stop is_digit_or_comma whole 46 (frac ++ 10%N :: rest)
              Hw eq_refl) as [-> ->].
  destruct (takewhile_stop is_digit frac 10 rest Hf eq_refl) as [-> _].
  destruct whole eqn:Ew; [exact (False_ind _ (digits_nonempty _ Ew))|].
  reflexivity.
Qed.

Lemma extract_price_text (cents : N) (pre rest : str) :
  forallb (fun c => negb (c =? 85)%N) pre = true ->
  ClientUI.extract_usd_price
    (pre ++ u "USD: $"
       ++ (digits (cents / 100) ++ 46%N :: zfill 2 (digits (cents mod 100)))
       ++ 10%N :: rest)
  = Ret (Some (of_decimal cents 2)).
Proof.
  intros Hpre. unfold ClientUI.extract_usd_price.
  rewrite (re_search_usd_skip _ _ Hpre), search_at_price.
  rewrite filter_keeps.
  - rewrite py_float_cents. reflexivity.
  - assert (Hd : forall c, is_digit c = true -> negb (c =? 44)%N = true).
    { intros c Hc.
      destruct (N.eqb_spec c 44) as [->|]; [discriminate Hc | reflexivity]. }
    rewrite forallb_app. cbn [forallb].
    rewrite (forallb_imp is_digit _ _ Hd (digits_are_digits _)).
    rewrite (forallb_imp is_digit _ _ Hd
               (zfill_digits 2 _ (digits_are_digits _))).
    reflexivity.
Qed.

(** [float] of the captured text without its commas: it fails exactly when
    no digit is left. *)
Lemma py_float_group (g : str) :
  group_shape g ->
  if existsb is_digit g
  then exists x : F,
         ClientUI.py_float (filter (fun c => negb (c =? 44)%N) g) = Ret x
  else ClientUI.py_float (F := F) (filter (fun c => negb (c =? 44)%N) g)
       = Raise ValueError.
Proof.
  intros (g1 & g3 & dot & -> & _ & Hg1 & Hdot & Hg3 & Hnone).
  destruct (filter_commas g1 Hg1) as [E1 Ha].
  assert (Ef3 : filter (fun c => negb (c =? 44)%N) g3 = g3).
  { apply filter_keeps. apply (forallb_imp is_digit); [|exact Hg3].
    intros c Hc.
    destruct (N.eqb_spec c 44) as [->|]; [discriminate Hc | reflexivity]. }
  rewrite !existsb_app, !filter_app, E1, Ef3.
  rewrite (existsb_filter is_digit g1).
  set (a := filter is_digit g1) in *.
  unfold ClientUI.py_float.
  destruct Hdot as [-> | ->].
  - rewrite (Hnone eq_refl). cbn [filter existsb app].
    rewrite !app_nil_r, orb_false_r.
    rewrite (split_point_no_point a Ha), app_nil_r.
    destruct a as [|c a]; [reflexivity|]. rewrite Ha. eexists. reflexivity.
  - cbn [filter N.eqb Pos.eqb negb existsb app].
    change (is_digit 46) with false. cbn [orb].
    rewrite (split_point_digits a g3 Ha).
    destruct a as [|c a].
    + cbn [app orb]. destruct g3 as [|c g3]; [reflexivity|].
      cbn [existsb]. cbn [forallb] in Hg3.
      apply andb_true_iff in Hg3 as [Hc Hg3'].
      rewrite Hc. cbn [orb forallb]. rewrite Hc, Hg3'. eexists. reflexivity.
    + cbn [app orb].
      assert (Hall : forallb is_digit (c :: a ++ g3) = true)
        by (rewrite app_comm_cons, forallb_app, Ha, Hg3; reflexivity).
      rewrite Hall. eexists. reflexivity.
Qed.

(** A text is rendered only if each of its fields has a number. *)
Lemma render_field (parts : list (piece F)) (text : str)
    (spec : format_spec) (v : json F) :
  render parts = Ret text -> In (Formatted spec v) parts ->
  exists x, as_float v = Ret x.
Proof.
  revert text. induction parts as [|p parts IH]; intros text Hr Hin;
    [destruct Hin|].
  destruct p as [s|spec' v']; cbn [render] in Hr.
  - destruct Hin as [E|Hin]; [discriminate E|].
    destruct (render parts) as [t|]; [|discriminate Hr]. exact (IH t eq_refl Hin).
  - destruct (format_value spec' v') as [s|] eqn:Ef; [|discriminate Hr].
    cbn [bind] in Hr.
    destruct Hin as [E|Hin].
    + injection E as -> ->. unfold format_value in Ef.
      destruct v; try discriminate Ef;
        destruct (as_float _) as [y|]; try discriminate Ef; exists y; reflexivity.
    + destruct (render parts) as [t|]; [|discriminate Hr].
      exact (IH t eq_refl Hin).
Qed.

Lemma rate_field (q : quote F) :
  In (Formatted Fixed2 (exchange_rate q)) (report_pieces q).
Proof.
  unfold report_pieces. cbn [app In].
  repeat (first [left; reflexivity | right]).
Qed.

End FormatFacts.

(** ** The text that the tool returns *)

Section ServerText.
Context {F : Type} `{PyFloat F} `{PyFloatText F}.
Variable exn_text : exn -> str.
Variable unicode_lower : str -> str.

Lemma report_pieces_clean (metal : str) (net : upstream F) (q : quote F) :
  fetch_metal_price unicode_lower metal net = Ret (Report q) ->
  forallb clean_piece (report_pieces q) = true.
Proof.
  intros Hq. apply report_metal in Hq.
  destruct q as [sym title usd inr ounce usd10 inr10 gram rate duty tot].
  cbn [metal_symbol metal_title] in Hq.
  destruct Hq as [(_ & -> & -> & _)|(_ & -> & -> & _)]; reflexivity.
Qed.

Lemma report_text (metal : str) (net : upstream F) (q : quote F) (text : str) :
  fetch_metal_price unicode_lower metal net = Ret (Report q) ->
  render (report_pieces q) = Ret text ->
  fetch_metal_price_text exn_text unicode_lower metal net = text.
Proof.
  intros Hq Ht. unfold fetch_metal_price_text. rewrite Hq.
  cbn [reply_text]. rewrite Ht. reflexivity.
Qed.

(** A text without the cross mark is a formatted report. *)
Lemma no_mark_report (metal : str) (net : upstream F) :
  has_error_mark (fetch_metal_price_text exn_text unicode_lower metal net)
  = false ->
  exists q,
    fetch_metal_price unicode_lower metal net = Ret (Report q)
    /\ render (report_pieces q)
       = Ret (fetch_metal_price_text exn_text unicode_lower metal net).
Proof.
  unfold fetch_metal_price_text.
  destruct (fetch_metal_price unicode_lower metal net) as [r|e] eqn:Hr;
    [|intros Hm; discriminate Hm].
  destruct r as [text|q|m e]; cbn [reply_text].
  - intros Hm. exfalso. apply message_inv in Hr. cbv zeta in Hr.
    destruct Hr as [[_ ->]|[_ [-> | ->]]]; discriminate Hm.
  - destruct (render (report_pieces q)) as [text|e] eqn:Ht;
      [|intros Hm; discriminate Hm].
    intros _. exists q. split; [reflexivity | exact Ht].
  - intros Hm. discriminate Hm.
Qed.

(** X8. The cross mark U+274C, by which the web client tells an error
    text from price data, is exact on the texts of the tool: the returned
    text is free of it if and only if the computation produced a report
    and the text is that report formatted.  The messages for an unknown
    metal, missing data, a missing price and an exception all carry the
    mark; no report does, whatever its numbers. *)
Theorem error_mark_exact (metal : str) (net : upstream F) :
  has_error_mark (fetch_metal_price_text exn_text unicode_lower metal net)
  = false
  <-> exists q,
        fetch_metal_price unicode_lower metal net = Ret (Report q)
        /\ render (report_pieces q)
           = Ret (fetch_metal_price_text exn_text unicode_lower metal net).
Proof.
  split; [apply no_mark_report|].
  intros (q & Hq & Ht).
  exact (render_no_mark _ (report_pieces_clean _ _ Hq) Ht).
Qed.

End ServerText.

(** In binary64 the exchange rate of a report converts to [float]: a rate
    that is an [int] has been multiplied with a [float], or with a
    non-zero [int] into a product that converts. *)
Lemma report_rate_converts (unicode_lower : str -> str) (metal : str)
    (net : upstream float) (q : quote float) :
  fetch_metal_price unicode_lower metal net = Ret (Report q) ->
  exists r, as_float (exchange_rate q) = Ret r.
Proof.
  intros Hq. apply fetch_metal_price_report, report_inv in Hq.
  destruct Hq as (config & data & x & y & _ & _ & _ & _ & _ & Tu & Hm & Hx
                  & _ & Hy & _).
  destruct (exchange_rate q) as [|c|k|r|t|l|d] eqn:Er;
    try (eexists; reflexivity);
    destruct (current_price_usd q) as [|b|n|s|t'|l'|d'];
    try discriminate Hm; try discriminate Hx; try discriminate Tu;
    unfold py_mul in Hm; cbn [as_num to_float bind] in Hm;
    try discriminate Hm;
    try (injection Hm as Hm; rewrite <- Hm in Hy;
                    try discriminate Hy).
  all: unfold as_float; cbn [as_num to_float].
  all: try (destruct c; eexists; reflexivity).
  - (* a true [bool] times an [int] rate *)
    unfold py_div_float, as_float in Hy. cbn [as_num to_float] in Hy.
    destruct (@of_int float binary64 ((if b then 1 else 0) * k)) as [z|] eqn:Ez;
      [|cbn [bind] in Hy; discriminate Hy].
    cbn [truthy] in Tu. subst b.
    apply (@of_int_smaller _ k) in Ez; [|lia].
    destruct Ez as (z' & Ez). exists z'. rewrite Ez. reflexivity.
  - (* an [int] times an [int] rate *)
    unfold py_div_float, as_float in Hy. cbn [as_num to_float] in Hy.
    destruct (@of_int float binary64 (n * k)) as [z|] eqn:Ez;
      [|cbn [bind] in Hy; discriminate Hy].
    cbn [truthy] in Tu. apply negb_true_iff, Z.eqb_neq in Tu.
    apply (@of_int_smaller _ k) in Ez; [|nia].
    destruct Ez as (z' & Ez). exists z'. rewrite Ez. reflexivity.
  - (* a [float] times an [int] rate *)
    destruct (@of_int float binary64 k) as [z|];
      [eexists; reflexivity | cbn [bind] in Hm; discriminate Hm].
Qed.

(** X7. In binary64 every report is formatted.  Whenever the computation
    gets as far as a report, the f-string of lines 123-140 is evaluated
    without an exception, and the tool returns that text: the generic
    error text of line 143 is never the outcome of the formatting.  Every
    printed value converts to a [float]; the one that has not been through
    the arithmetic as it is printed, the exchange rate, converts because
    an [int] rate beyond the range of [float] has already made the
    arithmetic raise [OverflowError]. *)
Theorem report_renders (exn_text : exn -> str) (unicode_lower : str -> str)
    (metal : str) (net : upstream float) (q : quote float) :
  fetch_metal_price unicode_lower metal net = Ret (Report q) ->
  (exists r, as_float (exchange_rate q) = Ret r)
  /\ exists text,
       render (report_pieces q) = Ret text
       /\ fetch_metal_price_text exn_text unicode_lower metal net = text.
Proof.
  intros Hq.
  destruct (report_rate_converts _ _ _ Hq) as (r & Hr).
  split; [exists r; exact Hr|].
  destruct (report_numbers _ _ _ Hq) as (s & b & Hs & Hb).
  destruct (report_text_start q Hs Hb Hr) as (rest & Ht).
  eexists. split; [exact Ht|].
  exact (report_text exn_text _ _ _ Hq Ht).
Qed.

(** ** The price that the web client reads *)

Section Outcome.
Context {F : Type} `{PyFloat F} `{PyFloatText F}.

Lemma extract_usd_price_needs_dollar (price_text : str) :
  ~ In 36%N price_text ->
  ClientUI.extract_usd_price (F := F) price_text = Ret None.
Proof.
  intros Hd. unfold ClientUI.extract_usd_price.
  destruct (re_search_usd price_text) as [g|] eqn:Hs; [|reflexivity].
  exfalso. exact (Hd (re_search_usd_dollar _ Hs)).
Qed.

Lemma extract_usd_price_raises (price_text : str) (e : exn) :
  ClientUI.extract_usd_price (F := F) price_text = Raise e -> e = ValueError.
Proof.
  unfold ClientUI.extract_usd_price.
  destruct (re_search_usd price_text) as [g|] eqn:Hs; [|discriminate].
  pose proof (py_float_group (F := F) (re_search_usd_shape _ Hs)) as Hg.
  destruct (existsb is_digit g).
  - destruct Hg as [x ->]. discriminate.
  - rewrite Hg. cbn [bind]. congruence.
Qed.

(** X9. What [extract_usd_price] does on any text. Without a match of the
    pattern it returns [None]. With a match it returns a float when the
    captured text has a digit, and raises [ValueError] when it has none
    (a price written as a lone comma, or commas and a point): the pattern
    admits a group of commas only, and [float] rejects what is left of
    it. No other exception is raised. *)
Theorem extract_usd_price_outcome (price_text : str) :
  match re_search_usd price_text with
  | None => ClientUI.extract_usd_price (F := F) price_text = Ret None
  | Some group1 =>
      if existsb is_digit group1
      then exists x : F,
             ClientUI.extract_usd_price price_text = Ret (Some x)
      else ClientUI.extract_usd_price (F := F) price_text = Raise ValueError
  end.
Proof.
  unfold ClientUI.extract_usd_price.
  destruct (re_search_usd price_text) as [g|] eqn:Hs; [|reflexivity].
  pose proof (py_float_group (F := F) (re_search_usd_shape _ Hs)) as Hg.
  destruct (existsb is_digit g).
  - destruct Hg as [x ->]. exists x. reflexivity.
  - rewrite Hg. reflexivity.
Qed.

(** X12. The errors of [calculate_gold_silver_ratio]. When it returns the
    error dictionary for an exception [e], either the session or one of
    the two tool calls raised [e], or [e] is [IndexError] (a result
    without content), [AttributeError] (a first content without text) or
    [ValueError] (a captured price without a digit). In particular the
    division never raises [ZeroDivisionError]. *)
Theorem ratio_errors (session : py unit)
    (gold_call silver_call : py (list content)) (e : exn) :
  ClientUI.calculate_gold_silver_ratio (F := F) session gold_call silver_call
  = RatioError e ->
  session = Raise e \/ gold_call = Raise e \/ silver_call = Raise e
  \/ In e [IndexError; AttributeError; ValueError].
Proof.
  unfold ClientUI.calculate_gold_silver_ratio.
  destruct session as [[]|e0]; cbn [bind];
    [|intros E; injection E as <-; left; reflexivity].
  destruct gold_call as [gr|e0]; cbn [bind];
    [|intros E; injection E as <-; right; left; reflexivity].
  destruct silver_call as [sr|e0]; cbn [bind];
    [|intros E; injection E as <-; right; right; left; reflexivity].
  intros E. do 3 right.
  destruct gr as [|[gt|] gr]; cbn [first_text bind] in E;
    try (injection E as <-; cbn; tauto).
  destruct sr as [|[st|] sr]; cbn [first_text bind] in E;
    try (injection E as <-; cbn; tauto).
  destruct (ClientUI.extract_usd_price gt) as [g|e0] eqn:Eg; cbn [bind] in E.
  2:{ injection E as <-. rewrite (extract_usd_price_raises _ Eg). cbn. tauto. }
  destruct (ClientUI.extract_usd_price st) as [s|e0] eqn:Es; cbn [bind] in E.
  2:{ injection E as <-. rewrite (extract_usd_price_raises _ Es). cbn. tauto. }
  destruct g as [g|]; [|discriminate]. destruct s as [s|]; [|discriminate].
  destruct (nonzero g); cbn [andb] in E; [|discriminate].
  destruct (nonzero s) eqn:Ns; [|discriminate].
  unfold py_div_float in E. cbn [as_float as_num to_float bind] in E.
  rewrite Ns in E. discriminate.
Qed.

End Outcome.

Section Extraction.
Context {F : Type} `{PyFloat F} `{PyFloatText F}.
Variable unicode_lower : str -> str.

(** The first price of a report, read back. *)
Lemma extract_report_price (metal : str) (net : upstream F)
    (q : quote F) (s r : F) (n : N) (d : positive) :
  fetch_metal_price unicode_lower metal net = Ret (Report q) ->
  as_float (current_price_usd q) = Ret s ->
  as_float (exchange_rate q) = Ret r ->
  view s = VFinite false n d ->
  exists text,
    render (report_pieces q) = Ret text
    /\ ClientUI.extract_usd_price text
       = Ret (Some (of_decimal (round_half_even (n * 100) d) 2)).
Proof.
  intros Hq Hs Hr Hv.
  destruct (report_numbers _ _ _ Hq) as (s' & b & Hs' & Hb).
  rewrite Hs in Hs'. injection Hs' as <-.
  destruct (report_text_start q Hs Hb Hr) as (rest & Ht).
  eexists. split; [exact Ht|].
  rewrite (format_fixed2_finite _ Hv). cbv zeta.
  set (cents := round_half_even (n * 100) d).
  set (price := digits (cents / 100) ++ 46%N :: zfill 2 (digits (cents mod 100))).
  match goal with
  | |- ClientUI.extract_usd_price (?h ++ ?g ++ _ ++ price ++ _) = _ =>
      replace (h ++ g ++ (u " grams" ++ [10%N; 10%N; 65533%N; 128200%N]
                            ++ u " Per Ounce:" ++ [10%N] ++ u "  USD: $")
                 ++ price ++ [10%N] ++ rest)
        with ((h ++ g ++ (u " grams" ++ [10%N; 10%N; 65533%N; 128200%N]
                            ++ u " Per Ounce:" ++ [10%N] ++ u "  "))
                ++ u "USD: $" ++ price ++ 10%N :: rest)
        by (rewrite <- !app_assoc; reflexivity)
  end.
  apply extract_price_text.
  rewrite !forallb_app.
  rewrite (number_chars_no_U _ (format_float_chars Fixed4 GRAMS_PER_OUNCE)).
  apply report_metal in Hq.
  destruct Hq as [(_ & -> & -> & _)|(_ & -> & -> & _)]; reflexivity.
Qed.

(** X11. The messages of the tool for a known metal (data that could not
    be fetched, a price that was not found) hold no dollar price:
    [extract_usd_price] returns [None] on them, without an exception. *)
Theorem message_has_no_price (metal : str) (net : upstream F)
    (config : metal_config F) (text : str) :
  assoc (normalized unicode_lower metal) METAL_CONFIG = Some config ->
  fetch_metal_price unicode_lower metal net = Ret (Message text) ->
  ClientUI.extract_usd_price (F := F) text = Ret None.
Proof.
  intros Hc Hr. apply message_inv in Hr. cbv zeta in Hr.
  destruct Hr as [[Hn _]|[Hm Ht]]; [congruence|].
  apply extract_usd_price_needs_dollar, not_in_text.
  destruct Hm as [Hm|Hm]; rewrite Hm in Ht; destruct Ht as [-> | ->];
    vm_compute; reflexivity.
Qed.

End Extraction.

(** ** The tool and the web client together *)

Section EndToEnd.
Context {F : Type} `{PyFloat F} `{PyFloatText F}.
Variable exn_text : exn -> str.
Variable unicode_lower : str -> str.

(** X10. Round trip between the tool and the web client. On the text
    that the tool returns for any report whose dollar price per ounce is
    a finite float that is not negative, [extract_usd_price] returns that
    price rounded to cents (ties to even) and read back as a float: it
    finds the price per ounce, not the one per 10 grams further down, and
    the two-decimal format is all that is lost. *)
Theorem extract_reads_ounce_price (metal : str) (net : upstream F)
    (q : quote F) (s r : F) (n : N) (d : positive) :
  fetch_metal_price unicode_lower metal net = Ret (Report q) ->
  as_float (current_price_usd q) = Ret s ->
  as_float (exchange_rate q) = Ret r ->
  view s = VFinite false n d ->
  ClientUI.extract_usd_price
    (fetch_metal_price_text exn_text unicode_lower metal net)
  = Ret (Some (of_decimal (round_half_even (n * 100) d) 2)).
Proof.
  intros Hq Hs Hr Hv.
  destruct (extract_report_price _ _ _ Hq Hs Hr Hv) as (text & Ht & He).
  rewrite (report_text exn_text _ _ _ Hq Ht). exact He.
Qed.

(** X13. The tool and the web client together. When the tool reports on
    gold and on silver and the two dollar prices per ounce are finite
    floats that are not negative, the dictionary of
    [calculate_gold_silver_ratio] on the two texts holds the two prices
    rounded to cents and their quotient; when a price rounds to 0.00 it is
    the dictionary without a ratio. The ratio is computed from what the
    text shows, not from the prices that the services sent. *)
Theorem ratio_of_server_reports (gold_net silver_net : upstream F)
    (gold_quote silver_quote : quote F) (gold_usd silver_usd : F)
    (gold_rate silver_rate : F) (ng ns : N) (dg ds : positive) :
  fetch_metal_price unicode_lower (u "gold") gold_net
  = Ret (Report gold_quote) ->
  as_float (current_price_usd gold_quote) = Ret gold_usd ->
  as_float (exchange_rate gold_quote) = Ret gold_rate ->
  view gold_usd = VFinite false ng dg ->
  fetch_metal_price unicode_lower (u "silver") silver_net
  = Ret (Report silver_quote) ->
  as_float (current_price_usd silver_quote) = Ret silver_usd ->
  as_float (exchange_rate silver_quote) = Ret silver_rate ->
  view silver_usd = VFinite false ns ds ->
  let gold_text :=
    fetch_metal_price_text exn_text unicode_lower (u "gold") gold_net in
  let silver_text :=
    fetch_metal_price_text exn_text unicode_lower (u "silver") silver_net in
  let gold := of_decimal (round_half_even (ng * 100) dg) 2 in
  let silver := of_decimal (round_half_even (ns * 100) ds) 2 in
  ClientUI.calculate_gold_silver_ratio (Ret tt)
    (Ret [TextContent gold_text]) (Ret [TextContent silver_text])
  = if nonzero gold && nonzero silver
    then Ratio (fdiv gold silver) gold silver gold_text silver_text
    else NoPrices gold_text silver_text.
Proof.
  intros Hg Hgs Hgr Hgv Hs Hss Hsr Hsv gold_text silver_text gold silver.
  destruct (extract_report_price _ _ _ Hg Hgs Hgr Hgv) as (tg & Rg & Eg).
  destruct (extract_report_price _ _ _ Hs Hss Hsr Hsv) as (ts & Rs & Es).
  subst gold_text silver_text.
  rewrite (report_text exn_text _ _ _ Hg Rg), (report_text exn_text _ _ _ Hs Rs).
  unfold ClientUI.calculate_gold_silver_ratio.
  cbn [bind first_text]. rewrite Eg, Es. cbn [bind].
  fold gold silver.
  destruct (nonzero gold); cbn [andb]; [|reflexivity].
  destruct (nonzero silver) eqn:Ns; [|reflexivity].
  unfold py_div_float. cbn [as_float as_num to_float bind]. rewrite Ns.
  reflexivity.
Qed.

End EndToEnd.



(** ** Showing a price text *)

Lemma breaks_prefix (p s X : str) :
  breaks p s = true -> strip_prefix p (s ++ X) = None.
Proof.
  revert s. induction p as [|c p IH]; intros s Hb; [destruct s; discriminate Hb|].
  destruct s as [|x s]; [discriminate Hb|]. cbn [breaks] in Hb.
  cbn [app strip_prefix]. destruct (x =? c)%N; [apply IH; exact Hb | reflexivity].
Qed.

Lemma strip_prefix_app (p s X r : str) :
  strip_prefix p s = Some r -> strip_prefix p (s ++ X) = Some (r ++ X).
Proof.
  revert s. induction p as [|c p IH]; intros s Hs.
  - cbn in Hs. injection Hs as <-. reflexivity.
  - destruct s as [|x s]; [discriminate Hs|]. cbn [app strip_prefix] in *.
    destruct (x =? c)%N; [apply IH; exact Hs | discriminate Hs].
Qed.

Lemma contains_lit_skip (p a X : str) :
  clear_of p a = true -> contains p (a ++ X) = contains p X.
Proof.
  induction a as [|x a IH]; intros Hc; [reflexivity|].
  cbn [clear_of] in Hc. apply andb_true_iff in Hc as [Hb Hc].
  change ((x :: a) ++ X) with (x :: (a ++ X)). cbn [contains].
  change (x :: (a ++ X)) with ((x :: a) ++ X).
  rewrite (breaks_prefix _ _ X Hb). apply IH. exact Hc.
Qed.

Lemma contains_lit_hit (p a X : str) :
  contains p a = true -> contains p (a ++ X) = true.
Proof.
  induction a as [|x a IH]; intros Hc.
  - destruct p as [|c p]; [|discriminate Hc]. destruct X; reflexivity.
  - cbn [contains] in Hc. change ((x :: a) ++ X) with (x :: (a ++ X)).
    cbn [contains]. change (x :: (a ++ X)) with ((x :: a) ++ X).
    destruct (strip_prefix p (x :: a)) as [r|] eqn:E.
    + rewrite (strip_prefix_app p (x :: a) X E). reflexivity.
    + destruct (strip_prefix p ((x :: a) ++ X)); [reflexivity|].
      apply IH. exact Hc.
Qed.

Lemma off_number_breaks (p : str) (x : N) (t : str) :
  off_number p = true -> is_number_char x = true -> breaks p (x :: t) = true.
Proof.
  destruct p as [|c p]; [discriminate|]. cbn [off_number breaks].
  intros Hc Hx. destruct (N.eqb_spec x c) as [->|]; [|reflexivity].
  rewrite Hx in Hc. discriminate Hc.
Qed.

Lemma off_number_clear (p n : str) :
  off_number p = true -> forallb is_number_char n = true -> clear_of p n = true.
Proof.
  intros Hp. induction n as [|x n IH]; intros Hn; [reflexivity|].
  cbn [forallb] in Hn. apply andb_true_iff in Hn as [Hx Hn].
  cbn [clear_of]. rewrite (@off_number_breaks p x n Hp Hx), (IH Hn). reflexivity.
Qed.

Lemma contains_hole (p n X : str) :
  off_number p = true -> number_text n -> contains p (n ++ X) = contains p X.
Proof.
  intros Hp [Hn _]. apply contains_lit_skip, off_number_clear; assumption.
Qed.

Lemma contains_hole_end (p n : str) :
  off_number p = true -> number_text n -> contains p n = false.
Proof.
  intros Hp Hn. rewrite <- (app_nil_r n), (@contains_hole p n [] Hp Hn).
  destruct p; [discriminate Hp | reflexivity].
Qed.

Lemma strip_prefix_length (p s r : str) :
  strip_prefix p s = Some r -> (List.length p <= List.length s)%nat.
Proof.
  revert s. induction p as [|c p IH]; intros s Hs; [cbn; lia|].
  destruct s as [|x s]; [discriminate Hs|]. cbn [strip_prefix] in Hs.
  destruct (x =? c)%N; [|discriminate Hs]. apply IH in Hs. cbn. lia.
Qed.

Lemma strip_prefix_none_app (p s X : str) :
  strip_prefix p s = None -> (List.length p <= List.length s)%nat ->
  strip_prefix p (s ++ X) = None.
Proof.
  revert s. induction p as [|c p IH]; intros s Hs Hl; [discriminate Hs|].
  destruct s as [|x s]; [cbn in Hl; lia|]. cbn [app strip_prefix] in *.
  destruct (x =? c)%N; [|reflexivity]. apply IH; [exact Hs | cbn in Hl; lia].
Qed.

Lemma find_sep_length (sep s b r : str) :
  find_sep sep s = Some (b, r) -> (List.length sep <= List.length s)%nat.
Proof.
  revert b r. induction s as [|c s IH]; intros b r Hf; cbn [find_sep] in Hf.
  - destruct (strip_prefix sep []) eqn:E; [|discriminate Hf].
    exact (strip_prefix_length _ _ E).
  - destruct (strip_prefix sep (c :: s)) eqn:E.
    + exact (strip_prefix_length _ _ E).
    + destruct (find_sep sep s) as [[b' r']|]; [|discriminate Hf].
      specialize (IH b' r' eq_refl). cbn. lia.
Qed.

(** The first occurrence of [sep] in [a] is the first one in [a ++ X]. *)
Lemma find_sep_hit (sep a X b r : str) :
  find_sep sep a = Some (b, r) -> find_sep sep (a ++ X) = Some (b, r ++ X).
Proof.
  revert b r. induction a as [|c a IH]; intros b r Hf.
  - cbn [find_sep] in Hf.
    destruct (strip_prefix sep []) as [r0|] eqn:E; [|discriminate Hf].
    injection Hf as <- <-. destruct sep; [|discriminate E].
    cbn in E. injection E as <-. destruct X; reflexivity.
  - cbn [find_sep] in Hf. change ((c :: a) ++ X) with (c :: (a ++ X)).
    cbn [find_sep]. change (c :: (a ++ X)) with ((c :: a) ++ X).
    destruct (strip_prefix sep (c :: a)) as [r0|] eqn:E.
    + injection Hf as <- <-. rewrite (strip_prefix_app _ _ X E). reflexivity.
    + destruct (find_sep sep a) as [[b' r']|] eqn:Ea; [|discriminate Hf].
      injection Hf as <- <-.
      rewrite (strip_prefix_none_app _ _ X E).
      * rewrite (IH b' r' eq_refl). reflexivity.
      * apply find_sep_length in Ea. cbn. lia.
Qed.

Lemma find_sep_none (sep s : str) :
  contains sep s = false -> find_sep sep s = None.
Proof.
  induction s as [|c s IH]; cbn [contains find_sep]; intros Hc.
  - destruct (strip_prefix sep []); [discriminate Hc | reflexivity].
  - destruct (strip_prefix sep (c :: s)); [discriminate Hc|].
    rewrite (IH Hc). reflexivity.
Qed.

Lemma second_piece_none (sep s : str) :
  contains sep s = false -> second_piece sep s = Raise IndexError.
Proof.
  intros Hc. unfold second_piece. rewrite (find_sep_none _ _ Hc). reflexivity.
Qed.

(** [strip] leaves a text alone that neither starts nor ends with white
    space. *)
Lemma str_strip_keeps (s : str) :
  starts_clean s -> starts_clean (rev s) -> str_strip s = s.
Proof.
  intros Hs Hr. unfold str_strip, rstrip.
  rewrite (lstrip_fixed _ Hs), (lstrip_fixed _ Hr). apply rev_involutive.
Qed.

Lemma number_char_not_space (c : N) : is_number_char c = true -> isspace c = false.
Proof.
  intros Hc. destruct (isspace c) eqn:Hs; [|reflexivity].
  unfold is_number_char, is_digit in Hc. unfold isspace in Hs.
  cbn [existsb] in Hc. rewrite orb_false_r in Hc.
  repeat first [ setoid_rewrite orb_true_iff in Hc
               | setoid_rewrite andb_true_iff in Hc
               | setoid_rewrite N.eqb_eq in Hc
               | setoid_rewrite N.leb_le in Hc
               | setoid_rewrite orb_true_iff in Hs
               | setoid_rewrite andb_true_iff in Hs
               | setoid_rewrite N.eqb_eq in Hs
               | setoid_rewrite N.leb_le in Hs ].
  lia.
Qed.

Lemma number_text_end (a n : str) : number_text n -> starts_clean (rev (a ++ n)).
Proof.
  intros [Hn Hne]. destruct (exists_last Hne) as (n' & c & ->).
  rewrite app_assoc, rev_app_distr. cbn [rev app starts_clean].
  apply number_char_not_space.
  rewrite forallb_app in Hn. apply andb_true_iff in Hn as [_ Hc].
  cbn [forallb] in Hc. rewrite andb_true_r in Hc. exact Hc.
Qed.

Lemma str_strip_number (a n : str) :
  starts_clean (a ++ n) -> number_text n -> str_strip (a ++ n) = a ++ n.
Proof.
  intros Ha Hn. apply str_strip_keeps; [exact Ha | apply number_text_end, Hn].
Qed.

(** Splitting into lines undoes joining lines. *)
Lemma split_on_line (c : N) (a b : str) :
  forallb (fun x => negb (x =? c)%N) a = true ->
  split_on c (a ++ c :: b) = a :: split_on c b.
Proof.
  induction a as [|x a IH]; intros Ha; cbn [app split_on].
  - rewrite N.eqb_refl. reflexivity.
  - cbn [forallb] in Ha. apply andb_true_iff in Ha as [Hx Ha].
    apply negb_true_iff in Hx. rewrite Hx, (IH Ha). reflexivity.
Qed.

Lemma split_on_last (c : N) (a : str) :
  forallb (fun x => negb (x =? c)%N) a = true -> split_on c a = [a].
Proof.
  induction a as [|x a IH]; intros Ha; cbn [split_on]; [reflexivity|].
  cbn [forallb] in Ha. apply andb_true_iff in Ha as [Hx Ha].
  apply negb_true_iff in Hx. rewrite Hx, (IH Ha). reflexivity.
Qed.

Lemma split_on_join (c : N) (line : str) (lines : list str) :
  forallb (forallb (fun x => negb (x =? c)%N)) (line :: lines) = true ->
  split_on c (join [c] (line :: lines)) = line :: lines.
Proof.
  revert line. induction lines as [|l lines IH]; intros line Hl.
  - cbn [forallb] in Hl. rewrite andb_true_r in Hl.
    cbn [join]. apply split_on_last, Hl.
  - cbn [forallb] in Hl. apply andb_true_iff in Hl as [Hline Hl].
    change (join [c] (line :: l :: lines))
      with (line ++ c :: join [c] (l :: lines)).
    rewrite (split_on_line _ _ _ Hline), (IH l Hl). reflexivity.
Qed.

Lemma number_text_no_newline (n : str) :
  number_text n -> forallb (fun x => negb (x =? 10)%N) n = true.
Proof.
  intros [Hn _]. apply (forallb_imp is_number_char); [|exact Hn].
  intros c Hc. destruct (N.eqb_spec c 10) as [->|]; [discriminate Hc | reflexivity].
Qed.

Section NumberText.
Context {F : Type} `{PyFloat F} `{PyFloatText F}.

Lemma format_float_text (spec : format_spec) (x : F) :
  number_text (format_float spec x).
Proof.
  split; [apply format_float_chars|].
  unfold format_float. destruct (view x) as [|negative|negative n d].
  - discriminate.
  - destruct negative; discriminate.
  - intros E. apply app_eq_nil in E as [_ E]. apply app_eq_nil in E as [_ E].
    discriminate E.
Qed.
End NumberText.

Section LinesOfReport.
Context {F : Type} `{PyFloat F} `{PyFloatText F}.

(** The formatted report is its twenty lines, joined by line breaks. *)
Lemma report_text_lines (q : quote F) (s b r : F) :
  as_float (current_price_usd q) = Ret s ->
  as_float (current_price_inr q) = Ret b ->
  as_float (exchange_rate q) = Ret r ->
  render (report_pieces q) = Ret (join [10%N] (report_lines q s b r)).
Proof.
  intros Hs Hb Hr.
  assert (Ht : exists text, render (report_pieces q) = Ret text
                            /\ text = join [10%N] (report_lines q s b r)).
  { eexists. split.
    - unfold report_pieces. cbn [app].
      repeat first
        [ apply render_text
        | apply (render_text [10%N])
        | eapply render_formatted; [first [eassumption | reflexivity]|]
        | reflexivity ].
    - cbv beta zeta delta
        [report_lines heading_line conversion_line per_ounce_line
           per_10_grams_line usd_line base_line gst_line duty_line
           market_line rate_line tax_line].
      repeat first [rewrite <- app_assoc | progress cbn [app join]].
      reflexivity. }
  destruct Ht as (text & Ht & ->). exact Ht.
Qed.

End LinesOfReport.

(** The tests of [display_price_data] on a line that is made of literal
    text and formatted numbers. *)
Ltac number_side :=
  first [ assumption | apply format_float_text | vm_compute; reflexivity ].

Ltac eval_contains :=
  repeat match goal with
  | |- context [contains ?p (?a ++ ?X)] =>
      first
        [ rewrite (@contains_hole p a X) by number_side
        | rewrite (@contains_lit_hit p a X) by (vm_compute; reflexivity)
        | rewrite (@contains_lit_skip p a X) by (vm_compute; reflexivity) ]
  | |- context [contains ?p ?a] =>
      first
        [ rewrite (@contains_hole_end p a) by number_side
        | let v := eval vm_compute in (contains p a) in
          lazymatch v with
          | true => change (contains p a) with true
          | false => change (contains p a) with false
          end ]
  end.

Lemma find_sep_skip (sep a X : str) :
  clear_of sep a = true ->
  find_sep sep (a ++ X)
  = match find_sep sep X with
    | Some (b, r) => Some (a ++ b, r)
    | None => None
    end.
Proof.
  induction a as [|x a IH]; intros Hc.
  - cbn [app]. destruct (find_sep sep X) as [[b r]|]; reflexivity.
  - cbn [clear_of] in Hc. apply andb_true_iff in Hc as [Hb Hc].
    change ((x :: a) ++ X) with (x :: (a ++ X)). cbn [find_sep].
    change (x :: (a ++ X)) with ((x :: a) ++ X).
    rewrite (breaks_prefix _ _ X Hb), (IH Hc).
    destruct (find_sep sep X) as [[b r]|]; reflexivity.
Qed.

Lemma usd_line_metric (n : str) :
  number_text n ->
  line_metric (usd_line n) = Ret (Some (Metric usd_label ([36%N] ++ n))).
Proof.
  intros Hn. unfold line_metric, usd_line. eval_contains. cbn [andb].
  unfold second_piece.
  erewrite find_sep_hit by (vm_compute; reflexivity).
  rewrite find_sep_none by (eval_contains; reflexivity).
  cbn [bind]. rewrite str_strip_number; [reflexivity | exact eq_refl | exact Hn].
Qed.

Lemma base_line_metric (n : str) :
  number_text n ->
  line_metric (base_line n) = Ret (Some (Metric inr_label ([8377%N] ++ n))).
Proof.
  intros Hn. unfold line_metric, base_line. eval_contains. cbn [andb].
  unfold second_piece.
  erewrite find_sep_hit by (vm_compute; reflexivity).
  rewrite app_nil_l.
  rewrite find_sep_none by (eval_contains; reflexivity).
  cbn [bind]. rewrite str_strip_number; [reflexivity | exact eq_refl | exact Hn].
Qed.

Lemma market_line_metric (n : str) :
  number_text n ->
  line_metric (market_line n)
  = Ret (Some (Metric market_label ([8377%N] ++ n))).
Proof.
  intros Hn. unfold line_metric, market_line. eval_contains. cbn [andb].
  unfold second_piece.
  erewrite find_sep_hit by (vm_compute; reflexivity).
  rewrite app_nil_l.
  rewrite find_sep_none by (eval_contains; reflexivity).
  cbn [bind]. rewrite str_strip_number; [reflexivity | exact eq_refl | exact Hn].
Qed.

Lemma rate_line_metric (n : str) :
  number_text n ->
  line_metric (rate_line n)
  = Ret (Some (Metric rate_label (u "1 USD = " ++ [8377%N] ++ n))).
Proof.
  intros Hn. unfold line_metric, rate_line. eval_contains. cbn [andb].
  unfold second_piece.
  rewrite find_sep_skip by (vm_compute; reflexivity).
  erewrite find_sep_hit by (vm_compute; reflexivity).
  rewrite find_sep_none by (eval_contains; reflexivity).
  cbn [bind]. rewrite app_assoc.
  rewrite str_strip_number; [|exact eq_refl | exact Hn].
  rewrite <- app_assoc. reflexivity.
Qed.

Lemma gst_line_metric (n1 n2 : str) :
  number_text n1 -> number_text n2 -> line_metric (gst_line n1 n2) = Ret None.
Proof.
  intros H1 H2. unfold line_metric, gst_line. eval_contains. reflexivity.
Qed.

Lemma duty_line_metric (n0 n1 n2 : str) :
  number_text n0 -> number_text n1 -> number_text n2 ->
  line_metric (duty_line n0 n1 n2) = Ret None.
Proof.
  intros H0 H1 H2. unfold line_metric, duty_line. eval_contains. reflexivity.
Qed.

Lemma conversion_line_metric (n : str) :
  number_text n -> line_metric (conversion_line n) = Ret None.
Proof.
  intros Hn. unfold line_metric, conversion_line. eval_contains. reflexivity.
Qed.

Lemma tax_line_metric (n1 n2 : str) :
  number_text n1 -> number_text n2 -> line_metric (tax_line n1 n2) = Ret None.
Proof.
  intros H1 H2. unfold line_metric, tax_line. eval_contains. reflexivity.
Qed.

Lemma heading_line_metric (symbol title : str) :
  (symbol = [129351%N] /\ title = u "Gold")
  \/ (symbol = [129352%N] /\ title = u "Silver") ->
  line_metric (heading_line symbol title) = Ret None
  /\ forallb (fun x => negb (x =? 10)%N) (heading_line symbol title) = true.
Proof.
  intros [[-> ->]|[-> ->]]; split; vm_compute; reflexivity.
Qed.

Section Display.
Context {F : Type} `{PyFloat F} `{PyFloatText F}.
Variable exn_text : exn -> str.
Variable unicode_lower : str -> str.

Lemma report_lines_split (metal : str) (net : upstream F) (q : quote F)
    (s b r : F) :
  fetch_metal_price unicode_lower metal net = Ret (Report q) ->
  split_on 10 (join [10%N] (report_lines q s b r)) = report_lines q s b r.
Proof.
  intros Hq. apply split_on_join.
  assert (Hh : forallb (fun x => negb (x =? 10)%N)
                 (heading_line (metal_symbol q) (metal_title q)) = true).
  { apply heading_line_metric. apply report_metal in Hq.
    destruct Hq as [(_ & -> & -> & _)|(_ & -> & -> & _)]; auto. }
  cbv beta zeta delta [report_lines]. cbn [forallb]. rewrite Hh.
  unfold conversion_line, per_ounce_line, per_10_grams_line, usd_line,
    base_line, gst_line, duty_line, market_line, rate_line, tax_line.
  rewrite !forallb_app.
  repeat match goal with
         | |- context [forallb ?f (format_float ?sp ?x)] =>
             rewrite (number_text_no_newline (format_float_text sp x))
         end.
  reflexivity.
Qed.

(** What the page shows for a report. *)
Lemma display_on_report (metal metal_type : str) (net : upstream F)
    (q : quote F) (r : F) :
  fetch_metal_price unicode_lower metal net = Ret (Report q) ->
  as_float (exchange_rate q) = Ret r ->
  exists s b,
    as_float (current_price_usd q) = Ret s
    /\ as_float (current_price_inr q) = Ret b
    /\ display_price_data
         (fetch_metal_price_text exn_text unicode_lower metal net) metal_type
       = ([ Markdown (u "<div class='price-card'><h3>" ++ [128202%N] ++ u " "
                        ++ str_title metal_type ++ u " Price Data</h3></div>");
            Metric usd_label ([36%N] ++ format_float Fixed2 s);
            Metric inr_label ([8377%N] ++ format_float Grouped2 b);
            Metric market_label
              ([8377%N] ++ format_float Grouped2 (total (ounce_prices q)));
            Metric usd_label
              ([36%N] ++ format_float Fixed2 (price_per_10g_usd q));
            Metric inr_label
              ([8377%N] ++ format_float Grouped2 (price_per_10g_inr q));
            Metric market_label
              ([8377%N] ++ format_float Grouped2 (total (gram_prices q)));
            Metric rate_label
              (u "1 USD = " ++ [8377%N] ++ format_float Fixed2 r);
            Expander ([128203%N] ++ u " View Full Price Details")
              (fetch_metal_price_text exn_text unicode_lower metal net) ],
          Ret tt).
Proof.
  intros Hq Hr. destruct (report_numbers _ _ _ Hq) as (s & b & Hs & Hb).
  exists s, b. split; [exact Hs|]. split; [exact Hb|].
  rewrite (report_text exn_text _ _ _ Hq (report_text_lines q Hs Hb Hr)).
  unfold display_price_data. rewrite (report_lines_split _ _ s b r Hq).
  assert (Hh : line_metric (heading_line (metal_symbol q) (metal_title q))
               = Ret None).
  { apply heading_line_metric. apply report_metal in Hq.
    destruct Hq as [(_ & -> & -> & _)|(_ & -> & -> & _)]; auto. }
  assert (Hshow :
    show_lines (report_lines q s b r)
    = ([ Metric usd_label ([36%N] ++ format_float Fixed2 s);
         Metric inr_label ([8377%N] ++ format_float Grouped2 b);
         Metric market_label
           ([8377%N] ++ format_float Grouped2 (total (ounce_prices q)));
         Metric usd_label
           ([36%N] ++ format_float Fixed2 (price_per_10g_usd q));
         Metric inr_label
           ([8377%N] ++ format_float Grouped2 (price_per_10g_inr q));
         Metric market_label
           ([8377%N] ++ format_float Grouped2 (total (gram_prices q)));
         Metric rate_label
           (u "1 USD = " ++ [8377%N] ++ format_float Fixed2 r) ],
        Ret tt)).
  { cbv beta zeta delta [report_lines]. cbn [show_lines].
    rewrite Hh.
    rewrite !usd_line_metric, !base_line_metric, !market_line_metric,
      rate_line_metric, !gst_line_metric, !duty_line_metric,
      conversion_line_metric, tax_line_metric
      by apply format_float_text.
    change (line_metric []) with (@Ret (option event) None).
    change (line_metric per_ounce_line) with (@Ret (option event) None).
    change (line_metric per_10_grams_line) with (@Ret (option event) None).
    reflexivity. }
  rewrite Hshow. reflexivity.
Qed.

End Display.

Lemma second_piece_raises (sep s : str) (e : exn) :
  second_piece sep s = Raise e -> e = IndexError.
Proof.
  unfold second_piece. destruct (find_sep sep s) as [[b r]|]; [discriminate|].
  intros E. injection E as <-. reflexivity.
Qed.

Lemma line_metric_raises (line : str) (e : exn) :
  line_metric line = Raise e -> e = IndexError.
Proof.
  unfold line_metric.
  repeat match goal with
         | |- context [if ?c then _ else _] => destruct c
         end;
    try discriminate;
    match goal with
    | |- context [second_piece ?sep line] =>
        destruct (second_piece sep line) eqn:E; cbn [bind];
        [discriminate | intros E'; injection E' as <-;
                        exact (@second_piece_raises _ _ _ E)]
    end.
Qed.

Lemma show_lines_raises (lines : list str) (e : exn) :
  snd (show_lines lines) = Raise e -> e = IndexError.
Proof.
  induction lines as [|line lines IH]; cbn [show_lines]; [discriminate|].
  destruct (line_metric line) as [shown|e'] eqn:E.
  - destruct (show_lines lines) as [events outcome]. exact IH.
  - cbn [snd]. intros E'. injection E' as <-. exact (@line_metric_raises _ _ E).
Qed.

Lemma show_lines_stops (lines : list str) (line : str) (e : exn) :
  In line lines -> line_metric line = Raise e ->
  exists e', snd (show_lines lines) = Raise e'.
Proof.
  induction lines as [|l lines IH]; intros Hin Hl; [destruct Hin|].
  cbn [show_lines]. destruct (line_metric l) as [shown|e'] eqn:E.
  - destruct Hin as [->|Hin]; [congruence|].
    destruct (IH Hin Hl) as (e'' & He).
    destruct (show_lines lines) as [events outcome]. exists e''. exact He.
  - exists e'. reflexivity.
Qed.

(** X15. [display_price_data] depends on the blank after the colon. If
    some line of the text has [USD:] and a dollar sign but not [USD:]
    followed by a blank, the second piece of the split does not exist
    and the function raises [IndexError]; the page then shows what came
    before that line and no expander. *)
Theorem display_index_error (price_text metal_type line : str) :
  In line (split_on 10 price_text) ->
  contains (u "USD:") line = true ->
  contains [36%N] line = true ->
  contains (u "USD: ") line = false ->
  snd (display_price_data price_text metal_type) = Raise IndexError.
Proof.
  intros Hin Hk Hd Hs.
  assert (Hl : line_metric line = Raise IndexError).
  { unfold line_metric. rewrite Hk, Hd. cbn [andb].
    rewrite (@second_piece_none _ _ Hs). reflexivity. }
  destruct (@show_lines_stops _ _ _ Hin Hl) as (e & He).
  pose proof (@show_lines_raises _ _ He) as ->.
  unfold display_price_data.
  destruct (show_lines (split_on 10 price_text)) as [events outcome].
  cbn [snd] in He. rewrite He. reflexivity.
Qed.

Section NoMark.
Context {F : Type} `{PyFloat F} `{PyFloatText F}.
Variable exn_text : exn -> str.
Variable unicode_lower : str -> str.

(** X14. The tool and the page together. Whenever the text of the tool is
    free of the cross mark, which is when the page hands it to
    [display_price_data], it is a report, and the function ends normally
    having shown the heading, seven metrics and the expander with the
    full text: dollar price, base price in rupees and market price, first
    per ounce and then per 10 grams, and the exchange rate. No line of a
    report makes the split fail, whatever the numbers are, [nan] and
    [inf] included. The dollar price per 10 grams is shown under the
    label of the price per ounce. *)
Theorem display_after_no_mark (metal metal_type : str) (net : upstream F) :
  has_error_mark (fetch_metal_price_text exn_text unicode_lower metal net)
  = false ->
  exists q s b r,
    fetch_metal_price unicode_lower metal net = Ret (Report q)
    /\ as_float (current_price_usd q) = Ret s
    /\ as_float (current_price_inr q) = Ret b
    /\ as_float (exchange_rate q) = Ret r
    /\ display_price_data
         (fetch_metal_price_text exn_text unicode_lower metal net) metal_type
       = ([ Markdown (u "<div class='price-card'><h3>" ++ [128202%N] ++ u " "
                        ++ str_title metal_type ++ u " Price Data</h3></div>");
            Metric usd_label ([36%N] ++ format_float Fixed2 s);
            Metric inr_label ([8377%N] ++ format_float Grouped2 b);
            Metric market_label
              ([8377%N] ++ format_float Grouped2 (total (ounce_prices q)));
            Metric usd_label
              ([36%N] ++ format_float Fixed2 (price_per_10g_usd q));
            Metric inr_label
              ([8377%N] ++ format_float Grouped2 (price_per_10g_inr q));
            Metric market_label
              ([8377%N] ++ format_float Grouped2 (total (gram_prices q)));
            Metric rate_label
              (u "1 USD = " ++ [8377%N] ++ format_float Fixed2 r);
            Expander ([128203%N] ++ u " View Full Price Details")
              (fetch_metal_price_text exn_text unicode_lower metal net) ],
          Ret tt).
Proof.
  intros Hm.
  destruct (no_mark_report _ _ _ _ Hm) as (q & Hq & Ht).
  destruct (render_field _ _ _ Ht (rate_field q)) as (r & Hr).
  destruct (@display_on_report F _ _ exn_text unicode_lower metal metal_type
              net q r Hq Hr) as (s & b & Hs & Hb & Hd).
  exists q, s, b, r. repeat split; assumption.
Qed.

(** X16. The gold and silver pages never fail. Let the session and the
    call of the tool end in any way, as long as a text in first place of
    the result is the text of the tool for some answer of the services.
    Then the page ends normally and shows either the error card alone
    (the session or the call failed, the result had no text, or the tool
    answered with a message or an error) or the heading, seven metrics
    and the expander of a report. *)
Theorem metal_rate_page_never_fails (session : py unit)
    (call : py (list content)) (metal : str) :
  (forall text rest,
      call = Ret (TextContent text :: rest) ->
      exists net : upstream F,
        text = fetch_metal_price_text exn_text unicode_lower metal net) ->
  exists events,
    metal_rate_page exn_text session call metal = (events, Ret tt)
    /\ (events
        = [Markdown (u "<div class='error-card'>"
                       ++ ClientUI.fetch_metal_price exn_text session call
                            metal
                       ++ u "</div>")]
        \/ List.length events = 9%nat).
Proof.
  intros Htool. unfold metal_rate_page. cbv zeta.
  destruct (has_error_mark
              (ClientUI.fetch_metal_price exn_text session call metal))
    eqn:Hm.
  - eexists. split; [reflexivity | left; reflexivity].
  - unfold ClientUI.fetch_metal_price in *.
    destruct session as [[]|e]; cbn [bind] in *; [|discriminate Hm].
    destruct call as [[|[text|] rest]|e]; cbn [bind first_text] in *;
      try discriminate Hm.
    destruct (Htool text rest eq_refl) as (net & ->).
    destruct (no_mark_report _ _ _ _ Hm) as (q & Hq & Ht).
    destruct (render_field _ _ _ Ht (rate_field q)) as (r & Hr).
    destruct (@display_on_report F _ _ exn_text unicode_lower metal metal
                net q r Hq Hr) as (s & b & _ & _ & Hd).
    rewrite Hd. eexists. split; [reflexivity | right; reflexivity].
Qed.

End NoMark.

(** ** The further properties on sample responses *)

Lemma unable_to_fetch_causes_witness :
  fetch_metal_price ascii_only_lower (u "gold") metal_service_down
  = Ret (Message (unable_to_fetch_message
                    (normalized ascii_only_lower (u "gold")))).
Proof.
  apply (@unable_to_fetch_causes float binary64 ascii_only_lower (u "gold")
           metal_service_down
           {| symbol := [129351%N]; price_key := u "xauPrice";
              import_duty := decimal 6 2 |}
           (JFloat 83%float)).
  - reflexivity.
  - reflexivity.
  - left. exists RequestException. split; [reflexivity | left; reflexivity].
Defined.

Lemma metal_body_not_object_witness :
  fetch_metal_price ascii_only_lower (u "gold") metal_service_array
  = Ret (ErrorFetching (normalized ascii_only_lower (u "gold"))
           AttributeError).
Proof.
  apply (@metal_body_not_object float binary64 ascii_only_lower (u "gold")
           metal_service_array
           {| symbol := [129351%N]; price_key := u "xauPrice";
              import_duty := decimal 6 2 |}
           (JList [])); reflexivity.
Defined.

Lemma huge_int_spot_overflows_witness :
  fetch_metal_price ascii_only_lower (u "gold") huge_spot_net
  = Ret (ErrorFetching (normalized ascii_only_lower (u "gold"))
           OverflowError).
Proof.
  apply (@huge_int_spot_overflows float binary64 ascii_only_lower (u "gold")
           huge_spot_net
           {| symbol := [129351%N]; price_key := u "xauPrice";
              import_duty := decimal 6 2 |}
           (JDict [(u "xauPrice", JInt (2 ^ 1024))]) (JFloat 83%float)
           (NFloat 83%float) (2 ^ 1024));
    first [reflexivity | vm_compute; discriminate].
Defined.

Lemma non_numeric_spot_type_error_witness :
  fetch_metal_price ascii_only_lower (u "gold") text_spot_net
  = Ret (ErrorFetching (normalized ascii_only_lower (u "gold")) TypeError).
Proof.
  apply (@non_numeric_spot_type_error float binary64 ascii_only_lower
           (u "gold") text_spot_net
           {| symbol := [129351%N]; price_key := u "xauPrice";
              import_duty := decimal 6 2 |}
           (JDict [(u "xauPrice", JStr (u "2000.00"))])
           (JStr (u "2000.00")) 83%float);
    reflexivity.
Defined.

Lemma report_names_the_metal_witness :
  (normalized ascii_only_lower (u "gold") = u "gold"
   /\ metal_title gold_quote = u "Gold"
   /\ metal_symbol gold_quote = [129351%N]
   /\ duty_percent gold_quote = 6%float
   /\ total_tax_rate gold_quote = 9%float)
  \/ (normalized ascii_only_lower (u "gold") = u "silver"
      /\ metal_title gold_quote = u "Silver"
      /\ metal_symbol gold_quote = [129352%N]
      /\ duty_percent gold_quote = 7.5%float
      /\ total_tax_rate gold_quote = 10.5%float).
Proof.
  apply (@report_names_the_metal ascii_only_lower (u "gold") gold_net
           gold_quote).
  vm_compute. reflexivity.
Defined.

Lemma report_renders_witness :
  (exists r, as_float (exchange_rate gold_quote) = Ret r)
  /\ exists text,
       render (report_pieces gold_quote) = Ret text
       /\ fetch_metal_price_text (fun _ => []) ascii_only_lower (u "gold")
            gold_net
          = text.
Proof.
  apply (@report_renders (fun _ => []) ascii_only_lower (u "gold") gold_net
           gold_quote).
  vm_compute. reflexivity.
Defined.

Lemma extract_reads_ounce_price_witness :
  ClientUI.extract_usd_price (F := float)
    (fetch_metal_price_text no_text ascii_only_lower (u "gold") gold_net)
  = Ret (Some (of_decimal (round_half_even (2000 * 2 ^ 42 * 100) (2 ^ 42)) 2)).
Proof.
  apply (@extract_reads_ounce_price float binary64 binary64_text no_text
           ascii_only_lower (u "gold") gold_net gold_quote
           2000%float 83%float (2000 * 2 ^ 42) (2 ^ 42));
    vm_compute; reflexivity.
Defined.

Lemma ratio_errors_witness :
  Ret tt = Raise IndexError
  \/ @Ret (list content) [] = Raise IndexError
  \/ Ret [TextContent (u "USD: $25")] = Raise IndexError
  \/ In IndexError [IndexError; AttributeError; ValueError].
Proof.
  apply (@ratio_errors float binary64 binary64_text
           (Ret tt) (Ret []) (Ret [TextContent (u "USD: $25")])).
  reflexivity.
Defined.

Lemma message_has_no_price_witness :
  ClientUI.extract_usd_price (F := float)
    (unable_to_fetch_message (normalized ascii_only_lower (u "gold")))
  = Ret None.
Proof.
  apply (@message_has_no_price float binary64 binary64_text ascii_only_lower
           (u "gold") metal_service_down
           {| symbol := [129351%N]; price_key := u "xauPrice";
              import_duty := decimal 6 2 |}).
  - reflexivity.
  - reflexivity.
Defined.

Lemma ratio_of_server_reports_witness :
  ClientUI.calculate_gold_silver_ratio (Ret tt)
    (Ret [TextContent (fetch_metal_price_text no_text ascii_only_lower (u "gold") gold_net)])
    (Ret [TextContent (fetch_metal_price_text no_text ascii_only_lower (u "silver") silver_net)])
  = Ratio 80%float 2000%float 25%float
      (fetch_metal_price_text no_text ascii_only_lower (u "gold") gold_net)
      (fetch_metal_price_text no_text ascii_only_lower (u "silver") silver_net).
Proof.
  etransitivity.
  - apply (@ratio_of_server_reports float _ _ no_text ascii_only_lower
             gold_net silver_net gold_quote silver_quote
             2000%float 25%float 83%float 83%float
             (2000 * 2 ^ 42) (25 * 2 ^ 48) (2 ^ 42) (2 ^ 48));
      vm_compute; reflexivity.
  - vm_compute. reflexivity.
Defined.

Lemma display_index_error_witness :
  snd (display_price_data (u "Gold" ++ [10%N] ++ u "USD:$2000.00") (u "gold"))
  = Raise IndexError.
Proof.
  apply (@display_index_error (u "Gold" ++ [10%N] ++ u "USD:$2000.00")
           (u "gold") (u "USD:$2000.00")).
  - right. left. reflexivity.
  - reflexivity.
  - reflexivity.
  - reflexivity.
Defined.

Lemma display_after_no_mark_witness :
  exists q s b r,
    fetch_metal_price ascii_only_lower (u "gold") gold_net = Ret (Report q)
    /\ as_float (current_price_usd q) = Ret s
    /\ as_float (current_price_inr q) = Ret b
    /\ as_float (exchange_rate q) = Ret r
    /\ display_price_data
         (fetch_metal_price_text no_text ascii_only_lower (u "gold") gold_net)
         (u "gold")
       = ([ Markdown (u "<div class='price-card'><h3>" ++ [128202%N] ++ u " "
                        ++ str_title (u "gold") ++ u " Price Data</h3></div>");
            Metric usd_label ([36%N] ++ format_float Fixed2 s);
            Metric inr_label ([8377%N] ++ format_float Grouped2 b);
            Metric market_label
              ([8377%N] ++ format_float Grouped2 (total (ounce_prices q)));
            Metric usd_label
              ([36%N] ++ format_float Fixed2 (price_per_10g_usd q));
            Metric inr_label
              ([8377%N] ++ format_float Grouped2 (price_per_10g_inr q));
            Metric market_label
              ([8377%N] ++ format_float Grouped2 (total (gram_prices q)));
            Metric rate_label
              (u "1 USD = " ++ [8377%N] ++ format_float Fixed2 r);
            Expander ([128203%N] ++ u " View Full Price Details")
              (fetch_metal_price_text no_text ascii_only_lower (u "gold")
                 gold_net) ],
          Ret tt).
Proof.
  apply (@display_after_no_mark float binary64 binary64_text no_text
           ascii_only_lower (u "gold") (u "gold") gold_net).
  vm_compute. reflexivity.
Defined.

Lemma metal_rate_page_never_fails_witness :
  exists events,
    metal_rate_page no_text (Ret tt)
      (Ret [TextContent
              (fetch_metal_price_text no_text ascii_only_lower (u "gold")
                 gold_net)])
      (u "gold")
    = (events, Ret tt)
    /\ (events
        = [Markdown (u "<div class='error-card'>"
                       ++ ClientUI.fetch_metal_price no_text (Ret tt)
                            (Ret [TextContent
                                    (fetch_metal_price_text no_text
                                       ascii_only_lower (u "gold") gold_net)])
                            (u "gold")
                       ++ u "</div>")]
        \/ List.length events = 9%nat).
Proof.
  apply (@metal_rate_page_never_fails float binary64 binary64_text no_text
           ascii_only_lower).
  intros text rest E. injection E as <- _. exists gold_net. reflexivity.
Defined.
